(** * Pediatric care assistant: risk evaluator, prompt assembler, dataset loader

    A shallow embedding of [neo4j_client.py], of
    [health_assistant/pediatric_query_constructor.py] and of
    [load_dataset_to_neo4j.py], with the properties of the emergency and
    medication-safety derivations, of the prompt rendering and of the
    dataset ingestion.

    Text is held as the bytes of its UTF-8 encoding, in a Stdlib string:
    a substring of the text is a substring of the bytes, and the whitespace
    that [strip] removes is the whitespace of Python, each character in its
    encoding.  [toLower] folds the letters A..Z; [repr] is that of ASCII
    text.  The graph database is a
    record: the nodes that the code only ever creates with [MERGE] on a key
    property are finite maps on that key, relationships and nodes made with
    [CREATE] are lists in creation order.  The clock ([datetime()]) is an
    argument, in nanoseconds. *)

From Stdlib Require Import ZArith Ascii String List Bool Lia.
From stdpp Require Import base option list gmap strings pretty sorting.

Local Open Scope Z_scope.
Local Open Scope string_scope.

(** ** Text primitives *)

(** One character of [toLower]: the letters A..Z move to a..z. *)
Definition lower_ascii (c : ascii) : ascii :=
  let n := N_of_ascii c in
  if ((65 <=? n) && (n <=? 90))%N then ascii_of_N (n + 32) else c.

(** Cypher [toLower]. *)
Fixpoint toLower (s : string) : string :=
  match s with
  | EmptyString => EmptyString
  | String c s' => String (lower_ascii c) (toLower s')
  end.

(** Cypher [lhs CONTAINS rhs]: [rhs] starts at some position of [lhs]. *)
Fixpoint contains (lhs rhs : string) : bool :=
  String.prefix rhs lhs ||
  match lhs with
  | EmptyString => false
  | String _ rest => contains rest rhs
  end.

(** The code points that Python's [str.isspace] accepts, which are the
    ones that [str.strip()] removes: tab to carriage return, the four
    separators 28..31, the space, U+0085, U+00A0, U+1680, U+2000..U+200A,
    U+2028, U+2029, U+202F, U+205F and U+3000. *)
Definition SPACE_CODE_POINTS : list N :=
  [ 9; 10; 11; 12; 13; 28; 29; 30; 31; 32; 133; 160; 5760;
    8192; 8193; 8194; 8195; 8196; 8197; 8198; 8199; 8200; 8201; 8202;
    8232; 8233; 8239; 8287; 12288 ]%N.

(** The UTF-8 encoding of one code point. *)
Definition utf8 (cp : N) : string :=
  let byte (n : N) (rest : string) := String (ascii_of_N n) rest in
  (if cp <? 128 then byte cp EmptyString
   else if cp <? 2048 then byte (192 + cp / 64) (byte (128 + cp mod 64) EmptyString)
   else if cp <? 65536 then
     byte (224 + cp / 4096)
       (byte (128 + (cp / 64) mod 64) (byte (128 + cp mod 64) EmptyString))
   else
     byte (240 + cp / 262144)
       (byte (128 + (cp / 4096) mod 64)
          (byte (128 + (cp / 64) mod 64) (byte (128 + cp mod 64) EmptyString))))%N.

(** The whitespace characters, as they stand in a text. *)
Definition WHITESPACE : list string := Eval cbv in map utf8 SPACE_CODE_POINTS.

(** [w] is one whitespace character. *)
Definition is_space (w : string) : bool :=
  existsb (String.eqb w) WHITESPACE.

(** [s.lstrip()]: the whitespace characters at the start, of one, two or
    three bytes each, are dropped. *)
Fixpoint lstrip (s : string) : string :=
  match s with
  | EmptyString => EmptyString
  | String b1 rest1 =>
      if is_space (String b1 EmptyString) then lstrip rest1
      else
        match rest1 with
        | EmptyString => s
        | String b2 rest2 =>
            if is_space (String b1 (String b2 EmptyString)) then lstrip rest2
            else
              match rest2 with
              | EmptyString => s
              | String b3 rest3 =>
                  if is_space (String b1 (String b2 (String b3 EmptyString)))
                  then lstrip rest3
                  else s
              end
        end
  end.

(** [s.rstrip()]: the text is cut at the first point from which only
    whitespace is left. *)
Fixpoint rstrip (s : string) : string :=
  match s with
  | EmptyString => EmptyString
  | String b rest =>
      match lstrip s with
      | EmptyString => EmptyString
      | _ => String b (rstrip rest)
      end
  end.

(** [s.strip()] *)
Definition strip (s : string) : string := rstrip (lstrip s).

(** [sep.join(ls)] *)
Definition join (sep : string) (ls : list string) : string :=
  String.concat sep ls.

Definition nl : string := String (ascii_of_N 10) EmptyString.

(** ** Python values and exceptions *)

Set Warnings "-register-all".

Inductive pyval : Type :=
  | PyNone
  | PyBool (b : bool)
  | PyInt (z : Z)
  | PyFloat (repr : string)   (* a float, held as the text [repr] prints *)
  | PyStr (s : string)
  | PyList (l : list pyval)
  | PyDict (d : list (string * pyval)).

Abbreviation pydict := (list (string * pyval)).

Inductive exn : Type :=
  | ValueError (msg : string)
  | TypeError
  | AttributeError
  | KeyError (key : string)
  | CypherError.

Inductive result (A : Type) : Type :=
  | Ok (a : A)
  | Raise (e : exn).
Arguments Ok {A} a.
Arguments Raise {A} e.

Definition bind {A B} (r : result A) (k : A -> result B) : result B :=
  match r with
  | Ok a => k a
  | Raise e => Raise e
  end.

Notation "'let!' x := r 'in' k" := (bind r (fun x => k))
  (at level 10, x name, r at level 100, k at level 200).

(** ** The graph *)

Abbreviation props := (gmap string pyval).

(** [SET n.key = value]; setting a property to null removes it. *)
Definition set_prop (key : string) (v : pyval) (p : props) : props :=
  match v with
  | PyNone => delete key p
  | _ => <[key := v]> p
  end.

Record Child := mkChild {
  child_name : string;
  child_age : Z;
  child_weight_kg : string;       (* float, as printed *)
  child_allergies : list string;
  child_updated_at : Z
}.

(** [(c:Child)-[:TAKES {start_date, dosage, active}]->(m:Medication)] *)
Record Takes := mkTakes {
  t_child : string;
  t_medication : string;
  t_start_date : string;
  t_dosage : string;
  t_active : bool
}.

(** [(c:Child)-[:HAS_SYMPTOM {reported_date, severity, notes}]->(s:Symptom)] *)
Record HasSymptom := mkHasSymptom {
  h_child : string;
  h_symptom : string;
  h_reported_date : Z;
  h_severity : Z;
  h_notes : string
}.

(** [(m1:Medication)-[:INTERACTS_WITH {severity, description}]->(m2:Medication)] *)
Record InteractsWith := mkInteractsWith {
  i_start : string;
  i_end : string;
  i_severity : string;
  i_description : string
}.

Global Instance Takes_eq_dec : EqDecision Takes.
Proof. solve_decision. Defined.
Global Instance HasSymptom_eq_dec : EqDecision HasSymptom.
Proof. solve_decision. Defined.
Global Instance InteractsWith_eq_dec : EqDecision InteractsWith.
Proof. solve_decision. Defined.

(** [create_appointment] makes a fresh node on every call. *)
Record Appointment := mkAppointment {
  a_child : string;
  a_type : string;
  a_date : string;
  a_time : string;
  a_doctor : string;
  a_location : string;
  a_notes : string;
  a_created_at : Z;
  a_status : string
}.

Record Graph := mkGraph {
  children : gmap string Child;          (* :Child, merged on child_id *)
  medications : gmap string props;       (* :Medication, merged on name *)
  symptoms : gmap string props;          (* :Symptom, merged on name *)
  takes : list Takes;
  has_symptom : list HasSymptom;
  interacts_with : list InteractsWith;
  appointments : list Appointment;
  symptom_rules : gmap string props;     (* :SymptomRule, merged on symptom_name *)
  has_rule : gset string;                (* (s)-[:HAS_RULE]->(r), both keyed by the symptom name *)
  conditions : gmap string props;        (* :Condition, merged on name *)
  aftercare_guides : gmap string props;  (* :AfterCareGuide, merged on condition *)
  has_aftercare : gset string;           (* (c)-[:HAS_AFTERCARE]->(a), keyed by the condition name *)
  may_cause : gset (string * string);    (* (c:Condition)-[:MAY_CAUSE]->(s:Symptom) *)
  sample_dialogues : list props;         (* :SampleDialogue, created *)
  check_ins : list props                 (* :CheckIn, created *)
}.

Definition empty_graph : Graph :=
  mkGraph ∅ ∅ ∅ [] [] [] [] ∅ ∅ ∅ ∅ ∅ ∅ [] [].

(** Field updates of the graph record. *)
Definition set_children (f : gmap string Child -> gmap string Child) (g : Graph) : Graph :=
  mkGraph (f (children g)) (medications g) (symptoms g) (takes g) (has_symptom g)
    (interacts_with g) (appointments g) (symptom_rules g) (has_rule g) (conditions g)
    (aftercare_guides g) (has_aftercare g) (may_cause g) (sample_dialogues g) (check_ins g).

Definition set_medications (f : gmap string props -> gmap string props) (g : Graph) : Graph :=
  mkGraph (children g) (f (medications g)) (symptoms g) (takes g) (has_symptom g)
    (interacts_with g) (appointments g) (symptom_rules g) (has_rule g) (conditions g)
    (aftercare_guides g) (has_aftercare g) (may_cause g) (sample_dialogues g) (check_ins g).

Definition set_symptoms (f : gmap string props -> gmap string props) (g : Graph) : Graph :=
  mkGraph (children g) (medications g) (f (symptoms g)) (takes g) (has_symptom g)
    (interacts_with g) (appointments g) (symptom_rules g) (has_rule g) (conditions g)
    (aftercare_guides g) (has_aftercare g) (may_cause g) (sample_dialogues g) (check_ins g).

Definition set_takes (f : list Takes -> list Takes) (g : Graph) : Graph :=
  mkGraph (children g) (medications g) (symptoms g) (f (takes g)) (has_symptom g)
    (interacts_with g) (appointments g) (symptom_rules g) (has_rule g) (conditions g)
    (aftercare_guides g) (has_aftercare g) (may_cause g) (sample_dialogues g) (check_ins g).

Definition set_has_symptom (f : list HasSymptom -> list HasSymptom) (g : Graph) : Graph :=
  mkGraph (children g) (medications g) (symptoms g) (takes g) (f (has_symptom g))
    (interacts_with g) (appointments g) (symptom_rules g) (has_rule g) (conditions g)
    (aftercare_guides g) (has_aftercare g) (may_cause g) (sample_dialogues g) (check_ins g).

Definition set_interacts_with (f : list InteractsWith -> list InteractsWith) (g : Graph) : Graph :=
  mkGraph (children g) (medications g) (symptoms g) (takes g) (has_symptom g)
    (f (interacts_with g)) (appointments g) (symptom_rules g) (has_rule g) (conditions g)
    (aftercare_guides g) (has_aftercare g) (may_cause g) (sample_dialogues g) (check_ins g).

Definition set_appointments (f : list Appointment -> list Appointment) (g : Graph) : Graph :=
  mkGraph (children g) (medications g) (symptoms g) (takes g) (has_symptom g)
    (interacts_with g) (f (appointments g)) (symptom_rules g) (has_rule g) (conditions g)
    (aftercare_guides g) (has_aftercare g) (may_cause g) (sample_dialogues g) (check_ins g).

Definition set_symptom_rules (f : gmap string props -> gmap string props) (g : Graph) : Graph :=
  mkGraph (children g) (medications g) (symptoms g) (takes g) (has_symptom g)
    (interacts_with g) (appointments g) (f (symptom_rules g)) (has_rule g) (conditions g)
    (aftercare_guides g) (has_aftercare g) (may_cause g) (sample_dialogues g) (check_ins g).

Definition set_has_rule (f : gset string -> gset string) (g : Graph) : Graph :=
  mkGraph (children g) (medications g) (symptoms g) (takes g) (has_symptom g)
    (interacts_with g) (appointments g) (symptom_rules g) (f (has_rule g)) (conditions g)
    (aftercare_guides g) (has_aftercare g) (may_cause g) (sample_dialogues g) (check_ins g).

Definition set_conditions (f : gmap string props -> gmap string props) (g : Graph) : Graph :=
  mkGraph (children g) (medications g) (symptoms g) (takes g) (has_symptom g)
    (interacts_with g) (appointments g) (symptom_rules g) (has_rule g) (f (conditions g))
    (aftercare_guides g) (has_aftercare g) (may_cause g) (sample_dialogues g) (check_ins g).

Definition set_aftercare_guides (f : gmap string props -> gmap string props) (g : Graph) : Graph :=
  mkGraph (children g) (medications g) (symptoms g) (takes g) (has_symptom g)
    (interacts_with g) (appointments g) (symptom_rules g) (has_rule g) (conditions g)
    (f (aftercare_guides g)) (has_aftercare g) (may_cause g) (sample_dialogues g) (check_ins g).

Definition set_has_aftercare (f : gset string -> gset string) (g : Graph) : Graph :=
  mkGraph (children g) (medications g) (symptoms g) (takes g) (has_symptom g)
    (interacts_with g) (appointments g) (symptom_rules g) (has_rule g) (conditions g)
    (aftercare_guides g) (f (has_aftercare g)) (may_cause g) (sample_dialogues g) (check_ins g).

Definition set_may_cause (f : gset (string * string) -> gset (string * string)) (g : Graph) : Graph :=
  mkGraph (children g) (medications g) (symptoms g) (takes g) (has_symptom g)
    (interacts_with g) (appointments g) (symptom_rules g) (has_rule g) (conditions g)
    (aftercare_guides g) (has_aftercare g) (f (may_cause g)) (sample_dialogues g) (check_ins g).

Definition set_sample_dialogues (f : list props -> list props) (g : Graph) : Graph :=
  mkGraph (children g) (medications g) (symptoms g) (takes g) (has_symptom g)
    (interacts_with g) (appointments g) (symptom_rules g) (has_rule g) (conditions g)
    (aftercare_guides g) (has_aftercare g) (may_cause g) (f (sample_dialogues g)) (check_ins g).

Definition set_check_ins (f : list props -> list props) (g : Graph) : Graph :=
  mkGraph (children g) (medications g) (symptoms g) (takes g) (has_symptom g)
    (interacts_with g) (appointments g) (symptom_rules g) (has_rule g) (conditions g)
    (aftercare_guides g) (has_aftercare g) (may_cause g) (sample_dialogues g) (f (check_ins g)).

(** [MERGE (n:Label {key_prop: k})]: the node is made, with its key
    property alone, when it is not there. *)
Definition merge_node (key_prop k : string) (m : gmap string props) : gmap string props :=
  match m !! k with
  | Some _ => m
  | None => <[k := {[ key_prop := PyStr k ]}]> m
  end.

(** [SET n.key = v] on the node of key [k]. *)
Definition set_node_prop (k key : string) (v : pyval) (m : gmap string props)
  : gmap string props :=
  alter (set_prop key v) k m.

(** [MERGE] of a relationship with the listed properties: made when no
    relationship with the same ends and the same values is there. *)
Definition merge_rel {A} `{EqDecision A} (r : A) (rs : list A) : list A :=
  if decide (r ∈ rs) then rs else (rs ++ [r])%list.

(** [result.single()] *)
Definition single {A} (rows : list A) : option A := head rows.

(** Truth value of what [single()] gave: [None] is false, a record with
    fields is a non-empty tuple and is true. *)
Definition record_truthy {A} (r : option A) : bool :=
  match r with Some _ => true | None => false end.

(** [duration('PT24H')], in nanoseconds. *)
Definition PT24H : Z := 24 * 3600 * 1000000000.

(** ** neo4j_client.py: PediatricCareGraph *)

(** [x or default] on an optional string. *)
Definition str_or (x : option string) (default : string) : string :=
  match x with
  | Some (String c s) => String c s
  | _ => default
  end.

Definition create_or_update_child (g : Graph) (now : Z)
    (child_id name : string) (age : Z) (weight_kg : string)
    (allergies : option (list string)) : Graph * Child :=
  let c := mkChild name age weight_kg (default [] allergies) now in
  (set_children (insert child_id c) g, c).

Definition get_child_profile (g : Graph) (child_id : string) : option Child :=
  single (match children g !! child_id with Some c => [c] | None => [] end).

Definition add_medication (g : Graph) (now_iso : string)
    (child_id medication_name dosage frequency : string)
    (start_date : option string) : Graph * result (Child * props * Takes) :=
  let start := str_or start_date now_iso in
  match children g !! child_id with
  | None => (g, Raise TypeError)          (* no row: [record] is [None] *)
  | Some c =>
      let meds :=
        set_node_prop medication_name "frequency" (PyStr frequency)
          (set_node_prop medication_name "dosage" (PyStr dosage)
             (merge_node "name" medication_name (medications g))) in
      let t := mkTakes child_id medication_name start dosage true in
      let g' := set_takes (merge_rel t) (set_medications (fun _ => meds) g) in
      (g', Ok (c, default ∅ (meds !! medication_name), t))
  end.

Record InteractionRow := mkInteractionRow {
  current_med : string;
  severity : string;
  description : string
}.

Record SafetyVerdict := mkSafetyVerdict {
  safe : bool;
  has_allergy : bool;
  allergies : list string;
  interactions : list InteractionRow
}.

(** The rows of [allergy_query]. *)
Definition allergy_query (g : Graph) (child_id medication_name : string)
  : list (list string * bool) :=
  match children g !! child_id with
  | None => []
  | Some c =>
      if existsb (fun allergy => contains (toLower medication_name) (toLower allergy))
           (child_allergies c)
      then [(child_allergies c, true)]
      else []
  end.

(** Does the relationship [i] join [a] and [b], in either direction? *)
Definition joins (a b : string) (i : InteractsWith) : Prop :=
  (i_start i = a ∧ i_end i = b) ∨ (i_start i = b ∧ i_end i = a).

Global Instance joins_dec a b i : Decision (joins a b i).
Proof. unfold joins. apply _. Defined.

(** The rows of [interaction_query]: one per TAKES relationship of the
    child, per Medication node of the candidate name and per
    INTERACTS_WITH relationship between the two, whatever its direction. *)
Definition interaction_query (g : Graph) (child_id medication_name : string)
  : list InteractionRow :=
  match children g !! child_id with
  | None => []
  | Some _ =>
      t ← filter (fun t => t_child t = child_id) (takes g);
      new ← (match medications g !! medication_name with
             | Some _ => [medication_name]
             | None => []
             end);
      i ← filter (joins (t_medication t) new) (interacts_with g);
      [mkInteractionRow (t_medication t) (i_severity i) (i_description i)]
  end.

Definition check_medication_safety (g : Graph) (child_id medication_name : string)
  : SafetyVerdict :=
  let allergy_record := single (allergy_query g child_id medication_name) in
  let interactions := interaction_query g child_id medication_name in
  {| safe := negb (record_truthy allergy_record) && (length interactions =? 0)%nat;
     has_allergy := record_truthy allergy_record;
     allergies := match allergy_record with Some r => fst r | None => [] end;
     interactions := interactions |}.

Record ActiveMedication := mkActiveMedication {
  am_medication : string;
  am_dosage : string;
  am_frequency : option string;   (* [t.frequency]: TAKES carries none, so null *)
  am_start_date : string
}.

(** [ORDER BY t.start_date DESC] *)
Definition start_date_desc (a b : Takes) : Prop :=
  Is_true (String.leb (t_start_date b) (t_start_date a)).

Global Instance start_date_desc_dec a b : Decision (start_date_desc a b).
Proof. unfold start_date_desc. apply _. Defined.

Definition get_active_medications (g : Graph) (child_id : string)
  : list ActiveMedication :=
  match children g !! child_id with
  | None => []
  | Some _ =>
      (fun t => mkActiveMedication (t_medication t) (t_dosage t) None (t_start_date t))
        <$> merge_sort start_date_desc
              (filter (fun t => t_child t = child_id ∧ t_active t = true) (takes g))
  end.

Definition log_symptom (g : Graph) (now : Z)
    (child_id symptom_name : string) (severity : Z) (notes : string)
  : Graph * result (Child * props * HasSymptom) :=
  match children g !! child_id with
  | None => (g, Raise TypeError)          (* no row: [record] is [None] *)
  | Some c =>
      let syms := merge_node "name" symptom_name (symptoms g) in
      let h := mkHasSymptom child_id symptom_name now severity notes in
      let g' := set_has_symptom (fun hs => (hs ++ [h])%list) (set_symptoms (fun _ => syms) g) in
      (g', Ok (c, default ∅ (syms !! symptom_name), h))
  end.

Record SymptomEntry := mkSymptomEntry {
  sx_name : string;
  sx_severity : Z
}.

Record EmergencyStatus := mkEmergencyStatus {
  is_emergency : bool;
  critical_symptoms : list SymptomEntry;
  recent_symptoms : list SymptomEntry
}.

(** [{name: s.name, severity: h.severity}] *)
Definition symptom_entry (h : HasSymptom) : SymptomEntry :=
  mkSymptomEntry (h_symptom h) (h_severity h).

(** The reports that [MATCH ... WHERE h.reported_date > datetime() - duration('PT24H')]
    keeps for the child. *)
Definition in_window (now : Z) (child_id : string) (h : HasSymptom) : Prop :=
  h_child h = child_id ∧ h_reported_date h > now - PT24H.

Global Instance in_window_dec now child_id h : Decision (in_window now child_id h).
Proof. unfold in_window. apply _. Defined.

(** The rows of the emergency query.  [collect] groups by the child: with
    no matched report there is no group and no row. *)
Definition emergency_query (g : Graph) (now : Z) (child_id : string)
  : list EmergencyStatus :=
  match children g !! child_id with
  | None => []
  | Some _ =>
      match filter (in_window now child_id) (has_symptom g) with
      | [] => []
      | hs =>
          let recent_symptoms := symptom_entry <$> hs in
          let critical_symptoms :=
            filter (fun sx => sx_severity sx >= 8) recent_symptoms in
          [mkEmergencyStatus (0 <? length critical_symptoms)%nat
             critical_symptoms recent_symptoms]
      end
  end.

Definition check_emergency_status (g : Graph) (now : Z) (child_id : string)
  : EmergencyStatus :=
  match single (emergency_query g now child_id) with
  | None => mkEmergencyStatus false [] []
  | Some record => record
  end.

Definition create_appointment (g : Graph) (now : Z)
    (child_id appointment_type date time doctor location notes : string)
  : Graph * result (Child * Appointment) :=
  match children g !! child_id with
  | None => (g, Raise TypeError)
  | Some c =>
      let a := mkAppointment child_id appointment_type date time doctor location
                 notes now "scheduled" in
      (set_appointments (fun l => (l ++ [a])%list) g, Ok (c, a))
  end.

(** One row of the [UNWIND] in [initialize_knowledge_graph]. *)
Definition merge_interaction (g : Graph) (interaction : string * string * string * string)
  : Graph :=
  let '(m1, m2, sev, desc) := interaction in
  set_interacts_with (merge_rel (mkInteractsWith m1 m2 sev desc))
    (set_medications (fun m => merge_node "name" m2 (merge_node "name" m1 m)) g).

Definition common_interactions : list (string * string * string * string) :=
  [ ("Ibuprofen", "Aspirin", "moderate", "Increased bleeding risk");
    ("Amoxicillin", "Warfarin", "high", "May increase bleeding") ].

Definition initialize_knowledge_graph (g : Graph) : Graph :=
  fold_left merge_interaction common_interactions g.

(** ** Python values at run time *)

Definition dq : string := String (ascii_of_N 34) EmptyString.
Definition sq : string := "'".
Definition backslash : string := "\".

Definition str_in (c : ascii) (s : string) : bool :=
  existsb (fun d => if decide (c = d) then true else false) (list_ascii_of_string s).

Definition hex_digit (n : N) : ascii :=
  if (n <? 10)%N then ascii_of_N (48 + n) else ascii_of_N (87 + n).

(** One byte of [repr] of a string written between [quote]s.  This is
    [repr] on ASCII text.  The bytes of a character outside ASCII are
    left as they are, which [repr] does for the printable characters only:
    the properties that print a [repr] are stated for ASCII text. *)
Definition repr_char (quote : ascii) (c : ascii) : string :=
  let n := N_of_ascii c in
  if decide (c = quote) then backslash +:+ String c EmptyString
  else if (n =? 92)%N then backslash +:+ backslash
  else if (n =? 9)%N then backslash +:+ "t"
  else if (n =? 10)%N then backslash +:+ "n"
  else if (n =? 13)%N then backslash +:+ "r"
  else if ((n <? 32) || (n =? 127))%N
       then backslash +:+ "x" +:+
            String (hex_digit (n / 16)) (String (hex_digit (n mod 16)) EmptyString)
  else String c EmptyString.

Fixpoint repr_chars (quote : ascii) (s : string) : string :=
  match s with
  | EmptyString => EmptyString
  | String c s' => repr_char quote c +:+ repr_chars quote s'
  end.

(** [repr(s)] of a string: single quotes, unless the text has a single
    quote and no double quote. *)
Definition repr_str (s : string) : string :=
  let quote := if str_in "'"%char s && negb (str_in (ascii_of_N 34) s)
               then ascii_of_N 34 else "'"%char in
  String quote EmptyString +:+ repr_chars quote s +:+ String quote EmptyString.

(** [repr(v)] *)
Fixpoint py_repr (v : pyval) : string :=
  match v with
  | PyNone => "None"
  | PyBool true => "True"
  | PyBool false => "False"
  | PyInt z => pretty z
  | PyFloat r => r
  | PyStr s => repr_str s
  | PyList l => "[" +:+ join ", " (map py_repr l) +:+ "]"
  | PyDict d =>
      "{" +:+ join ", "
                (map (fun kv => match kv with
                                | (k, x) => repr_str k +:+ ": " +:+ py_repr x
                                end) d) +:+ "}"
  end.

(** [str(v)], what an f-string field prints. *)
Definition py_str (v : pyval) : string :=
  match v with
  | PyStr s => s
  | _ => py_repr v
  end.

(** Truth value of [v] in a condition. *)
Definition py_truthy (v : pyval) : bool :=
  match v with
  | PyNone => false
  | PyBool b => b
  | PyInt z => negb (z =? 0)%Z
  | PyFloat r => negb (String.eqb r "0.0" || String.eqb r "-0.0")
  | PyStr s => negb (String.eqb s EmptyString)
  | PyList l => match l with [] => false | _ => true end
  | PyDict d => match d with [] => false | _ => true end
  end.

(** [d[key]], as an option. *)
Fixpoint dict_lookup (key : string) (d : pydict) : option pyval :=
  match d with
  | [] => None
  | (k, v) :: d' => if String.eqb k key then Some v else dict_lookup key d'
  end.

(** [key in d] *)
Definition dict_has (key : string) (d : pydict) : bool :=
  match dict_lookup key d with Some _ => true | None => false end.

(** [v.get(key, dflt)]: only a dict has the method. *)
Definition py_get (v : pyval) (key : string) (dflt : pyval) : result pyval :=
  match v with
  | PyDict d => Ok (default dflt (dict_lookup key d))
  | _ => Raise AttributeError
  end.

(** A byte that continues a character of several bytes. *)
Definition is_continuation (b : ascii) : bool :=
  let n := N_of_ascii b in
  ((128 <=? n) && (n <? 192))%N.

Definition continues (s : string) : bool :=
  match s with
  | String b _ => is_continuation b
  | EmptyString => false
  end.

(** The characters of a text, one after the other: each is its first byte
    with the continuation bytes that follow it. *)
Fixpoint chars (s : string) : list string :=
  match s with
  | EmptyString => []
  | String b rest =>
      match chars rest with
      | next :: others =>
          if continues rest then String b next :: others
          else String b EmptyString :: next :: others
      | [] => [String b EmptyString]
      end
  end.

(** The items a [for] loop draws from [v]. *)
Definition py_iter (v : pyval) : result (list pyval) :=
  match v with
  | PyList l => Ok l
  | PyStr s => Ok (map PyStr (chars s))
  | PyDict d => Ok (map (fun kv => PyStr (fst kv)) d)
  | _ => Raise TypeError
  end.

(** A loop body run on each item in turn, stopping at the first raise. *)
Fixpoint for_each {A B} (body : A -> result B) (items : list A) : result (list B) :=
  match items with
  | [] => Ok []
  | x :: rest =>
      let! y := body x in
      let! ys := for_each body rest in
      Ok (y :: ys)
  end.

(** [sep.join(v)]: every item has to be a string. *)
Definition py_join (sep : string) (v : pyval) : result string :=
  let! items := py_iter v in
  let! strs := for_each (fun x => match x with
                                  | PyStr s => Ok s
                                  | _ => Raise TypeError
                                  end) items in
  Ok (join sep strs).

(** ** pediatric_query_constructor.py *)

Definition default_prompt_template : string :=
  "
You are a specialized Pediatric Care Assistant designed to help parents care for their children. You have access to:
1. The child's complete medical history and profile (from MemMachine)
2. Current medications, appointments, and health relationships (from Neo4j graph database)
3. Real-time symptom and emergency assessment capabilities

<CURRENT_DATE>
{current_date}
</CURRENT_DATE>

<CHILD_PROFILE>
{profile}
</CHILD_PROFILE>

<CONVERSATION_CONTEXT>
{context_block}
</CONVERSATION_CONTEXT>

<GRAPH_DATA>
{graph_data}
</GRAPH_DATA>

<USER_QUERY>
{query}
</USER_QUERY>

═══════════════════════════════════════════════════════════════
INSTRUCTIONS FOR PEDIATRIC CARE ASSISTANT
═══════════════════════════════════════════════════════════════

🎯 YOUR ROLE:
You are a helpful, caring pediatric care assistant. You help parents with:
- Understanding symptoms and when to seek medical care
- Medication management (dosing, interactions, schedules)
- Appointment scheduling and reminders
- Emergency triage (when to call 911, go to ER, or wait for doctor)
- General pediatric health questions

⚠️ CRITICAL SAFETY RULES:

1. EMERGENCY SITUATIONS - If ANY of these apply, immediately advise:
   - Difficulty breathing, turning blue, gasping for air
   - Unresponsive, won't wake up, or severe confusion
   - Severe allergic reaction (swelling, hives, breathing problems)
   - High fever in infant < 3 months old
   - Severe pain, crying inconsolably
   - Head injury with vomiting, confusion, or loss of consciousness
   - Severe bleeding that won't stop
   - Poisoning or ingestion of toxic substance
   - Seizures (especially first-time or lasting >5 minutes)

   👉 Response: " +:+ dq +:+
  "🚨 EMERGENCY: Call 911 immediately. [Explain why this is urgent]" +:+ dq +:+
  "

2. MEDICAL ADVICE BOUNDARIES:
   - You are NOT a doctor and cannot diagnose conditions
   - Always recommend seeing a pediatrician for persistent or concerning symptoms
   - Never tell parents to ignore symptoms that worry them
   - When uncertain, err on the side of caution

3. MEDICATION SAFETY:
   - ALWAYS check allergies before recommending any medication
   - Check drug interactions with current medications
   - Verify age-appropriate dosing
   - Never recommend prescription medications without doctor approval
   - Always mention possible side effects

4. USE THE DATA PROVIDED:
   - Check GRAPH_DATA for current medications, allergies, appointments
   - Check CHILD_PROFILE for age, weight, medical history
   - Check CONVERSATION_CONTEXT for recent symptoms or concerns
   - Base your response on this actual data, not assumptions

═══════════════════════════════════════════════════════════════
RESPONSE FORMAT
═══════════════════════════════════════════════════════════════

Structure your response as follows:

**[Brief Direct Answer]**
Give a clear, concise answer to the parent's question.

**💊 Medication Information** (if relevant)
- Current medications: [list from graph]
- Safety check: [allergies, interactions]
- Dosing guidance: [age/weight-based if applicable]

**📊 Current Status** (if relevant)
- Recent symptoms: [from context]
- Active conditions: [from graph]
- Upcoming appointments: [from graph]

**⚕️ Medical Guidance**
- What to monitor
- When to call the doctor
- When to go to ER
- Home care recommendations

**📅 Next Steps** (if relevant)
- Suggested actions
- Follow-up reminders
- Questions to ask the doctor

═══════════════════════════════════════════════════════════════
KNOWLEDGE INTEGRATION
═══════════════════════════════════════════════════════════════

Use these data sources:
1. **Child Profile** (from MemMachine): Past conversations, preferences, history
2. **Graph Data** (from Neo4j): Medications, allergies, appointments, relationships
3. **Medical Knowledge**: General pediatric guidelines (fever, dosing, etc.)

Always cross-reference:
- Check allergies before medication advice
- Verify current medications before adding new ones
- Consider child's age and weight for dosing
- Review recent symptoms for patterns

═══════════════════════════════════════════════════════════════
TONE & STYLE
═══════════════════════════════════════════════════════════════

- Caring, supportive, and reassuring
- Clear and practical (parents are often stressed)
- Evidence-based but not overly technical
- Empathetic to parent's concerns
- Decisive in emergencies
- Encouraging about seeking professional care when needed

Now, please respond to the parent's query above using all available data.
".

Record PediatricCareQueryConstructor := mkConstructor {
  prompt_template : string
}.

(** [__init__] *)
Definition new_constructor : PediatricCareQueryConstructor :=
  mkConstructor default_prompt_template.

(** The keyword argument called [name]. *)
Fixpoint kwarg (name : string) (kwargs : list (string * string)) : option string :=
  match kwargs with
  | [] => None
  | (k, v) :: rest => if String.eqb k name then Some v else kwarg name rest
  end.

(** [template.format] with keyword arguments, for the templates whose
    fields are plain names: [{{] and [}}] are the literal braces, [{name}]
    is replaced by the argument of that name, a name without argument is a
    [KeyError], a lone [}] or an unclosed [{] is a [ValueError].  [field]
    holds the name being read inside a pair of braces.  A field with a
    conversion, a format specification, an attribute or an index (one of
    the characters [!], [:], [.] and the opening square bracket) is
    outside of what is modelled here: [plain_template], below, tells the
    templates that are covered, and the properties of the interpolation
    are stated for them. *)
Fixpoint format_from (tpl : string) (field : option string)
    (kwargs : list (string * string)) : result string :=
  match field with
  | None =>
      match tpl with
      | EmptyString => Ok EmptyString
      | String "{" (String "{" rest) =>
          let! out := format_from rest None kwargs in Ok (String "{" out)
      | String "{" rest => format_from rest (Some EmptyString) kwargs
      | String "}" (String "}" rest) =>
          let! out := format_from rest None kwargs in Ok (String "}" out)
      | String "}" _ => Raise (ValueError "Single '}' encountered in format string")
      | String c rest =>
          let! out := format_from rest None kwargs in Ok (String c out)
      end
  | Some name =>
      match tpl with
      | EmptyString => Raise (ValueError "expected '}' before end of string")
      | String "}" rest =>
          match kwarg name kwargs with
          | Some v => let! out := format_from rest None kwargs in Ok (v +:+ out)
          | None => Raise (KeyError name)
          end
      | String c rest => format_from rest (Some (name +:+ String c EmptyString)) kwargs
      end
  end.

Definition format (tpl : string) (kwargs : list (string * string)) : result string :=
  format_from tpl None kwargs.

(** The six section headers of the graph-data text. *)
Definition CHILD_HEADER : string := "👶 CHILD INFORMATION:".
Definition MEDICATIONS_HEADER : string := "💊 CURRENT MEDICATIONS:".
Definition SYMPTOMS_HEADER : string := "🩺 RECENT SYMPTOMS (last 24h):".
Definition EMERGENCY_HEADER : string := "🚨 EMERGENCY STATUS: CRITICAL SYMPTOMS DETECTED".
Definition APPOINTMENTS_HEADER : string := "📅 UPCOMING APPOINTMENTS:".
Definition SAFETY_HEADER : string := "⚠️ MEDICATION SAFETY ALERT:".

(** [sections.append(line)] *)
Definition append (sections : list string) (line : string) : list string :=
  (sections ++ [line])%list.

(** [for x in v: sections.append(line(x))] *)
Definition append_each (sections : list string) (v : pyval)
    (line : pyval -> result string) : result (list string) :=
  let! items := py_iter v in
  let! lines := for_each line items in
  Ok (sections ++ lines)%list.

(** [graph_data[key]] where [key in graph_data] has been tested. *)
Definition item (graph_data : pydict) (key : string) : pyval :=
  default PyNone (dict_lookup key graph_data).

(** [key in graph_data and graph_data[key]] *)
Definition has_truthy (graph_data : pydict) (key : string) : bool :=
  dict_has key graph_data && py_truthy (item graph_data key).

Definition child_section (graph_data : pydict) (sections : list string)
  : result (list string) :=
  if dict_has "child" graph_data then
    let child := item graph_data "child" in
    let sections := append sections CHILD_HEADER in
    let! name := py_get child "name" (PyStr "Unknown") in
    let sections := append sections ("- Name: " +:+ py_str name) in
    let! age := py_get child "age" (PyStr "Unknown") in
    let sections := append sections ("- Age: " +:+ py_str age +:+ " years old") in
    let! weight_kg := py_get child "weight_kg" (PyStr "Unknown") in
    let sections := append sections ("- Weight: " +:+ py_str weight_kg +:+ " kg") in
    let! allergies := py_get child "allergies" (PyList []) in
    let! sections :=
      (if py_truthy allergies then
         let! joined := py_join ", " allergies in
         Ok (append sections ("- ⚠️ ALLERGIES: " +:+ joined))
       else Ok sections) in
    Ok (append sections EmptyString)
  else Ok sections.

Definition medication_line (med : pyval) : result string :=
  let! medication := py_get med "medication" PyNone in
  let! dosage := py_get med "dosage" PyNone in
  let! frequency := py_get med "frequency" PyNone in
  Ok ("- " +:+ py_str medication +:+ ": " +:+ py_str dosage +:+ " - " +:+ py_str frequency).

Definition medications_section (graph_data : pydict) (sections : list string)
  : result (list string) :=
  if has_truthy graph_data "medications" then
    let sections := append sections MEDICATIONS_HEADER in
    let! sections := append_each sections (item graph_data "medications") medication_line in
    Ok (append sections EmptyString)
  else Ok sections.

Definition symptom_line (symptom : pyval) : result string :=
  let! name := py_get symptom "name" PyNone in
  let! severity := py_get symptom "severity" PyNone in
  Ok ("- " +:+ py_str name +:+ ": Severity " +:+ py_str severity +:+ "/10").

Definition symptoms_section (graph_data : pydict) (sections : list string)
  : result (list string) :=
  if has_truthy graph_data "symptoms" then
    let sections := append sections SYMPTOMS_HEADER in
    let! sections := append_each sections (item graph_data "symptoms") symptom_line in
    Ok (append sections EmptyString)
  else Ok sections.

Definition critical_line (symptom : pyval) : result string :=
  let! name := py_get symptom "name" PyNone in
  let! severity := py_get symptom "severity" PyNone in
  Ok ("   - " +:+ py_str name +:+ " (severity: " +:+ py_str severity +:+ ")").

Definition emergency_section (graph_data : pydict) (sections : list string)
  : result (list string) :=
  if dict_has "emergency_status" graph_data then
    let emergency := item graph_data "emergency_status" in
    let! flag := py_get emergency "is_emergency" PyNone in
    if py_truthy flag then
      let sections := append sections EMERGENCY_HEADER in
      let! critical := py_get emergency "critical_symptoms" (PyList []) in
      let! sections := append_each sections critical critical_line in
      Ok (append sections EmptyString)
    else Ok sections
  else Ok sections.

Definition appointment_line (appt : pyval) : result string :=
  let! date := py_get appt "date" PyNone in
  let! time := py_get appt "time" PyNone in
  let! type := py_get appt "type" PyNone in
  let! doctor := py_get appt "doctor" PyNone in
  Ok ("- " +:+ py_str date +:+ " at " +:+ py_str time +:+ ": " +:+ py_str type
      +:+ " with Dr. " +:+ py_str doctor).

Definition appointments_section (graph_data : pydict) (sections : list string)
  : result (list string) :=
  if has_truthy graph_data "appointments" then
    let sections := append sections APPOINTMENTS_HEADER in
    let! sections := append_each sections (item graph_data "appointments") appointment_line in
    Ok (append sections EmptyString)
  else Ok sections.

Definition interaction_line (interaction : pyval) : result string :=
  let! current := py_get interaction "current_med" PyNone in
  let! description := py_get interaction "description" PyNone in
  let! severity := py_get interaction "severity" PyNone in
  Ok ("      * " +:+ py_str current +:+ ": " +:+ py_str description +:+ " "
      +:+ "(Severity: " +:+ py_str severity +:+ ")").

Definition safety_section (graph_data : pydict) (sections : list string)
  : result (list string) :=
  if dict_has "medication_safety" graph_data then
    let safety := item graph_data "medication_safety" in
    let! is_safe := py_get safety "safe" (PyBool true) in
    if negb (py_truthy is_safe) then
      let sections := append sections SAFETY_HEADER in
      let! allergic := py_get safety "has_allergy" PyNone in
      let! sections :=
        (if py_truthy allergic then
           let! listed := py_get safety "allergies" PyNone in
           Ok (append sections ("   - ALLERGY RISK: " +:+ py_str listed))
         else Ok sections) in
      let! found := py_get safety "interactions" PyNone in
      let! sections :=
        (if py_truthy found then
           let sections := append sections "   - DRUG INTERACTIONS:" in
           append_each sections found interaction_line
         else Ok sections) in
      Ok (append sections EmptyString)
    else Ok sections
  else Ok sections.

(** The list [sections] as it stands at the [return] of
    [_format_graph_data]. *)
Definition graph_sections (graph_data : pydict) : result (list string) :=
  let sections := [] in
  let! sections := child_section graph_data sections in
  let! sections := medications_section graph_data sections in
  let! sections := symptoms_section graph_data sections in
  let! sections := emergency_section graph_data sections in
  let! sections := appointments_section graph_data sections in
  let! sections := safety_section graph_data sections in
  Ok sections.

Definition NO_GRAPH_DATA : string := "No graph data available.".

Definition _format_graph_data (graph_data : option pydict) : result string :=
  match graph_data with
  | None | Some [] => Ok NO_GRAPH_DATA
  | Some graph_data =>
      let! sections := graph_sections graph_data in
      match sections with
      | [] => Ok NO_GRAPH_DATA
      | _ => Ok (join nl sections)
      end
  end.

(** What [create_query] does besides returning: the template is
    interpolated, a failure is logged. *)
Inductive event : Type :=
  | Interpolated (kwargs : list (string * string))
  | LoggedException (e : exn).

Definition NO_PROFILE : string := "No profile information available yet.".
Definition NO_CONTEXT : string := "No recent conversation history.".

(** The fallback text of the [except] branch. *)
Definition fallback (profile_str context_block graph_str query : string) : string :=
  profile_str +:+ nl +:+ nl +:+ context_block +:+ nl +:+ nl +:+ graph_str
  +:+ nl +:+ nl +:+ query.

(** [profile or "No profile information available yet."] *)
Definition profile_str_of (profile : option string) : string :=
  str_or profile NO_PROFILE.

(** The conditional expression that gives [context_block]. *)
Definition context_block_of (context : option string) : string :=
  match context with
  | Some (String c s) => String c s +:+ nl +:+ nl
  | _ => NO_CONTEXT
  end.

(** The keyword arguments of [self.prompt_template.format(...)]. *)
Definition format_kwargs (current_date profile_str context_block graph_str query : string)
  : list (string * string) :=
  [ ("current_date", current_date); ("profile", profile_str);
    ("context_block", context_block); ("graph_data", graph_str);
    ("query", query) ].

(** [create_query]; [current_date] is the UTC clock reading, already
    printed as [%Y-%m-%d %H:%M:%S]. *)
Definition create_query (self : PediatricCareQueryConstructor) (current_date : string)
    (profile context : option string) (query : string) (graph_data : option pydict)
  : list event * result string :=
  if negb (py_truthy (PyStr query)) || negb (py_truthy (PyStr (strip query))) then
    ([], Raise (ValueError "Query cannot be empty"))
  else
    let profile_str := profile_str_of profile in
    let context_block := context_block_of context in
    match _format_graph_data graph_data with
    | Raise e => ([], Raise e)
    | Ok graph_str =>
        let kwargs :=
          format_kwargs current_date profile_str context_block graph_str query in
        match format (prompt_template self) kwargs with
        | Ok text => ([Interpolated kwargs], Ok text)
        | Raise e =>
            ([Interpolated kwargs; LoggedException e],
             Ok (fallback profile_str context_block graph_str query))
        end
    end.

(** ** load_dataset_to_neo4j.py *)

(** One line of [medication_guides.jsonl].  The name a node is merged on
    is text or missing; the other fields are any JSON value or missing. *)
Record MedicationGuide := mkMedicationGuide {
  mg_drug : option string;
  mg_forms : option pyval;
  mg_use : option pyval;
  mg_safety : option pyval;
  mg_storage : option pyval;
  mg_notes : option pyval
}.

(** One entry of [symptom_rules.json]. *)
Record SymptomRule := mkSymptomRule {
  sr_symptom : option string;
  sr_mild_lt : option pyval;
  sr_high_gte : option pyval;
  sr_spike_gte : option pyval;
  sr_threshold_gte : option pyval;
  sr_boolean : option pyval;
  sr_advice_mild : option pyval;
  sr_advice_high : option pyval;
  sr_advice_spike : option pyval;
  sr_advice : option pyval
}.

(** One line of [pediatric_aftercare.jsonl]. *)
Record AfterCare := mkAfterCare {
  ac_condition : option string;
  ac_category : option pyval;
  ac_age_range : option pyval;
  ac_overview : option pyval;
  ac_pain_management : option pyval;
  ac_activity : option pyval;
  ac_diet : option pyval;
  ac_wound_care : option pyval;
  ac_red_flags : option pyval;
  ac_follow_up : option pyval
}.

(** One line of [dialogues.jsonl]. *)
Record Dialogue := mkDialogue {
  dl_query : option pyval;
  dl_expected_answer : option pyval
}.

(** One row of [synthetic_checkins.csv]. *)
Record CheckInRow := mkCheckInRow {
  ck_timestamp : option string;
  ck_child_id : option string;
  ck_symptom : option string;
  ck_severity : option string;
  ck_action : option string
}.

(** The [dataset/] folder: a file is absent or holds its records, blank
    lines dropped. *)
Record Dataset := mkDataset {
  medication_guides : option (list MedicationGuide);
  symptom_rules_json : option (list SymptomRule);
  pediatric_aftercare : option (list AfterCare);
  dialogues : option (list Dialogue);
  synthetic_checkins : option (list CheckInRow)
}.

(** [data.get(key)] and [data.get(key, dflt)] *)
Definition get (x : option pyval) : pyval := default PyNone x.
Definition get_or (x : option pyval) (dflt : pyval) : pyval := default dflt x.
Definition get_text (x : option string) : pyval :=
  match x with Some s => PyStr s | None => PyNone end.

(** A sequence of [SET]s on one property map. *)
Definition apply_props (kvs : list (string * pyval)) (p : props) : props :=
  fold_left (fun p kv => set_prop (fst kv) (snd kv) p) kvs p.

(** [SET] of several properties on the node of key [k]. *)
Definition set_node_props (k : string) (kvs : list (string * pyval))
    (m : gmap string props) : gmap string props :=
  fold_left (fun m kv => set_node_prop k (fst kv) (snd kv) m) kvs m.

(** [MERGE (n:Label {key_prop: k}) SET n.a = .., n.b = ..] *)
Definition upsert_node (key_prop k : string) (kvs : list (string * pyval))
    (m : gmap string props) : gmap string props :=
  set_node_props k kvs (merge_node key_prop k m).

(** The property map of a [CREATE]: null values leave no property. *)
Definition new_props (kvs : list (string * pyval)) : props :=
  apply_props kvs ∅.

(** The [SET] clause of the medication guide query. *)
Definition medication_guide_props (data : MedicationGuide) : list (string * pyval) :=
  [ ("forms", get_or (mg_forms data) (PyList []));
    ("use_description", get_or (mg_use data) (PyStr EmptyString));
    ("safety_info", get_or (mg_safety data) (PyStr EmptyString));
    ("storage", get_or (mg_storage data) (PyStr EmptyString));
    ("notes", get_or (mg_notes data) (PyStr EmptyString));
    ("source", PyStr "dataset") ].

(** The medication guide loop body.  [MERGE] on a null name is refused by
    the database. *)
Definition load_medication_guide (data : MedicationGuide) (g : Graph) : result Graph :=
  match mg_drug data with
  | None => Raise CypherError
  | Some drug =>
      Ok (set_medications (upsert_node "name" drug (medication_guide_props data)) g)
  end.

(** The [SET] clause of [rule_query]. *)
Definition symptom_rule_props (rule : SymptomRule) : list (string * pyval) :=
  [ ("mild_threshold", get (sr_mild_lt rule));
    ("high_threshold", get (sr_high_gte rule));
    ("spike_threshold", get (sr_spike_gte rule));
    ("threshold_gte", get (sr_threshold_gte rule));
    ("is_boolean", get (sr_boolean rule));
    ("advice_mild", get (sr_advice_mild rule));
    ("advice_high", get (sr_advice_high rule));
    ("advice_spike", get (sr_advice_spike rule));
    ("advice", get (sr_advice rule));
    ("source", PyStr "dataset") ].

(** The symptom rule loop body: [symptom_query], then [rule_query], whose
    [MATCH] finds the symptom just merged. *)
Definition load_symptom_rule (rule : SymptomRule) (g : Graph) : result Graph :=
  match sr_symptom rule with
  | None => Raise CypherError
  | Some symptom_name =>
      let g := set_symptoms
                 (upsert_node "name" symptom_name [("source", PyStr "dataset")]) g in
      match symptoms g !! symptom_name with
      | None => Ok g
      | Some _ =>
          let g := set_symptom_rules
                     (upsert_node "symptom_name" symptom_name (symptom_rule_props rule))
                     g in
          Ok (set_has_rule (fun r => {[ symptom_name ]} ∪ r) g)
      end
  end.

(** The [SET] clauses of [condition_query] and of [aftercare_query]. *)
Definition condition_props (data : AfterCare) : list (string * pyval) :=
  [ ("category", get (ac_category data));
    ("age_range", get (ac_age_range data));
    ("source", PyStr "dataset") ].

Definition aftercare_props (data : AfterCare) : list (string * pyval) :=
  [ ("overview", get (ac_overview data));
    ("pain_management", get (ac_pain_management data));
    ("activity_restrictions", get (ac_activity data));
    ("diet_instructions", get (ac_diet data));
    ("wound_care", get (ac_wound_care data));
    ("red_flags", get_or (ac_red_flags data) (PyList []));
    ("follow_up", get (ac_follow_up data));
    ("source", PyStr "dataset") ].

(** The aftercare loop body: [condition_query], then [aftercare_query],
    whose [MATCH] finds the condition just merged. *)
Definition load_aftercare (data : AfterCare) (g : Graph) : result Graph :=
  match ac_condition data with
  | None => Raise CypherError
  | Some condition_name =>
      let g := set_conditions
                 (upsert_node "name" condition_name (condition_props data)) g in
      match conditions g !! condition_name with
      | None => Ok g
      | Some _ =>
          let g := set_aftercare_guides
                     (upsert_node "condition" condition_name (aftercare_props data)) g in
          Ok (set_has_aftercare (fun r => {[ condition_name ]} ∪ r) g)
      end
  end.

(** The dialogue loop body: a [CREATE]. *)
Definition load_dialogue (data : Dialogue) (g : Graph) : result Graph :=
  Ok (set_sample_dialogues
        (fun l => (l ++ [ new_props [ ("query", get (dl_query data));
                                      ("expected_answer", get (dl_expected_answer data));
                                      ("source", PyStr "dataset") ] ])%list) g).

(** The check-in loop body: a [CREATE]. *)
Definition load_checkin (row : CheckInRow) (g : Graph) : result Graph :=
  Ok (set_check_ins
        (fun l => (l ++ [ new_props [ ("timestamp", get_text (ck_timestamp row));
                                      ("child_id", get_text (ck_child_id row));
                                      ("symptom", get_text (ck_symptom row));
                                      ("severity", get_text (ck_severity row));
                                      ("action", get_text (ck_action row));
                                      ("source", PyStr "dataset") ] ])%list) g).

(** [MATCH (s:Symptom {name: symptom}) MATCH (c:Condition) WHERE c.name
    CONTAINS ... OR ... MERGE (c)-[:MAY_CAUSE]->(s)] *)
Definition link_symptom (symptom : string) (words : list string) (g : Graph) : Graph :=
  match symptoms g !! symptom with
  | None => g
  | Some _ =>
      let causes :=
        filter (fun c => Is_true (existsb (contains c) words))
               (elements (dom (conditions g))) in
      set_may_cause (fun r => list_to_set ((fun c => (c, symptom)) <$> causes) ∪ r) g
  end.

Definition create_relationships (g : Graph) : Graph :=
  link_symptom "breathing_difficulty" ["RSV"; "pneumonia"; "flu"]
    (link_symptom "pain_0_10" ["tonsillectomy"; "appendectomy"]
       (link_symptom "fever_c" ["tonsillectomy"; "RSV"; "pneumonia"] g)).

(** A loading loop: the writes made before a raise stay in the store. *)
Fixpoint load_rows {A} (body : A -> Graph -> result Graph) (rows : list A) (g : Graph)
  : Graph * option exn :=
  match rows with
  | [] => (g, None)
  | row :: rest =>
      match body row g with
      | Ok g' => load_rows body rest g'
      | Raise e => (g, Some e)
      end
  end.

(** [if file.exists(): ... else: print(...)] *)
Definition load_file {A} (body : A -> Graph -> result Graph) (file : option (list A))
    (g : Graph) : Graph * option exn :=
  match file with
  | Some rows => load_rows body rows g
  | None => (g, None)
  end.

(** The rest of the script runs when the step before did not raise. *)
Definition and_then (r : Graph * option exn) (next : Graph -> Graph * option exn)
  : Graph * option exn :=
  match r with
  | (g, None) => next g
  | (g, Some e) => (g, Some e)
  end.

(** The script, from the first loading loop to the relationships. *)
Definition load_dataset (ds : Dataset) (g : Graph) : Graph * option exn :=
  and_then (load_file load_medication_guide (medication_guides ds) g) (fun g =>
  and_then (load_file load_symptom_rule (symptom_rules_json ds) g) (fun g =>
  and_then (load_file load_aftercare (pediatric_aftercare ds) g) (fun g =>
  and_then (load_file load_dialogue (dialogues ds) g) (fun g =>
  and_then (load_file load_checkin (synthetic_checkins ds) g) (fun g =>
  (create_relationships g, None)))))).

(** The spec's name for the error of a blank question. *)
Definition EmptyQueryError : exn := ValueError "Query cannot be empty".

(** The whitespace of Unicode, by code point. *)
Definition whitespace (cp : N) : Prop :=
  (9 <= cp <= 13 \/ 28 <= cp <= 32 \/ cp = 133 \/ cp = 160 \/ cp = 5760 \/
   8192 <= cp <= 8202 \/ cp = 8232 \/ cp = 8233 \/ cp = 8239 \/ cp = 8287 \/
   cp = 12288)%N.

(** The text made of the characters [cps]. *)
Fixpoint text_of (cps : list N) : string :=
  match cps with
  | [] => EmptyString
  | cp :: rest => utf8 cp +:+ text_of rest
  end.

(** A question that is empty or made of whitespace only. *)
Definition blank (query : string) : Prop :=
  exists cps, Forall whitespace cps /\ query = text_of cps.

(** The no-break space U+00A0 and the ideographic space U+3000. *)
Definition NBSP : string := utf8 160.
Definition IDEOGRAPHIC_SPACE : string := utf8 12288.

(** [needle] occurs in [hay]. *)
Definition substring_of (needle hay : string) : Prop :=
  exists pre suf, hay = pre +:+ needle +:+ suf.

(** Every relationship between medications joins two Medication nodes. *)
Definition interactions_closed (g : Graph) : Prop :=
  forall i, i ∈ interacts_with g ->
    is_Some (medications g !! i_start i) /\ is_Some (medications g !! i_end i).

(** ** The layout of the graph-data text *)

(** A line written under a header: a dash item or an indented item. *)
Definition item_line (l : string) : Prop :=
  String.prefix "- " l = true \/ String.prefix "   " l = true.

(** The lines of one section: nothing when the section is not [shown],
    else the header, [count] item lines and the closing empty line. *)
Definition section_of (header : string) (shown : bool) (count : nat)
    (blk : list string) : Prop :=
  if shown
  then exists body, blk = (header :: body ++ [EmptyString])%list /\
                    Forall item_line body /\ length body = count
  else blk = [].

(** The value under [key] in the graph data, [None] without the key. *)
Definition entry_of (graph_data : pydict) (key : string) : pyval :=
  match dict_lookup key graph_data with
  | Some v => v
  | None => PyNone
  end.

(** The key is there and holds a non-empty value. *)
Definition holds_data (graph_data : pydict) (key : string) : bool :=
  match dict_lookup key graph_data with
  | Some v => py_truthy v
  | None => false
  end.

(** [v.get(key, dflt)] for a value known to be a dict. *)
Definition field (v : pyval) (key : string) (dflt : pyval) : pyval :=
  match v with
  | PyDict d => default dflt (dict_lookup key d)
  | _ => dflt
  end.

(** The number of entries of a value that is gone through: the elements
    of a list, the characters of a text, the keys of a dict. *)
Definition entries (v : pyval) : nat :=
  match v with
  | PyList l => length l
  | PyStr s => length (chars s)
  | PyDict d => length d
  | _ => 0%nat
  end.

(** The child section has the name, the age and the weight, and the
    allergies when the list is not empty. *)
Definition child_items (graph_data : pydict) : nat :=
  if py_truthy (field (entry_of graph_data "child") "allergies" (PyList []))
  then 4%nat else 3%nat.

(** The emergency section is written when the status is there and its
    [is_emergency] is true, with one line for each critical symptom. *)
Definition emergency_shown (graph_data : pydict) : bool :=
  dict_has "emergency_status" graph_data &&
  py_truthy (field (entry_of graph_data "emergency_status") "is_emergency" PyNone).

Definition critical_items (graph_data : pydict) : nat :=
  entries (field (entry_of graph_data "emergency_status") "critical_symptoms" (PyList [])).

(** The safety alert is written when the verdict is there and its [safe]
    is false; it has the allergy line when [has_allergy] is true and, when
    [interactions] is not empty, the line that announces the interactions
    and one line for each of them. *)
Definition alert_shown (graph_data : pydict) : bool :=
  dict_has "medication_safety" graph_data &&
  negb (py_truthy (field (entry_of graph_data "medication_safety") "safe" (PyBool true))).

Definition alert_items (graph_data : pydict) : nat :=
  let safety := entry_of graph_data "medication_safety" in
  ((if py_truthy (field safety "has_allergy" PyNone) then 1 else 0)
   + (if py_truthy (field safety "interactions" PyNone)
      then 1 + entries (field safety "interactions" PyNone) else 0))%nat.

Definition HEADERS : list string :=
  [ CHILD_HEADER; MEDICATIONS_HEADER; SYMPTOMS_HEADER; EMERGENCY_HEADER;
    APPOINTMENTS_HEADER; SAFETY_HEADER ].

(** No header is directly followed by the empty line that closes its
    section. *)
Definition no_empty_header (lines : list string) : Prop :=
  forall pre h post,
    lines = (pre ++ h :: EmptyString :: post)%list -> h ∉ HEADERS.

(** ** The loading loops as keyed writes *)

(** The value that the last [SET] of the name [name] gives, if any. *)
Fixpoint assigned (name : string) (kvs : list (string * pyval)) : option pyval :=
  match kvs with
  | [] => None
  | (k, v) :: rest =>
      match assigned name rest with
      | Some w => Some w
      | None => if String.eqb k name then Some v else None
      end
  end.

(** A loop body as a write: the store it leaves, raise or not. *)
Definition written {A} (body : A -> Graph -> result Graph) (row : A) (g : Graph)
  : Graph :=
  match body row g with
  | Ok g' => g'
  | Raise _ => g
  end.

(** A run of writes, one per row, in order. *)
Definition run {S A : Type} (step : A -> S -> S) (rows : list A) (s : S) : S :=
  fold_left (fun s a => step a s) rows s.

(** ** Example stores *)

(** Emma, 5 years old, 18.5 kg, allergic to penicillin. *)
Definition emma_graph : Graph :=
  fst (create_or_update_child empty_graph 0 "emma" "Emma" 5 "18.5"
         (Some ["penicillin"])).

(** The same store once the common interactions are loaded and Emma has
    been given Aspirin. *)
Definition aspirin_graph : Graph :=
  fst (add_medication (initialize_knowledge_graph emma_graph) "2025-01-01T08:00:00"
         "emma" "Aspirin" "81mg" "daily" None).

(** The same store after the Aspirin was stopped: the relationship is
    kept, with [active] false. *)
Definition stopped_graph : Graph :=
  set_takes
    (fmap (fun t => mkTakes (t_child t) (t_medication t) (t_start_date t)
                      (t_dosage t) false))
    aspirin_graph.

(** Noon of some day, and a store where Emma's breathing difficulty was
    reported one hour before. *)
Definition noon : Z := 500 * PT24H.
Definition breathing_graph : Graph :=
  fst (log_symptom emma_graph (noon - 3600 * 1000000000) "emma"
         "breathing_difficulty" 9 EmptyString).

(** The graph data of the module's self-test, and the text it renders to. *)
Definition test_graph_data : pydict :=
  [ ("child", PyDict [ ("name", PyStr "Emma"); ("age", PyInt 5);
                       ("weight_kg", PyFloat "18.5");
                       ("allergies", PyList [PyStr "penicillin"]) ]);
    ("medications", PyList [ PyDict [ ("medication", PyStr "Ibuprofen");
                                      ("dosage", PyStr "100mg");
                                      ("frequency", PyStr "as needed") ] ]);
    ("appointments", PyList [ PyDict [ ("date", PyStr "2025-12-20");
                                       ("time", PyStr "10:00 AM");
                                       ("type", PyStr "Checkup");
                                       ("doctor", PyStr "Smith") ] ]) ].

Definition test_graph_text : string :=
  join nl [ "👶 CHILD INFORMATION:"; "- Name: Emma"; "- Age: 5 years old";
            "- Weight: 18.5 kg"; "- ⚠️ ALLERGIES: penicillin"; EmptyString;
            "💊 CURRENT MEDICATIONS:"; "- Ibuprofen: 100mg - as needed"; EmptyString;
            "📅 UPCOMING APPOINTMENTS:";
            "- 2025-12-20 at 10:00 AM: Checkup with Dr. Smith"; EmptyString ].

(** A verdict that is unsafe and names neither an allergy nor an
    interaction. *)
Definition bare_alert : pydict :=
  [ ("medication_safety", PyDict [ ("safe", PyBool false);
                                   ("has_allergy", PyBool false);
                                   ("interactions", PyList []) ]) ].

(** An emergency status that is true and lists no critical symptom. *)
Definition bare_emergency : pydict :=
  [ ("emergency_status", PyDict [ ("is_emergency", PyBool true);
                                  ("critical_symptoms", PyList []) ]) ].

(** A small [dataset/] folder: one medication guide, one symptom rule,
    one aftercare procedure and one sample dialogue; no check-in file. *)
Definition small_dataset : Dataset :=
  mkDataset
    (Some [ mkMedicationGuide (Some "Ibuprofen") (Some (PyList [PyStr "suspension"]))
              (Some (PyStr "fever and pain")) (Some (PyStr "give with food"))
              None None ])
    (Some [ mkSymptomRule (Some "fever_c") (Some (PyFloat "38.0")) (Some (PyFloat "39.0"))
              None None None (Some (PyStr "rest and fluids"))
              (Some (PyStr "call the doctor")) None None ])
    (Some [ mkAfterCare (Some "tonsillectomy") (Some (PyStr "surgery"))
              (Some (PyStr "3-12")) (Some (PyStr "sore throat is expected"))
              None None None None None None ])
    (Some [ mkDialogue (Some (PyStr "My child has a fever of 38.5"))
              (Some (PyStr "Offer fluids and check again in an hour")) ])
    None.

(** The store after one run of the loader on the empty store, and after a
    second run on the same folder. *)
Definition loaded_once : Graph := fst (load_dataset small_dataset empty_graph).
Definition loaded_twice : Graph := fst (load_dataset small_dataset loaded_once).

(** ** The stores the client and the loader can build *)

(** The stores reached from the empty one by the writes of
    [PediatricCareGraph] and by runs of the loader. *)
Inductive reachable : Graph -> Prop :=
  | reach_empty : reachable empty_graph
  | reach_child g now child_id name age weight_kg allergies :
      reachable g ->
      reachable (fst (create_or_update_child g now child_id name age weight_kg allergies))
  | reach_medication g now_iso child_id medication_name dosage frequency start_date :
      reachable g ->
      reachable (fst (add_medication g now_iso child_id medication_name dosage
                        frequency start_date))
  | reach_symptom g now child_id symptom_name sev notes :
      reachable g ->
      reachable (fst (log_symptom g now child_id symptom_name sev notes))
  | reach_appointment g now child_id appointment_type date time doctor location notes :
      reachable g ->
      reachable (fst (create_appointment g now child_id appointment_type date time
                        doctor location notes))
  | reach_knowledge g :
      reachable g -> reachable (initialize_knowledge_graph g)
  | reach_dataset g ds :
      reachable g -> reachable (fst (load_dataset ds g)).

(** Every relationship starts at a Child node and ends at a node of its
    label. *)
Definition relationships_closed (g : Graph) : Prop :=
  (forall t, t ∈ takes g ->
     is_Some (children g !! t_child t) /\ is_Some (medications g !! t_medication t)) /\
  (forall h, h ∈ has_symptom g ->
     is_Some (children g !! h_child h) /\ is_Some (symptoms g !! h_symptom h)) /\
  (forall a, a ∈ appointments g -> is_Some (children g !! a_child a)) /\
  interactions_closed g.


(** The row of [get_active_medications] for a TAKES relationship. *)
Definition active_row (t : Takes) : ActiveMedication :=
  mkActiveMedication (t_medication t) (t_dosage t) None (t_start_date t).

(** Emma's store two days after the breathing difficulty was reported. *)
Definition two_days_later : Z := noon + 2 * PT24H.

(** The nodes and the relationship of one stored interaction are there. *)
Definition present (x : string * string * string * string) (g : Graph) : Prop :=
  let '(m1, m2, sev, desc) := x in
  is_Some (medications g !! m1) /\ is_Some (medications g !! m2) /\
  mkInteractsWith m1 m2 sev desc ∈ interacts_with g.

(** What a run of the loader keeps of a store: the children, their
    relationships, the appointments and the interactions are the same, no
    Medication or Symptom node is lost, and a Medication node keeps its
    dosage and frequency. *)
Definition kept (g g' : Graph) : Prop :=
  children g' = children g /\
  takes g' = takes g /\
  has_symptom g' = has_symptom g /\
  appointments g' = appointments g /\
  interacts_with g' = interacts_with g /\
  (forall k, is_Some (symptoms g !! k) -> is_Some (symptoms g' !! k)) /\
  (forall k p, medications g !! k = Some p ->
     exists p', medications g' !! k = Some p' /\
                p' !! "dosage" = p !! "dosage" /\
                p' !! "frequency" = p !! "frequency").

(** The pairs that [link_symptom] merges: the conditions whose name has
    one of the words, each with the symptom. *)
Definition links (symptom : string) (words : list string) (g : Graph)
  : gset (string * string) :=
  match symptoms g !! symptom with
  | None => ∅
  | Some _ =>
      list_to_set
        ((fun c => (c, symptom))
           <$> filter (fun c => Is_true (existsb (contains c) words))
                 (elements (dom (conditions g))))
  end.

(** A folder whose first medication guide has no drug name. *)
Definition nameless_guide_dataset : Dataset :=
  mkDataset
    (Some [ mkMedicationGuide None None None None None None ])
    None None
    (Some [ mkDialogue (Some (PyStr "Is a fever of 38 dangerous?")) None ])
    None.

(** The Medication node that [add_medication] leaves for Ibuprofen, 100mg,
    as needed. *)
Definition ibuprofen_props : props :=
  <["frequency" := PyStr "as needed"]>
    (<["dosage" := PyStr "100mg"]> {[ "name" := PyStr "Ibuprofen" ]}).

(** The symptoms that the loader links, each with the words looked for in
    the names of the conditions. *)
Definition CAUSE_RULES : list (string * list string) :=
  [ ("fever_c", ["tonsillectomy"; "RSV"; "pneumonia"]);
    ("pain_0_10", ["tonsillectomy"; "appendectomy"]);
    ("breathing_difficulty", ["RSV"; "pneumonia"; "flu"]) ].

(** What the later steps of the loader write to. *)
Definition later_fields (g : Graph) :=
  (symptoms g, symptom_rules g, has_rule g, conditions g, aftercare_guides g,
   has_aftercare g, may_cause g, sample_dialogues g, check_ins g).

(** The records of the small folder, file by file. *)
Definition small_guides : list MedicationGuide :=
  default [] (medication_guides small_dataset).
Definition small_rules : list SymptomRule :=
  default [] (symptom_rules_json small_dataset).
Definition small_aftercare : list AfterCare :=
  default [] (pediatric_aftercare small_dataset).
Definition small_dialogues : list Dialogue :=
  default [] (dialogues small_dataset).

(** ** neo4j_client.py: pharmacies *)

(** The [:Pharmacy] nodes, merged on their name.  They take part in no
    relationship and are held beside the graph record. *)
Record Pharmacy := mkPharmacy {
  ph_location : string;
  ph_phone : string;
  ph_hours : string
}.

(** [MERGE (p:Pharmacy {name: $name}) SET p.location, p.phone, p.hours] *)
Definition add_pharmacy (pharmacies : gmap string Pharmacy)
    (name location phone hours : string)
  : gmap string Pharmacy * (string * Pharmacy) :=
  let p := mkPharmacy location phone hours in
  (<[name := p]> pharmacies, (name, p)).

(** [WHERE toLower(p.location) CONTAINS toLower($location)] *)
Definition located (location : string) (np : string * Pharmacy) : Prop :=
  Is_true (contains (toLower (ph_location (snd np))) (toLower location)).

Global Instance located_dec location np : Decision (located location np).
Proof. unfold located. apply _. Defined.

(** [find_nearby_pharmacies]: with a location that is not empty the
    filtered nodes, else ten nodes at most.  The rows come in the order of
    the store. *)
Definition find_nearby_pharmacies (pharmacies : gmap string Pharmacy)
    (location : option string) : list (string * Pharmacy) :=
  match location with
  | Some (String c s) => filter (located (String c s)) (map_to_list pharmacies)
  | _ => take 10 (map_to_list pharmacies)
  end.

(** ** What the evaluator hands to the prompt assembler *)

(** [dict(record)] of the rows and verdicts of the client, as the demo and
    the self-tests put them into [graph_data]. *)
Definition symptom_entry_py (sx : SymptomEntry) : pyval :=
  PyDict [ ("name", PyStr (sx_name sx)); ("severity", PyInt (sx_severity sx)) ].

Definition emergency_py (status : EmergencyStatus) : pyval :=
  PyDict [ ("is_emergency", PyBool (is_emergency status));
           ("critical_symptoms", PyList (symptom_entry_py <$> critical_symptoms status));
           ("recent_symptoms", PyList (symptom_entry_py <$> recent_symptoms status)) ].

Definition interaction_py (row : InteractionRow) : pyval :=
  PyDict [ ("current_med", PyStr (current_med row));
           ("severity", PyStr (severity row));
           ("description", PyStr (description row)) ].

Definition verdict_py (verdict : SafetyVerdict) : pyval :=
  PyDict [ ("safe", PyBool (safe verdict));
           ("has_allergy", PyBool (has_allergy verdict));
           ("allergies", PyList (PyStr <$> allergies verdict));
           ("interactions", PyList (interaction_py <$> interactions verdict)) ].

Definition opt_str_py (x : option string) : pyval :=
  match x with Some s => PyStr s | None => PyNone end.

Definition active_medication_py (row : ActiveMedication) : pyval :=
  PyDict [ ("medication", PyStr (am_medication row));
           ("dosage", PyStr (am_dosage row));
           ("frequency", opt_str_py (am_frequency row));
           ("start_date", PyStr (am_start_date row)) ].

(** The lines that the sections print for these values. *)
Definition critical_text (sx : SymptomEntry) : string :=
  "   - " +:+ sx_name sx +:+ " (severity: " +:+ pretty (sx_severity sx) +:+ ")".

Definition interaction_text (row : InteractionRow) : string :=
  "      * " +:+ current_med row +:+ ": " +:+ description row +:+ " "
  +:+ "(Severity: " +:+ severity row +:+ ")".

Definition medication_text (row : ActiveMedication) : string :=
  "- " +:+ am_medication row +:+ ": " +:+ am_dosage row +:+ " - None".

(** The lines under the header of the safety alert. *)
Definition alert_body (verdict : SafetyVerdict) : list string :=
  ((if has_allergy verdict
    then ["   - ALLERGY RISK: " +:+ py_repr (PyList (PyStr <$> allergies verdict))]
    else [])
   ++ match interactions verdict with
      | [] => []
      | rows => "   - DRUG INTERACTIONS:" :: (interaction_text <$> rows)
      end)%list.

(** ** The fields of a template *)

(** The names between braces that [format] looks up in a template, in
    order, or [None] for a template with a lone or an unclosed brace. *)
Fixpoint template_fields (tpl : string) (field : option string) : option (list string) :=
  match field with
  | None =>
      match tpl with
      | EmptyString => Some []
      | String "{" (String "{" rest) => template_fields rest None
      | String "{" rest => template_fields rest (Some EmptyString)
      | String "}" (String "}" rest) => template_fields rest None
      | String "}" _ => None
      | String _ rest => template_fields rest None
      end
  | Some name =>
      match tpl with
      | EmptyString => None
      | String "}" rest => cons name <$> template_fields rest None
      | String c rest => template_fields rest (Some (name +:+ String c EmptyString))
      end
  end.

(** The five arguments that [create_query] passes. *)
Definition QUERY_FIELDS : list string :=
  [ "current_date"; "profile"; "context_block"; "graph_data"; "query" ].

(** The characters that start a conversion, a format specification, an
    attribute or an index inside a field. *)
Definition FIELD_MARKS : string := "!:.[".

(** The template has plain fields only: read from the left, with [{{] and
    [}}] as literal braces, no field has one of the marks before the brace
    that closes it.  For such a template Python's [str.format] called with
    string arguments and [format] raise for the same arguments. *)
Fixpoint plain_from (tpl : string) (in_field : bool) : bool :=
  match tpl with
  | EmptyString => true
  | String c rest =>
      if in_field then
        if Ascii.eqb c "}" then plain_from rest false
        else negb (str_in c FIELD_MARKS) && plain_from rest true
      else if Ascii.eqb c "{" then
        match rest with
        | String c' rest' =>
            if Ascii.eqb c' "{" then plain_from rest' false else plain_from rest true
        | EmptyString => true
        end
      else if Ascii.eqb c "}" then
        match rest with
        | String c' rest' =>
            if Ascii.eqb c' "}" then plain_from rest' false else plain_from rest false
        | EmptyString => true
        end
      else plain_from rest false
  end.

Definition plain_template (tpl : string) : bool := plain_from tpl false.

(** Text made of ASCII characters only. *)
Definition ascii_text (s : string) : Prop :=
  Forall (fun c => (N_of_ascii c < 128)%N) (list_ascii_of_string s).

(** * Properties *)

(** ** Text *)

Section Text.

Lemma append_nil_r (s : string) : s +:+ EmptyString = s.
Proof.
  induction s as [|c s IH]; [done |].
  change (String c (s +:+ EmptyString) = String c s). by rewrite IH.
Qed.

Lemma append_assoc (a b c : string) : (a +:+ b) +:+ c = a +:+ b +:+ c.
Proof.
  induction a as [|x a IH]; [done |].
  change (String x ((a +:+ b) +:+ c) = String x (a +:+ b +:+ c)). by rewrite IH.
Qed.

Lemma prefix_app (n h : string) :
  String.prefix n h = true <-> exists suf, h = n +:+ suf.
Proof.
  revert h. induction n as [|a n IH]; intros h; destruct h as [|b h]; simpl.
  - split; [intros _; by exists EmptyString | done].
  - split; [intros _; by eexists | done].
  - split; [done | intros [suf Hs]; discriminate].
  - destruct (ascii_dec a b) as [->|Hab].
    + rewrite IH. split; intros [suf Hs]; exists suf.
      * by rewrite Hs.
      * change (String b h = String b (n +:+ suf)) in Hs. congruence.
    + split; [done | intros [suf Hs]].
      change (String b h = String a (n +:+ suf)) in Hs. congruence.
Qed.

Lemma contains_prefix (hay needle : string) :
  String.prefix needle hay = true -> contains hay needle = true.
Proof. intros H. destruct hay; cbn [contains]; rewrite H; done. Qed.

Lemma contains_spec (hay needle : string) :
  contains hay needle = true <-> substring_of needle hay.
Proof.
  unfold substring_of. split.
  - induction hay as [|c hay IH]; cbn [contains]; rewrite orb_true_iff.
    + intros [Hp|?]; [|done]. apply prefix_app in Hp as [suf Hs].
      by exists EmptyString, suf.
    + intros [Hp|Hc].
      * apply prefix_app in Hp as [suf Hs]. by exists EmptyString, suf.
      * destruct (IH Hc) as (pre & suf & ->). by exists (String c pre), suf.
  - intros (pre & suf & ->). induction pre as [|c pre IH].
    + apply contains_prefix, prefix_app. by exists suf.
    + change (contains (String c (pre +:+ needle +:+ suf)) needle = true).
      cbn [contains]. rewrite orb_true_iff. by right.
Qed.

Lemma is_space_In (w : string) : is_space w = true <-> In w WHITESPACE.
Proof.
  unfold is_space. rewrite existsb_exists. split.
  - intros (x & Hx & Hw). apply String.eqb_eq in Hw. by subst.
  - intros H. exists w. split; [done | apply String.eqb_refl].
Qed.

Lemma lstrip_space (w s : string) : In w WHITESPACE -> lstrip (w +:+ s) = lstrip s.
Proof.
  intros H. vm_compute in H.
  repeat (destruct H as [<-|H]; [reflexivity |]). done.
Qed.

(** One step of [lstrip]: the text is returned as it is, or it starts with
    a whitespace character, which is dropped. *)
Lemma lstrip_cases (s : string) :
  lstrip s = s \/
  exists w rest, In w WHITESPACE /\ s = w +:+ rest /\ lstrip s = lstrip rest.
Proof.
  destruct s as [|b1 rest1]; [by left |]. cbn [lstrip].
  destruct (is_space (String b1 EmptyString)) eqn:E1.
  { right. exists (String b1 EmptyString), rest1. by rewrite <- is_space_In. }
  destruct rest1 as [|b2 rest2]; [by left |].
  destruct (is_space (String b1 (String b2 EmptyString))) eqn:E2.
  { right. exists (String b1 (String b2 EmptyString)), rest2. by rewrite <- is_space_In. }
  destruct rest2 as [|b3 rest3]; [by left |].
  destruct (is_space (String b1 (String b2 (String b3 EmptyString)))) eqn:E3.
  { right. exists (String b1 (String b2 (String b3 EmptyString))), rest3.
    by rewrite <- is_space_In. }
  by left.
Qed.

Lemma space_length (w : string) : In w WHITESPACE -> (0 < String.length w)%nat.
Proof.
  intros H. vm_compute in H.
  repeat (destruct H as [<-|H]; [simpl; lia |]). done.
Qed.

Lemma length_append (a b : string) :
  String.length (a +:+ b) = (String.length a + String.length b)%nat.
Proof. induction a as [|c a IH]; [done |]. simpl. by rewrite <- IH. Qed.

(** The list of [strip] and the whitespace of Unicode are the same
    characters. *)
Lemma whitespace_code_point (cp : N) : whitespace cp <-> In cp SPACE_CODE_POINTS.
Proof. unfold whitespace, SPACE_CODE_POINTS. simpl. lia. Qed.

Lemma whitespace_encoded (w : string) :
  In w WHITESPACE <-> exists cp, whitespace cp /\ w = utf8 cp.
Proof.
  change WHITESPACE with (map utf8 SPACE_CODE_POINTS). rewrite in_map_iff. split.
  - intros (cp & <- & Hcp). exists cp. by rewrite whitespace_code_point.
  - intros (cp & Hcp & ->). exists cp. by rewrite <- whitespace_code_point.
Qed.

Lemma blank_empty : blank EmptyString.
Proof. by exists []. Qed.

Lemma blank_space (w s : string) : In w WHITESPACE -> blank s -> blank (w +:+ s).
Proof.
  intros Hw (cps & Hcps & ->). apply whitespace_encoded in Hw as (cp & Hcp & ->).
  exists (cp :: cps). split; [by constructor | done].
Qed.

Lemma lstrip_shape (n : nat) (s : string) :
  (String.length s <= n)%nat ->
  (lstrip s = EmptyString -> blank s) /\ lstrip (lstrip s) = lstrip s.
Proof.
  revert s. induction n as [|n IH]; intros s Hn.
  - destruct s; [|simpl in Hn; lia]. split; [intros _; apply blank_empty | done].
  - destruct (lstrip_cases s) as [Hs|(w & rest & Hw & -> & Hs)].
    + rewrite Hs. split; [intros ->; apply blank_empty | done].
    + pose proof (space_length w Hw) as Hl. rewrite length_append in Hn.
      destruct (IH rest ltac:(lia)) as [IH1 IH2].
      rewrite Hs. split; [|done]. intros H. apply blank_space; [done | by apply IH1].
Qed.

Lemma lstrip_blank (s : string) : lstrip s = EmptyString <-> blank s.
Proof.
  split.
  - by apply (lstrip_shape (String.length s)).
  - intros (cps & Hcps & ->). induction Hcps as [|cp cps Hcp Hcps IH]; [done |].
    cbn [text_of]. rewrite lstrip_space; [done |].
    apply whitespace_encoded. by exists cp.
Qed.

Lemma lstrip_twice (s : string) : lstrip (lstrip s) = lstrip s.
Proof. by apply (lstrip_shape (String.length s)). Qed.

Lemma rstrip_empty (s : string) : rstrip s = EmptyString <-> lstrip s = EmptyString.
Proof.
  destruct s as [|b rest]; [done |]. cbn [rstrip].
  destruct (lstrip (String b rest)); done.
Qed.

(** [query.strip()] is empty exactly for a blank question. *)
Lemma strip_blank (s : string) : strip s = EmptyString <-> blank s.
Proof. unfold strip. by rewrite rstrip_empty, lstrip_twice, lstrip_blank. Qed.

End Text.

(** ** Risk evaluator *)

Section Evaluator.

Implicit Types (g : Graph) (child_id medication_name : string).

Lemma critical_of_entries (hs : list HasSymptom) :
  filter (fun sx => sx_severity sx >= 8) (symptom_entry <$> hs)
  = symptom_entry <$> filter (fun h => h_severity h >= 8) hs.
Proof.
  induction hs as [|h hs IH]; [done |].
  rewrite fmap_cons, !filter_cons. simpl.
  destruct (decide (h_severity h >= 8)); rewrite IH; done.
Qed.

Lemma length_pos_elem {A} (l : list A) :
  (0 <? length l)%nat = true <-> exists x, x ∈ l.
Proof.
  destruct l as [|x l]; simpl.
  - split; [done | intros [x Hx]; by apply elem_of_nil in Hx].
  - split; [intros _; exists x; by left | done].
Qed.

(** The rows of [interaction_query], one by one. *)
Lemma elem_of_interaction_query g child_id medication_name (row : InteractionRow) :
  row ∈ interaction_query g child_id medication_name <->
  is_Some (children g !! child_id) /\
  is_Some (medications g !! medication_name) /\
  exists t i,
    t ∈ takes g /\ t_child t = child_id /\
    i ∈ interacts_with g /\ joins (t_medication t) medication_name i /\
    row = mkInteractionRow (t_medication t) (i_severity i) (i_description i).
Proof.
  unfold interaction_query.
  destruct (children g !! child_id) as [c|] eqn:Hc.
  2: { split; [intros H; by apply elem_of_nil in H | intros [[? ?] _]; done]. }
  rewrite list_elem_of_bind. split.
  - intros (t & Hrow & Ht). apply list_elem_of_filter in Ht as [Hcid Ht].
    apply list_elem_of_bind in Hrow as (new & Hrow & Hnew).
    destruct (medications g !! medication_name) as [m|] eqn:Hm;
      [|by apply elem_of_nil in Hnew].
    apply list_elem_of_singleton in Hnew as ->.
    apply list_elem_of_bind in Hrow as (i & Hrow & Hi).
    apply list_elem_of_filter in Hi as [Hj Hi].
    apply list_elem_of_singleton in Hrow.
    split; [by eexists | split; [by eexists |]]. by exists t, i.
  - intros (_ & [m Hm] & t & i & Ht & Hcid & Hi & Hj & ->).
    exists t. split; [| by apply list_elem_of_filter].
    apply list_elem_of_bind. exists medication_name. rewrite Hm.
    split; [| by apply list_elem_of_singleton].
    apply list_elem_of_bind. exists i.
    split; [by apply list_elem_of_singleton | by apply list_elem_of_filter].
Qed.

(** [log_symptom] stores the severity it is given, whatever it is. *)
Lemma log_symptom_keeps_severity g (now : Z) child_id (symptom_name : string)
    (sev : Z) (notes : string) :
  is_Some (children g !! child_id) ->
  has_symptom (fst (log_symptom g now child_id symptom_name sev notes))
  = (has_symptom g ++ [mkHasSymptom child_id symptom_name now sev notes])%list.
Proof. intros [c Hc]. unfold log_symptom. by rewrite Hc. Qed.

(** [has_allergy] is the test of the [WHERE any(...)] clause. *)
Lemma has_allergy_existsb g child_id medication_name (c : Child) :
  children g !! child_id = Some c ->
  has_allergy (check_medication_safety g child_id medication_name)
  = existsb (fun allergy => contains (toLower medication_name) (toLower allergy))
      (child_allergies c).
Proof.
  intros Hc. unfold check_medication_safety, allergy_query. simpl. rewrite Hc.
  by destruct (existsb _ _).
Qed.

End Evaluator.

(** *** The store invariant on interactions *)

Section Invariant.

Lemma merge_node_mono (key_prop k k' : string) (m : gmap string props) :
  is_Some (m !! k') -> is_Some (merge_node key_prop k m !! k').
Proof.
  intros H. unfold merge_node. destruct (m !! k) eqn:E; [done |].
  destruct (decide (k = k')) as [->|Hne].
  - rewrite lookup_insert_eq. by eexists.
  - by rewrite lookup_insert_ne.
Qed.

Lemma merge_node_here (key_prop k : string) (m : gmap string props) :
  is_Some (merge_node key_prop k m !! k).
Proof.
  unfold merge_node. destruct (m !! k) eqn:E.
  - rewrite E. by eexists.
  - rewrite lookup_insert_eq. by eexists.
Qed.

Lemma set_node_prop_mono (k key k' : string) (v : pyval) (m : gmap string props) :
  is_Some (m !! k') -> is_Some (set_node_prop k key v m !! k').
Proof.
  intros [x Hx]. unfold set_node_prop. rewrite lookup_alter.
  case_decide; subst; rewrite Hx; by eexists.
Qed.

Lemma elem_of_merge_rel {A} `{EqDecision A} (r x : A) (rs : list A) :
  x ∈ merge_rel r rs <-> x = r \/ x ∈ rs.
Proof.
  unfold merge_rel. case_decide.
  - split; [by right | intros [->|?]; done].
  - rewrite elem_of_app, list_elem_of_singleton. tauto.
Qed.

Lemma empty_graph_closed : interactions_closed empty_graph.
Proof. intros i Hi. by apply elem_of_nil in Hi. Qed.

Lemma merge_interaction_closed g interaction :
  interactions_closed g -> interactions_closed (merge_interaction g interaction).
Proof.
  destruct interaction as [[[m1 m2] sev] desc]. intros Hg i Hi. simpl in *.
  apply elem_of_merge_rel in Hi as [->|Hi]; simpl.
  - split; [apply merge_node_mono |]; apply merge_node_here.
  - destruct (Hg i Hi). split; by do 2 apply merge_node_mono.
Qed.

Lemma initialize_knowledge_graph_closed g :
  interactions_closed g -> interactions_closed (initialize_knowledge_graph g).
Proof.
  unfold initialize_knowledge_graph. generalize common_interactions.
  intros l. revert g. induction l as [|x l IH]; intros g Hg; simpl; [done |].
  by apply IH, merge_interaction_closed.
Qed.

Lemma create_or_update_child_closed g now child_id name age weight_kg allergies :
  interactions_closed g ->
  interactions_closed
    (fst (create_or_update_child g now child_id name age weight_kg allergies)).
Proof. intros Hg i Hi. exact (Hg i Hi). Qed.

Lemma add_medication_closed g now_iso child_id medication_name dosage frequency start :
  interactions_closed g ->
  interactions_closed
    (fst (add_medication g now_iso child_id medication_name dosage frequency start)).
Proof.
  intros Hg. unfold add_medication. destruct (children g !! child_id); [|done].
  intros i Hi. simpl in *. destruct (Hg i Hi).
  split; by do 2 apply set_node_prop_mono; apply merge_node_mono.
Qed.

Lemma log_symptom_closed g now child_id symptom_name sev notes :
  interactions_closed g ->
  interactions_closed (fst (log_symptom g now child_id symptom_name sev notes)).
Proof.
  intros Hg. unfold log_symptom. destruct (children g !! child_id); [|done].
  intros i Hi. exact (Hg i Hi).
Qed.

End Invariant.

(** ** The claims on the risk evaluator *)

Section EvaluatorClaims.

Implicit Types (g : Graph) (child_id medication_name : string).

(** C1. For a child of the store, [check_emergency_status] says
    [is_emergency] exactly when the store has a report of that child, made
    less than 24 hours before the call, of severity 8 or more;
    [critical_symptoms] lists the name and severity of the child's reports
    of the last 24 hours that have severity 8 or more, [recent_symptoms]
    those of all the child's reports of the last 24 hours, each report
    once and in no promised order; with no report of the child in the last
    24 hours the answer is [false] with two empty lists. *)
Theorem check_emergency_status_spec g (now : Z) child_id :
  is_Some (children g !! child_id) ->
  let windowed :=
    filter (fun h => h_child h = child_id /\
                     now - 24 * 3600 * 1000000000 < h_reported_date h)
      (has_symptom g) in
  let entry h := {| sx_name := h_symptom h; sx_severity := h_severity h |} in
  let status := check_emergency_status g now child_id in
  (is_emergency status = true <->
   exists h, h ∈ has_symptom g /\ h_child h = child_id /\
             now - 24 * 3600 * 1000000000 < h_reported_date h /\
             8 <= h_severity h) /\
  critical_symptoms status ≡ₚ entry <$> filter (fun h => 8 <= h_severity h) windowed /\
  recent_symptoms status ≡ₚ entry <$> windowed /\
  (windowed = [] -> status = {| is_emergency := false; critical_symptoms := [];
                                recent_symptoms := [] |}).
Proof.
  intros [c Hc]. cbv zeta.
  assert (Hw : filter (in_window now child_id) (has_symptom g)
               = filter (fun h => h_child h = child_id /\
                                  now - 24 * 3600 * 1000000000 < h_reported_date h)
                   (has_symptom g)).
  { apply list_filter_iff. intros h. unfold in_window, PT24H.
    split; intros [? ?]; split; [done | lia | done | lia]. }
  assert (Hsev : forall hs : list HasSymptom,
             filter (fun h => h_severity h >= 8) hs
             = filter (fun h => 8 <= h_severity h) hs).
  { intros hs. apply list_filter_iff. intros h. lia. }
  unfold check_emergency_status, emergency_query. rewrite Hc, Hw.
  assert (Hex : (exists h, h ∈ has_symptom g /\ h_child h = child_id /\
                           now - 24 * 3600 * 1000000000 < h_reported_date h /\
                           8 <= h_severity h)
                <-> exists h,
                      h ∈ filter (fun h => h_child h = child_id /\
                                    now - 24 * 3600 * 1000000000 < h_reported_date h)
                            (has_symptom g) /\ 8 <= h_severity h).
  { split.
    - intros (h & Hh & Hch & Ht & Hs). exists h. split; [|done].
      by apply list_elem_of_filter.
    - intros (h & Hh & Hs). apply list_elem_of_filter in Hh as [[Hch Ht] Hh].
      by exists h. }
  rewrite Hex. clear Hex Hw.
  destruct (filter _ (has_symptom g)) as [|h hs].
  - cbn [single head is_emergency critical_symptoms recent_symptoms].
    repeat split; try done.
    intros (h & Hh & _). by apply elem_of_nil in Hh.
  - cbn [single head is_emergency critical_symptoms recent_symptoms].
    rewrite critical_of_entries, Hsev. repeat split; try done.
    + rewrite length_pos_elem. intros [sx Hsx].
      apply list_elem_of_fmap in Hsx as (h' & _ & Hh').
      apply list_elem_of_filter in Hh' as [Hs Hh']. by exists h'.
    + intros (h' & Hh' & Hs). apply length_pos_elem.
      exists (symptom_entry h'). apply list_elem_of_fmap_2.
      by apply list_elem_of_filter.
Qed.

Lemma check_emergency_status_witness :
  is_emergency (check_emergency_status breathing_graph noon "emma") = true /\
  critical_symptoms (check_emergency_status breathing_graph noon "emma")
    ≡ₚ [ {| sx_name := "breathing_difficulty"; sx_severity := 9 |} ] /\
  recent_symptoms (check_emergency_status breathing_graph noon "emma")
    ≡ₚ [ {| sx_name := "breathing_difficulty"; sx_severity := 9 |} ].
Proof.
  destruct (check_emergency_status_spec breathing_graph noon "emma")
    as (Hiff & Hcrit & Hrec & _).
  { vm_compute. eexists. reflexivity. }
  split; [| split; [exact Hcrit | exact Hrec]].
  apply Hiff.
  exists (mkHasSymptom "emma" "breathing_difficulty" (noon - 3600 * 1000000000) 9
            EmptyString).
  split; [vm_compute; left |]. by vm_compute.
Defined.



(** C3. The verdict satisfies
    [safe = not has_allergy and interactions is empty]. *)
Theorem safe_verdict_equation g child_id medication_name :
  let verdict := check_medication_safety g child_id medication_name in
  safe verdict = negb (has_allergy verdict) && bool_decide (interactions verdict = []).
Proof.
  cbv zeta. unfold check_medication_safety. simpl.
  by destruct (interaction_query g child_id medication_name).
Qed.

(** C4. What the code does where the claim fails: in [stopped_graph] the
    TAKES relationship to Aspirin is inactive, [get_active_medications]
    lists nothing, and the safety check for Ibuprofen still reports the
    interaction with Aspirin. *)
Theorem inactive_medication_still_reported :
  t_active <$> takes stopped_graph = [false] /\
  get_active_medications stopped_graph "emma" = [] /\
  interactions (check_medication_safety stopped_graph "emma" "Ibuprofen")
  = [mkInteractionRow "Aspirin" "moderate" "Increased bleeding risk"].
Proof. by vm_compute. Qed.

(** C5. An interaction fact stored from [a] to [b] is found by the safety
    check when the child takes [a] and [b] is the candidate, and when the
    child takes [b] and [a] is the candidate. *)
Theorem interaction_detected_both_ways g child_id (a b sev desc : string) :
  interactions_closed g ->
  is_Some (children g !! child_id) ->
  mkInteractsWith a b sev desc ∈ interacts_with g ->
  (forall t, t ∈ takes g -> t_child t = child_id -> t_active t = true ->
     t_medication t = a ->
     mkInteractionRow a sev desc ∈ interactions (check_medication_safety g child_id b)) /\
  (forall t, t ∈ takes g -> t_child t = child_id -> t_active t = true ->
     t_medication t = b ->
     mkInteractionRow b sev desc ∈ interactions (check_medication_safety g child_id a)).
Proof.
  intros Hg Hc Hi. destruct (Hg _ Hi) as [Ha Hb]. simpl in Ha, Hb.
  split; intros t Ht Hcid _ Hmed; simpl;
    apply elem_of_interaction_query; (split; [done |]); (split; [done |]);
    exists t, (mkInteractsWith a b sev desc); rewrite Hmed;
    repeat split; try done; unfold joins; simpl; tauto.
Qed.

Lemma interaction_detected_both_ways_witness :
  mkInteractionRow "Aspirin" "moderate" "Increased bleeding risk"
  ∈ interactions (check_medication_safety aspirin_graph "emma" "Ibuprofen").
Proof.
  refine (proj2 (interaction_detected_both_ways aspirin_graph "emma"
                   "Ibuprofen" "Aspirin" "moderate" "Increased bleeding risk" _ _ _)
            (mkTakes "emma" "Aspirin" "2025-01-01T08:00:00" "81mg" true) _ _ _ _).
  - apply add_medication_closed, initialize_knowledge_graph_closed,
      create_or_update_child_closed, empty_graph_closed.
  - vm_compute. eexists. reflexivity.
  - vm_compute. repeat constructor.
  - vm_compute. repeat constructor.
  - reflexivity.
  - reflexivity.
  - reflexivity.
Defined.

(** C10. What the code does where the claim fails: a call with severity
    11 stores a report of severity 11. *)
Theorem log_symptom_stores_out_of_range :
  has_symptom (fst (log_symptom emma_graph noon "emma" "fever_c" 11 EmptyString))
  = [mkHasSymptom "emma" "fever_c" noon 11 EmptyString].
Proof. by vm_compute. Qed.

End EvaluatorClaims.

(** ** The claims on the prompt assembler *)

Section AssemblerClaims.

Implicit Types (self : PediatricCareQueryConstructor) (query : string).

Lemma blank_guard query :
  negb (py_truthy (PyStr query)) || negb (py_truthy (PyStr (strip query))) = true
  <-> blank query.
Proof.
  rewrite <- strip_blank. cbn [py_truthy]. destruct query as [|c q]; [done |].
  change (String.eqb (String c q) EmptyString) with false. cbn [negb orb].
  destruct (strip (String c q)) as [|a s] eqn:E; [done |].
  change (String.eqb (String a s) EmptyString) with false. done.
Qed.

(** C6. With a question that is empty or made of whitespace only, the
    whitespace of Unicode included, [create_query] raises the error of the
    blank question and returns nothing, whatever the template, the
    profile, the context and the graph data; the template is not
    interpolated. *)
Theorem create_query_blank_raises self (current_date : string)
    (profile context : option string) query (graph_data : option pydict) :
  blank query ->
  create_query self current_date profile context query graph_data
  = ([], Raise EmptyQueryError).
Proof.
  intros Hb. unfold create_query.
  apply blank_guard in Hb. by rewrite Hb.
Qed.

Lemma create_query_blank_raises_witness :
  create_query new_constructor "2025-12-20 10:00:00" (Some "Emma is five") None
    (" " +:+ nl +:+ NBSP +:+ IDEOGRAPHIC_SPACE) None
  = ([], Raise (ValueError "Query cannot be empty")).
Proof.
  apply create_query_blank_raises.
  apply strip_blank. vm_compute. reflexivity.
Defined.



End AssemblerClaims.

(** ** The layout of the graph-data text *)

Ltac bind_inv_as H E :=
  match type of H with
  | bind ?r _ = Ok _ => destruct r eqn:E; cbn [bind] in H; [|discriminate H]
  end.

Tactic Notation "bind_inv" hyp(H) "as" ident(E) := bind_inv_as H E.
Tactic Notation "bind_inv" hyp(H) := let E := fresh "E" in bind_inv_as H E.

Section Layout.

Implicit Types (graph_data : pydict) (sections lines : list string).

Lemma py_get_field (v : pyval) (key : string) (dflt x : pyval) :
  py_get v key dflt = Ok x -> x = field v key dflt.
Proof. destruct v; simpl; intros H; by inversion H. Qed.

Lemma for_each_Forall {A} (body : A -> result string) (P : string -> Prop)
    (items : list A) lines :
  (forall x l, body x = Ok l -> P l) ->
  for_each body items = Ok lines ->
  Forall P lines /\ length lines = length items.
Proof.
  intros Hbody. revert lines.
  induction items as [|x items IH]; intros lines H; cbn [for_each] in H.
  - inversion H. by split.
  - bind_inv H. bind_inv H. inversion H; subst.
    destruct (IH _ eq_refl) as [HF Hlen].
    split; [constructor; eauto | simpl; by rewrite Hlen].
Qed.

Lemma append_each_inv sections (v : pyval) (line : pyval -> result string)
    (sections' : list string) :
  append_each sections v line = Ok sections' ->
  exists items lines,
    py_iter v = Ok items /\ for_each line items = Ok lines /\
    sections' = (sections ++ lines)%list.
Proof.
  unfold append_each. intros H. bind_inv H. bind_inv H. inversion H.
  by eexists _, _.
Qed.

Lemma chars_cons (b : ascii) (rest : string) : chars (String b rest) <> [].
Proof.
  cbn [chars]. destruct (chars rest) as [|next others]; [done |].
  by destruct (continues rest).
Qed.

Lemma py_iter_entries (v : pyval) (items : list pyval) :
  py_iter v = Ok items -> length items = entries v.
Proof.
  destruct v; simpl; intros H; inversion H; try done; by rewrite length_map.
Qed.

Lemma py_iter_truthy (v : pyval) (items : list pyval) :
  py_truthy v = true -> py_iter v = Ok items -> (1 <= length items)%nat.
Proof.
  destruct v as [| | | |s|l|d]; simpl; try done.
  - destruct s as [|b rest]; [done |]. intros _ [= <-]. cbn [chars].
    destruct (chars rest); [| destruct (continues rest)]; simpl; lia.
  - destruct l; [done |]. intros _ H. inversion H. simpl. lia.
  - destruct d; [done |]. intros _ H. inversion H. simpl. lia.
Qed.

Lemma has_truthy_holds_data graph_data (key : string) :
  has_truthy graph_data key = holds_data graph_data key.
Proof.
  unfold has_truthy, holds_data, dict_has, item.
  by destruct (dict_lookup key graph_data).
Qed.

Lemma item_entry_of graph_data (key : string) :
  item graph_data key = entry_of graph_data key.
Proof. unfold item, entry_of. by destruct (dict_lookup key graph_data). Qed.

(** A section that is shown without item is its header and the closing
    empty line. *)
Lemma section_of_header_alone (header : string) (blk : list string) :
  section_of header true 0 blk -> blk = [header; EmptyString].
Proof.
  intros (body & -> & _ & Hlen). by destruct body.
Qed.

Lemma dash_item (rest : string) : item_line ("- " +:+ rest).
Proof. left. apply prefix_app. by exists rest. Qed.

Lemma indented_item (rest : string) : item_line ("   " +:+ rest).
Proof. right. apply prefix_app. by exists rest. Qed.

Lemma medication_line_item (med : pyval) (l : string) :
  medication_line med = Ok l -> item_line l.
Proof.
  unfold medication_line. intros H. do 3 bind_inv H. inversion H. apply dash_item.
Qed.

Lemma symptom_line_item (symptom : pyval) (l : string) :
  symptom_line symptom = Ok l -> item_line l.
Proof.
  unfold symptom_line. intros H. do 2 bind_inv H. inversion H. apply dash_item.
Qed.

Lemma appointment_line_item (appt : pyval) (l : string) :
  appointment_line appt = Ok l -> item_line l.
Proof.
  unfold appointment_line. intros H. do 4 bind_inv H. inversion H. apply dash_item.
Qed.

Lemma critical_line_item (symptom : pyval) (l : string) :
  critical_line symptom = Ok l -> item_line l.
Proof.
  unfold critical_line. intros H. do 2 bind_inv H. inversion H.
  apply (indented_item ("- " +:+ _)).
Qed.

Lemma interaction_line_item (interaction : pyval) (l : string) :
  interaction_line interaction = Ok l -> item_line l.
Proof.
  unfold interaction_line. intros H. do 3 bind_inv H. inversion H.
  apply (indented_item ("   * " +:+ _)).
Qed.

(** A section written from a list: header, one line per item, empty line. *)
Lemma list_section_shape graph_data (key header : string)
    (line : pyval -> result string) sections sections' :
  (forall x l, line x = Ok l -> item_line l) ->
  (if has_truthy graph_data key then
     let sections := append sections header in
     let! sections := append_each sections (item graph_data key) line in
     Ok (append sections EmptyString)
   else Ok sections) = Ok sections' ->
  exists blk, sections' = (sections ++ blk)%list /\
    section_of header (holds_data graph_data key)
      (entries (entry_of graph_data key)) blk /\
    (holds_data graph_data key = true -> (1 <= entries (entry_of graph_data key))%nat).
Proof.
  intros Hline H. rewrite has_truthy_holds_data, item_entry_of in H.
  destruct (holds_data graph_data key) eqn:Ht.
  - cbv zeta in H. bind_inv H as Eeach. inversion H; subst. clear H.
    apply append_each_inv in Eeach as (items & lines & Hi & Hf & ->).
    destruct (for_each_Forall _ _ _ _ Hline Hf) as [HF Hlen].
    assert (Hv : py_truthy (entry_of graph_data key) = true).
    { unfold holds_data in Ht. unfold entry_of.
      by destruct (dict_lookup key graph_data). }
    pose proof (py_iter_truthy _ _ Hv Hi) as Hpos.
    apply py_iter_entries in Hi.
    exists (header :: lines ++ [EmptyString])%list. split; [| split].
    + unfold append. by rewrite <- !app_assoc.
    + exists lines. repeat split; [done | congruence].
    + intros _. lia.
  - inversion H. exists []. rewrite app_nil_r. by repeat split.
Qed.

Lemma medications_section_shape graph_data sections sections' :
  medications_section graph_data sections = Ok sections' ->
  exists blk, sections' = (sections ++ blk)%list /\
    section_of MEDICATIONS_HEADER (holds_data graph_data "medications")
      (entries (entry_of graph_data "medications")) blk /\
    (holds_data graph_data "medications" = true ->
     (1 <= entries (entry_of graph_data "medications"))%nat).
Proof. apply list_section_shape, medication_line_item. Qed.

Lemma symptoms_section_shape graph_data sections sections' :
  symptoms_section graph_data sections = Ok sections' ->
  exists blk, sections' = (sections ++ blk)%list /\
    section_of SYMPTOMS_HEADER (holds_data graph_data "symptoms")
      (entries (entry_of graph_data "symptoms")) blk /\
    (holds_data graph_data "symptoms" = true ->
     (1 <= entries (entry_of graph_data "symptoms"))%nat).
Proof. apply list_section_shape, symptom_line_item. Qed.

Lemma appointments_section_shape graph_data sections sections' :
  appointments_section graph_data sections = Ok sections' ->
  exists blk, sections' = (sections ++ blk)%list /\
    section_of APPOINTMENTS_HEADER (holds_data graph_data "appointments")
      (entries (entry_of graph_data "appointments")) blk /\
    (holds_data graph_data "appointments" = true ->
     (1 <= entries (entry_of graph_data "appointments"))%nat).
Proof. apply list_section_shape, appointment_line_item. Qed.

Lemma child_section_shape graph_data sections sections' :
  child_section graph_data sections = Ok sections' ->
  exists blk, sections' = (sections ++ blk)%list /\
    section_of CHILD_HEADER (dict_has "child" graph_data) (child_items graph_data) blk.
Proof.
  unfold child_section, child_items. intros H. rewrite item_entry_of in H.
  destruct (dict_has "child" graph_data).
  2: { inversion H. exists []. by rewrite app_nil_r. }
  cbv zeta in H. do 3 bind_inv H. bind_inv H as Ea. apply py_get_field in Ea as ->.
  bind_inv H as Eblk. inversion H; subst. clear H.
  destruct (py_truthy _).
  - bind_inv Eblk as Ej. inversion Eblk; subst.
    eexists (CHILD_HEADER :: [_; _; _; _] ++ [EmptyString])%list. split.
    + unfold append. rewrite <- !app_assoc. reflexivity.
    + eexists. split; [reflexivity |]. split; [| done].
      repeat constructor; apply dash_item.
  - inversion Eblk; subst.
    eexists (CHILD_HEADER :: [_; _; _] ++ [EmptyString])%list. split.
    + unfold append. rewrite <- !app_assoc. reflexivity.
    + eexists. split; [reflexivity |]. split; [| done].
      repeat constructor; apply dash_item.
Qed.

Lemma emergency_section_shape graph_data sections sections' :
  emergency_section graph_data sections = Ok sections' ->
  exists blk, sections' = (sections ++ blk)%list /\
    section_of EMERGENCY_HEADER (emergency_shown graph_data)
      (critical_items graph_data) blk.
Proof.
  unfold emergency_section, emergency_shown, critical_items. intros H.
  rewrite item_entry_of in H.
  destruct (dict_has "emergency_status" graph_data); cbn [andb].
  2: { inversion H. exists []. by rewrite app_nil_r. }
  cbv zeta in H. bind_inv H as Ef. apply py_get_field in Ef as ->.
  destruct (py_truthy _).
  2: { inversion H. exists []. by rewrite app_nil_r. }
  bind_inv H as Ec. apply py_get_field in Ec as ->.
  bind_inv H as Eeach. inversion H; subst. clear H.
  apply append_each_inv in Eeach as (items & lines & Hi & Hf & ->).
  destruct (for_each_Forall _ _ _ _ critical_line_item Hf) as [HF Hlen].
  apply py_iter_entries in Hi.
  exists (EMERGENCY_HEADER :: lines ++ [EmptyString])%list. split.
  - unfold append. by rewrite <- !app_assoc.
  - exists lines. repeat split; [done | congruence].
Qed.

Lemma safety_section_shape graph_data sections sections' :
  safety_section graph_data sections = Ok sections' ->
  exists blk, sections' = (sections ++ blk)%list /\
    section_of SAFETY_HEADER (alert_shown graph_data) (alert_items graph_data) blk.
Proof.
  unfold safety_section, alert_shown, alert_items. intros H.
  rewrite item_entry_of in H. cbv zeta in *.
  destruct (dict_has "medication_safety" graph_data); cbn [andb].
  2: { inversion H. exists []. by rewrite app_nil_r. }
  bind_inv H as Es. apply py_get_field in Es as ->.
  destruct (negb (py_truthy _)).
  2: { inversion H. exists []. by rewrite app_nil_r. }
  bind_inv H as Ea. apply py_get_field in Ea as ->.
  bind_inv H as Eallergy. bind_inv H as Ef. apply py_get_field in Ef as ->.
  bind_inv H as Efound. inversion H; subst. clear H.
  destruct (py_truthy (field _ "has_allergy" _)).
  - bind_inv Eallergy as El. inversion Eallergy; subst. clear Eallergy.
    destruct (py_truthy (field _ "interactions" _)).
    + apply append_each_inv in Efound as (items & lines & Hi & Hf & ->).
      destruct (for_each_Forall _ _ _ _ interaction_line_item Hf) as [HF Hlen].
      apply py_iter_entries in Hi.
      eexists (SAFETY_HEADER :: (_ :: _ :: lines) ++ [EmptyString])%list. split.
      * unfold append. rewrite <- !app_assoc. reflexivity.
      * eexists. split; [reflexivity |]. split; [| simpl; congruence].
        constructor; [apply (indented_item ("- ALLERGY RISK: " +:+ _)) |].
        constructor; [apply (indented_item "- DRUG INTERACTIONS:") | done].
    + inversion Efound; subst.
      eexists (SAFETY_HEADER :: [_] ++ [EmptyString])%list. split.
      * unfold append. rewrite <- !app_assoc. reflexivity.
      * eexists. split; [reflexivity |]. split; [| done].
        constructor; [apply (indented_item ("- ALLERGY RISK: " +:+ _)) | done].
  - inversion Eallergy; subst. clear Eallergy.
    destruct (py_truthy (field _ "interactions" _)).
    + apply append_each_inv in Efound as (items & lines & Hi & Hf & ->).
      destruct (for_each_Forall _ _ _ _ interaction_line_item Hf) as [HF Hlen].
      apply py_iter_entries in Hi.
      eexists (SAFETY_HEADER :: (_ :: lines) ++ [EmptyString])%list. split.
      * unfold append. rewrite <- !app_assoc. reflexivity.
      * eexists. split; [reflexivity |]. split; [| simpl; congruence].
        constructor; [apply (indented_item "- DRUG INTERACTIONS:") | done].
    + inversion Efound; subst.
      eexists (SAFETY_HEADER :: [] ++ [EmptyString])%list. split.
      * unfold append. rewrite <- !app_assoc. reflexivity.
      * eexists. split; [reflexivity |]. by split.
Qed.

End Layout.

(** ** The claim on the graph-data text *)

Section LayoutClaim.

(** C8, as stated, fails: an unsafe verdict without allergy and without
    interaction is rendered as the alert header alone, and an emergency
    status without critical symptom as the emergency header alone. *)
Lemma bare_alert_is_an_empty_header :
  (_format_graph_data (Some bare_alert) = Ok (SAFETY_HEADER +:+ nl) /\
   exists lines, graph_sections bare_alert = Ok lines /\ ~ no_empty_header lines) /\
  (_format_graph_data (Some bare_emergency) = Ok (EMERGENCY_HEADER +:+ nl) /\
   exists lines, graph_sections bare_emergency = Ok lines /\ ~ no_empty_header lines).
Proof.
  split.
  - split; [by vm_compute |].
    exists [SAFETY_HEADER; EmptyString]. split; [by vm_compute |].
    intros H. apply (H [] SAFETY_HEADER []); [done |].
    unfold HEADERS. repeat constructor.
  - split; [by vm_compute |].
    exists [EMERGENCY_HEADER; EmptyString]. split; [by vm_compute |].
    intros H. apply (H [] EMERGENCY_HEADER []); [done |].
    unfold HEADERS. repeat constructor.
Qed.

(** C8, amended. The text of a rendering is its six sections in the order
    child, medications, symptoms, emergency status, appointments, safety
    alert, joined by line feeds, or the sentence that there is no graph
    data when no section is shown.  A section that is not shown leaves no
    line; a section that is shown is its header, its item lines and the
    closing empty line.  The child section is shown when the key is there,
    with three items and a fourth for a non-empty list of allergies.  The
    medications, symptoms and appointments sections are shown when their
    key holds a non-empty value, with one item for each entry, so at least
    one.  The emergency section is shown when [is_emergency] is true, with
    one item for each critical symptom.  The safety alert is shown when
    [safe] is false, with the allergy line when [has_allergy] is true and,
    when [interactions] is not empty, the line that announces them and one
    line for each.  So the only headers that can stand alone are those of
    an emergency without critical symptom and of an alert without allergy
    and without interaction. *)
Theorem graph_data_layout (graph_data : pydict) (text : string) :
  _format_graph_data (Some graph_data) = Ok text ->
  exists child meds syms emergency appts alert : list string,
    text = match (child ++ meds ++ syms ++ emergency ++ appts ++ alert)%list with
           | [] => NO_GRAPH_DATA
           | lines => join nl lines
           end /\
    section_of CHILD_HEADER (dict_has "child" graph_data) (child_items graph_data)
      child /\
    section_of MEDICATIONS_HEADER (holds_data graph_data "medications")
      (entries (entry_of graph_data "medications")) meds /\
    section_of SYMPTOMS_HEADER (holds_data graph_data "symptoms")
      (entries (entry_of graph_data "symptoms")) syms /\
    section_of EMERGENCY_HEADER (emergency_shown graph_data)
      (critical_items graph_data) emergency /\
    section_of APPOINTMENTS_HEADER (holds_data graph_data "appointments")
      (entries (entry_of graph_data "appointments")) appts /\
    section_of SAFETY_HEADER (alert_shown graph_data) (alert_items graph_data) alert /\
    (forall key, key ∈ ["medications"; "symptoms"; "appointments"] ->
       holds_data graph_data key = true ->
       (1 <= entries (entry_of graph_data key))%nat) /\
    (emergency_shown graph_data = true -> critical_items graph_data = 0%nat ->
     emergency = [EMERGENCY_HEADER; EmptyString]) /\
    (alert_shown graph_data = true -> alert_items graph_data = 0%nat ->
     alert = [SAFETY_HEADER; EmptyString]).
Proof.
  intros H. destruct graph_data as [|kv rest].
  - inversion H. exists [], [], [], [], [], []. repeat split; done.
  - remember (kv :: rest) as gd eqn:Hgd.
    assert (Hs : exists lines, graph_sections gd = Ok lines /\
                   text = match lines with [] => NO_GRAPH_DATA | _ => join nl lines end).
    { subst gd. cbn [_format_graph_data] in H.
      destruct (graph_sections (kv :: rest)) as [lines|]; [|done].
      exists lines. split; [done |]. cbn [bind] in H. destruct lines; by inversion H. }
    clear H. destruct Hs as (lines & Hl & ->). unfold graph_sections in Hl.
    bind_inv_as Hl E1. bind_inv_as Hl E2. bind_inv_as Hl E3.
    bind_inv_as Hl E4. bind_inv_as Hl E5. bind_inv_as Hl E6.
    inversion Hl; subst lines. clear Hl.
    apply child_section_shape in E1 as (b1 & -> & H1).
    apply medications_section_shape in E2 as (b2 & -> & H2 & P2).
    apply symptoms_section_shape in E3 as (b3 & -> & H3 & P3).
    apply emergency_section_shape in E4 as (b4 & -> & H4).
    apply appointments_section_shape in E5 as (b5 & -> & H5 & P5).
    apply safety_section_shape in E6 as (b6 & -> & H6).
    exists b1, b2, b3, b4, b5, b6.
    split; [| split; [done |]; split; [done |]; split; [done |]; split; [done |];
              split; [done |]; split; [done |]; split; [| split]].
    + rewrite app_nil_l, <- !app_assoc.
      by destruct (b1 ++ b2 ++ b3 ++ b4 ++ b5 ++ b6)%list.
    + intros key Hk.
      repeat (apply elem_of_cons in Hk as [->|Hk]; [done |]).
      by apply elem_of_nil in Hk.
    + intros Hshown Hzero. rewrite Hshown, Hzero in H4.
      by apply section_of_header_alone.
    + intros Hshown Hzero. rewrite Hshown, Hzero in H6.
      by apply section_of_header_alone.
Qed.

Lemma graph_data_layout_witness :
  exists child meds syms emergency appts alert : list string,
    test_graph_text
    = match (child ++ meds ++ syms ++ emergency ++ appts ++ alert)%list with
      | [] => NO_GRAPH_DATA
      | lines => join nl lines
      end /\
    section_of CHILD_HEADER true 4 child /\
    section_of MEDICATIONS_HEADER true 1 meds /\
    section_of SYMPTOMS_HEADER false 0 syms /\
    section_of EMERGENCY_HEADER false 0 emergency /\
    section_of APPOINTMENTS_HEADER true 1 appts /\
    section_of SAFETY_HEADER false 0 alert.
Proof.
  destruct (graph_data_layout test_graph_data test_graph_text)
    as (child & meds & syms & emergency & appts & alert
        & Ht & H1 & H2 & H3 & H4 & H5 & H6 & _).
  { vm_compute. reflexivity. }
  exists child, meds, syms, emergency, appts, alert.
  split; [exact Ht |]. split; [exact H1 |]. split; [exact H2 |].
  split; [exact H3 |]. split; [exact H4 |]. split; [exact H5 | exact H6].
Defined.

End LayoutClaim.

(** ** The claim on the dataset loader *)

Section LoaderClaim.

(** C9. What the code does where the claim fails: both runs end without
    error; the second run leaves the medication, symptom, rule, condition
    and aftercare nodes and their relationships as they were, and adds a
    second copy of the sample dialogue. *)
Theorem second_run_duplicates_dialogues :
  snd (load_dataset small_dataset empty_graph) = None /\
  snd (load_dataset small_dataset loaded_once) = None /\
  medications loaded_twice = medications loaded_once /\
  symptoms loaded_twice = symptoms loaded_once /\
  symptom_rules loaded_twice = symptom_rules loaded_once /\
  conditions loaded_twice = conditions loaded_once /\
  aftercare_guides loaded_twice = aftercare_guides loaded_once /\
  may_cause loaded_twice = may_cause loaded_once /\
  length (sample_dialogues loaded_once) = 1%nat /\
  length (sample_dialogues loaded_twice) = 2%nat /\
  loaded_twice <> loaded_once.
Proof.
  assert (Hne : loaded_twice <> loaded_once).
  { intros H. apply (f_equal (fun g => length (sample_dialogues g))) in H.
    vm_compute in H. discriminate H. }
  do 10 (apply conj; [vm_compute; reflexivity |]). exact Hne.
Qed.

End LoaderClaim.

(** ** Re-running the loading loops *)

(** Writes that are keyed: two writes on one key leave what the second
    alone leaves, writes on two keys can be swapped.  A run of such writes
    changes nothing when it is made again. *)
Section Rerun.

Context {S A K : Type} (key : A -> K) (step : A -> S -> S).
Hypothesis absorb : forall a b s, key a = key b -> step b (step a s) = step b s.
Hypothesis commute :
  forall a b s, key a <> key b -> step b (step a s) = step a (step b s).
Hypothesis key_dec : forall x y : K, {x = y} + {x <> y}.

Lemma run_cons (rows : list A) (a : A) (s : S) :
  run step (a :: rows) s = run step rows (step a s).
Proof. done. Qed.

Lemma run_absorb (rows : list A) (a : A) (s : S) :
  (exists b, b ∈ rows /\ key b = key a) -> run step rows (step a s) = run step rows s.
Proof.
  revert s. induction rows as [|b rows IH]; intros s (x & Hx & Hk).
  - by apply elem_of_nil in Hx.
  - rewrite !run_cons. destruct (key_dec (key a) (key b)) as [Heq|Hne].
    + by rewrite absorb.
    + rewrite commute by done. apply IH.
      apply elem_of_cons in Hx as [->|Hx]; [congruence | by exists x].
Qed.

Lemma run_after (pre rows : list A) (s : S) :
  (forall a, a ∈ pre -> exists b, b ∈ rows /\ key b = key a) ->
  run step rows (run step pre s) = run step rows s.
Proof.
  revert s. induction pre as [|a pre IH]; intros s Hpre; [done |].
  rewrite run_cons, IH.
  - apply run_absorb, Hpre. by left.
  - intros x Hx. apply Hpre. by right.
Qed.

Lemma run_twice (rows : list A) (s : S) :
  run step rows (run step rows s) = run step rows s.
Proof. apply run_after. intros a Ha. by exists a. Qed.

End Rerun.

Section LoaderRerun.

Implicit Types (g : Graph) (m : gmap string props) (p : props).

Lemma set_node_props_alter (k : string) (kvs : list (string * pyval)) m :
  set_node_props k kvs m = alter (apply_props kvs) k m.
Proof.
  unfold set_node_props. revert m.
  induction kvs as [|kv kvs IH]; intros m; cbn [fold_left].
  - apply map_eq. intros j. rewrite lookup_alter.
    case_decide; subst; by destruct (m !! j).
  - rewrite IH. unfold set_node_prop. by rewrite alter_alter_eq.
Qed.

(** What a sequence of [SET]s leaves under one property name. *)
Lemma lookup_apply_props (kvs : list (string * pyval)) p (name : string) :
  apply_props kvs p !! name
  = match assigned name kvs with
    | Some PyNone => None
    | Some v => Some v
    | None => p !! name
    end.
Proof.
  unfold apply_props. revert p.
  induction kvs as [|[k v] kvs IH]; intros p; [done |].
  cbn [fold_left assigned fst snd]. rewrite IH.
  destruct (assigned name kvs) as [w|]; [done |].
  destruct (String.eqb_spec k name) as [->|Hne].
  - unfold set_prop. destruct v; by rewrite ?lookup_delete_eq, ?lookup_insert_eq.
  - unfold set_prop. destruct v; by rewrite ?lookup_delete_ne, ?lookup_insert_ne.
Qed.

Lemma assigned_names (kvs kvs' : list (string * pyval)) (name : string) :
  kvs.*1 = kvs'.*1 -> assigned name kvs = None -> assigned name kvs' = None.
Proof.
  revert kvs'. induction kvs as [|[k v] kvs IH]; intros [|[k' v'] kvs'] Hk;
    try done.
  injection Hk as -> Hk. cbn [assigned].
  destruct (assigned name kvs) eqn:E; [done |].
  rewrite (IH kvs' Hk eq_refl). by destruct (String.eqb k' name).
Qed.

(** Two sequences of [SET]s on the same property names: the second
    decides. *)
Lemma apply_props_absorb (kvs kvs' : list (string * pyval)) p :
  kvs.*1 = kvs'.*1 -> apply_props kvs' (apply_props kvs p) = apply_props kvs' p.
Proof.
  intros Hk. apply map_eq. intros name. rewrite !lookup_apply_props.
  destruct (assigned name kvs') eqn:E'; [done |].
  by rewrite (assigned_names kvs' kvs name (eq_sym Hk) E').
Qed.

(** The node of key [j] after [MERGE (n {key_prop: k}) SET ...]. *)
Lemma lookup_upsert (key_prop k j : string) (kvs : list (string * pyval)) m :
  upsert_node key_prop k kvs m !! j
  = if decide (k = j)
    then Some (apply_props kvs (default {[ key_prop := PyStr k ]} (m !! k)))
    else m !! j.
Proof.
  unfold upsert_node. rewrite set_node_props_alter, lookup_alter.
  unfold merge_node. case_decide as Hkj.
  - subst j. destruct (m !! k) as [p|] eqn:E.
    + by rewrite E.
    + by rewrite lookup_insert_eq.
  - destruct (m !! k) eqn:E; [done |]. by rewrite lookup_insert_ne.
Qed.

Lemma upsert_absorb (key_prop k : string) (kvs kvs' : list (string * pyval)) m :
  kvs.*1 = kvs'.*1 ->
  upsert_node key_prop k kvs' (upsert_node key_prop k kvs m)
  = upsert_node key_prop k kvs' m.
Proof.
  intros Hk. apply map_eq. intros j. rewrite !lookup_upsert.
  case_decide; [|done]. rewrite decide_True by done. simpl.
  by rewrite apply_props_absorb.
Qed.

Lemma upsert_commute (key_prop k k' : string) (kvs kvs' : list (string * pyval)) m :
  k <> k' ->
  upsert_node key_prop k' kvs' (upsert_node key_prop k kvs m)
  = upsert_node key_prop k kvs (upsert_node key_prop k' kvs' m).
Proof.
  intros Hne. apply map_eq. intros j. rewrite !lookup_upsert.
  rewrite (decide_False (P := k = k')) by done.
  rewrite (decide_False (P := k' = k)) by done.
  repeat case_decide; congruence.
Qed.

End LoaderRerun.

(** *** The three loops that write with [MERGE] *)

Section KeyedLoop.

Context {A : Type} (body : A -> Graph -> result Graph) (key : A -> option string).
Hypothesis raises : forall a g, key a = None -> body a g = Raise CypherError.
Hypothesis writes : forall a g, is_Some (key a) -> exists g', body a g = Ok g'.
Hypothesis absorb :
  forall a b g, key a = key b -> written body b (written body a g) = written body b g.
Hypothesis commute :
  forall a b g, key a <> key b ->
    written body b (written body a g) = written body a (written body b g).

Lemma load_rows_keys (rows : list A) (g g1 : Graph) :
  load_rows body rows g = (g1, None) -> Forall (fun a => is_Some (key a)) rows.
Proof.
  revert g. induction rows as [|a rows IH]; intros g H; [constructor |].
  cbn [load_rows] in H. destruct (key a) as [k|] eqn:Hk.
  - destruct (body a g) as [g'|e]; [|done].
    constructor; [rewrite Hk; by eexists | by eapply IH].
  - by rewrite raises in H.
Qed.

Lemma load_rows_written (rows : list A) (g : Graph) :
  Forall (fun a => is_Some (key a)) rows ->
  load_rows body rows g = (run (written body) rows g, None).
Proof.
  intros HF. revert g. induction HF as [|a rows Ha _ IH]; intros g; [done |].
  cbn [load_rows]. rewrite run_cons.
  destruct (writes a g Ha) as [g' Hg'].
  assert (Hw : written body a g = g') by (unfold written; by rewrite Hg').
  rewrite Hw, Hg'. apply IH.
Qed.

(** A loop of upserts that went through changes nothing when it is run
    again on the store it left. *)
Lemma load_rows_rerun (rows : list A) (g g1 : Graph) :
  load_rows body rows g = (g1, None) -> load_rows body rows g1 = (g1, None).
Proof.
  intros H. pose proof (load_rows_keys _ _ _ H) as HF.
  rewrite (load_rows_written _ g HF) in H. injection H as <-.
  rewrite (load_rows_written _ _ HF). f_equal.
  apply (run_twice key (written body) absorb commute).
  intros x y. apply (decide (x = y)).
Qed.

End KeyedLoop.

Ltac graph_fields :=
  cbv beta iota zeta delta
      [children medications symptoms takes has_symptom interacts_with appointments
       symptom_rules has_rule conditions aftercare_guides has_aftercare may_cause
       sample_dialogues check_ins
       set_medications set_symptoms set_symptom_rules set_has_rule set_conditions
       set_aftercare_guides set_has_aftercare].

Section MergeLoops.

Implicit Types (g : Graph) (m : gmap string props).

Lemma union_twice (k : string) (s : gset string) :
  {[ k ]} ∪ ({[ k ]} ∪ s) = {[ k ]} ∪ s.
Proof. by rewrite (assoc_L (∪)), (idemp_L (∪)). Qed.

Lemma union_swap (k k' : string) (s : gset string) :
  {[ k' ]} ∪ ({[ k ]} ∪ s) = {[ k ]} ∪ ({[ k' ]} ∪ s).
Proof. by rewrite !(assoc_L (∪)), (comm_L (∪) {[ k' ]}). Qed.

Lemma upsert_here (key_prop k : string) (kvs : list (string * pyval)) m :
  is_Some (upsert_node key_prop k kvs m !! k).
Proof. rewrite lookup_upsert, decide_True by done. by eexists. Qed.

Lemma written_medication_guide (a : MedicationGuide) (k : string) g :
  mg_drug a = Some k ->
  written load_medication_guide a g
  = set_medications (upsert_node "name" k (medication_guide_props a)) g.
Proof. intros H. unfold written, load_medication_guide. by rewrite H. Qed.

Lemma written_symptom_rule (r : SymptomRule) (k : string) g :
  sr_symptom r = Some k ->
  written load_symptom_rule r g
  = set_has_rule (fun s => {[ k ]} ∪ s)
      (set_symptom_rules (upsert_node "symptom_name" k (symptom_rule_props r))
         (set_symptoms (upsert_node "name" k [("source", PyStr "dataset")]) g)).
Proof.
  intros H. unfold written, load_symptom_rule. rewrite H. cbv zeta.
  destruct (upsert_here "name" k [("source", PyStr "dataset")] (symptoms g)) as [p Hp].
  cbn [symptoms set_symptoms]. by rewrite Hp.
Qed.

Lemma written_aftercare (a : AfterCare) (k : string) g :
  ac_condition a = Some k ->
  written load_aftercare a g
  = set_has_aftercare (fun s => {[ k ]} ∪ s)
      (set_aftercare_guides (upsert_node "condition" k (aftercare_props a))
         (set_conditions (upsert_node "name" k (condition_props a)) g)).
Proof.
  intros H. unfold written, load_aftercare. rewrite H. cbv zeta.
  destruct (upsert_here "name" k (condition_props a) (conditions g)) as [p Hp].
  cbn [conditions set_conditions]. by rewrite Hp.
Qed.

Lemma written_none {A} (body : A -> Graph -> result Graph) (a : A) g :
  body a g = Raise CypherError -> written body a g = g.
Proof. intros H. unfold written. by rewrite H. Qed.

(** X19. When the medication guide loop went through, running it again
    on the store it left goes through and changes nothing. *)
Lemma medication_guides_rerun (rows : list MedicationGuide) g g1 :
  load_rows load_medication_guide rows g = (g1, None) ->
  load_rows load_medication_guide rows g1 = (g1, None).
Proof.
  apply (load_rows_rerun load_medication_guide mg_drug).
  - intros a g0 H. unfold load_medication_guide. by rewrite H.
  - intros a g0 [k H]. unfold load_medication_guide. rewrite H. by eexists.
  - intros a b g0 H. destruct (mg_drug b) as [k|] eqn:Hb.
    + rewrite (written_medication_guide a k), (written_medication_guide b k),
        (written_medication_guide b k) by done.
      destruct g0. graph_fields. f_equal. by apply upsert_absorb.
    + unfold written, load_medication_guide. by rewrite H, Hb.
  - intros a b g0 H.
    destruct (mg_drug a) as [k|] eqn:Ha, (mg_drug b) as [k'|] eqn:Hb;
      try (unfold written, load_medication_guide; by rewrite ?Ha, ?Hb).
    rewrite (written_medication_guide a k), (written_medication_guide b k'),
      (written_medication_guide b k'), (written_medication_guide a k) by done.
    destruct g0. graph_fields. f_equal. apply upsert_commute. congruence.
Qed.

(** X20. When the symptom rule loop went through, running it again on
    the store it left goes through and changes nothing. *)
Lemma symptom_rules_rerun (rows : list SymptomRule) g g1 :
  load_rows load_symptom_rule rows g = (g1, None) ->
  load_rows load_symptom_rule rows g1 = (g1, None).
Proof.
  apply (load_rows_rerun load_symptom_rule sr_symptom).
  - intros a g0 H. unfold load_symptom_rule. by rewrite H.
  - intros a g0 [k H]. exists (written load_symptom_rule a g0).
    unfold written. unfold load_symptom_rule. rewrite H. cbv zeta.
    by destruct (symptoms _ !! k).
  - intros a b g0 H. destruct (sr_symptom b) as [k|] eqn:Hb.
    + rewrite (written_symptom_rule a k), (written_symptom_rule b k),
        (written_symptom_rule b k) by done.
      destruct g0. graph_fields. f_equal.
      * by apply upsert_absorb.
      * by apply upsert_absorb.
      * apply union_twice.
    + unfold written, load_symptom_rule. by rewrite H, Hb.
  - intros a b g0 H.
    destruct (sr_symptom a) as [k|] eqn:Ha, (sr_symptom b) as [k'|] eqn:Hb;
      try (unfold written, load_symptom_rule; by rewrite ?Ha, ?Hb).
    rewrite (written_symptom_rule a k), (written_symptom_rule b k'),
      (written_symptom_rule b k'), (written_symptom_rule a k) by done.
    destruct g0. graph_fields. f_equal.
    * apply upsert_commute. congruence.
    * apply upsert_commute. congruence.
    * apply union_swap.
Qed.

(** X21. When the aftercare loop went through, running it again on the
    store it left goes through and changes nothing. *)
Lemma aftercare_rerun (rows : list AfterCare) g g1 :
  load_rows load_aftercare rows g = (g1, None) ->
  load_rows load_aftercare rows g1 = (g1, None).
Proof.
  apply (load_rows_rerun load_aftercare ac_condition).
  - intros a g0 H. unfold load_aftercare. by rewrite H.
  - intros a g0 [k H]. exists (written load_aftercare a g0).
    unfold written. unfold load_aftercare. rewrite H. cbv zeta.
    by destruct (conditions _ !! k).
  - intros a b g0 H. destruct (ac_condition b) as [k|] eqn:Hb.
    + rewrite (written_aftercare a k), (written_aftercare b k),
        (written_aftercare b k) by done.
      destruct g0. graph_fields. f_equal.
      * by apply upsert_absorb.
      * by apply upsert_absorb.
      * apply union_twice.
    + unfold written, load_aftercare. by rewrite H, Hb.
  - intros a b g0 H.
    destruct (ac_condition a) as [k|] eqn:Ha, (ac_condition b) as [k'|] eqn:Hb;
      try (unfold written, load_aftercare; by rewrite ?Ha, ?Hb).
    rewrite (written_aftercare a k), (written_aftercare b k'),
      (written_aftercare b k'), (written_aftercare a k) by done.
    destruct g0. graph_fields. f_equal.
    * apply upsert_commute. congruence.
    * apply upsert_commute. congruence.
    * apply union_swap.
Qed.

(** The dialogue loop never raises and adds one node per line, whatever
    the store holds: every run adds the file's dialogues once more. *)
Lemma dialogues_appended (rows : list Dialogue) g :
  exists g', load_rows load_dialogue rows g = (g', None) /\
    length (sample_dialogues g') = (length (sample_dialogues g) + length rows)%nat.
Proof.
  revert g. induction rows as [|d rows IH]; intros g.
  - exists g. split; [done | simpl; lia].
  - cbn [load_rows load_dialogue].
    edestruct IH as (g' & Hg' & Hlen). exists g'. split; [exact Hg' |].
    rewrite Hlen. cbv beta iota delta [sample_dialogues set_sample_dialogues].
    rewrite length_app. simpl. lia.
Qed.

End MergeLoops.

(** *** The whole script, run twice *)

Section ScriptRerun.

Implicit Types (g : Graph).

Lemma and_then_ok (r : Graph * option exn) (next : Graph -> Graph * option exn) g1 :
  and_then r next = (g1, None) -> exists g', r = (g', None) /\ next g' = (g1, None).
Proof. destruct r as [g' [e|]]; simpl; [done |]. intros H. by exists g'. Qed.

Lemma load_rows_frame {A B} (body : A -> Graph -> result Graph) (proj : Graph -> B)
    (rows : list A) g g' (e : option exn) :
  (forall a g0 g0', body a g0 = Ok g0' -> proj g0' = proj g0) ->
  load_rows body rows g = (g', e) -> proj g' = proj g.
Proof.
  intros Hbody. revert g. induction rows as [|a rows IH]; intros g H.
  - by inversion H.
  - cbn [load_rows] in H. destruct (body a g) as [g0|x] eqn:Hb.
    + rewrite (IH _ H). by eapply Hbody.
    + by inversion H.
Qed.

(** A loop of upserts that went through once goes through on any store,
    and leaves the sample dialogues alone. *)
Lemma load_file_again {A} (body : A -> Graph -> result Graph) (key : A -> option string)
    (file : option (list A)) g g1 g0 :
  (forall a g, key a = None -> body a g = Raise CypherError) ->
  (forall a g, is_Some (key a) -> exists g', body a g = Ok g') ->
  (forall a g0 g0', body a g0 = Ok g0' -> sample_dialogues g0' = sample_dialogues g0) ->
  load_file body file g = (g1, None) ->
  exists g0', load_file body file g0 = (g0', None) /\
              sample_dialogues g0' = sample_dialogues g0.
Proof.
  intros Hraise Hwrite Hframe H. destruct file as [rows|]; simpl in *.
  - pose proof (load_rows_keys body key Hraise _ _ _ H) as HF.
    pose proof (load_rows_written body key Hwrite _ g0 HF) as Hw.
    eexists. split; [exact Hw |].
    exact (load_rows_frame body sample_dialogues rows g0 _ None Hframe Hw).
  - by exists g0.
Qed.

Lemma medication_guide_frame (a : MedicationGuide) g0 g0' :
  load_medication_guide a g0 = Ok g0' -> sample_dialogues g0' = sample_dialogues g0.
Proof.
  unfold load_medication_guide. destruct (mg_drug a); [|done].
  intros H. inversion H. by destruct g0.
Qed.

Lemma symptom_rule_frame (a : SymptomRule) g0 g0' :
  load_symptom_rule a g0 = Ok g0' -> sample_dialogues g0' = sample_dialogues g0.
Proof.
  unfold load_symptom_rule. destruct (sr_symptom a); [|done]. cbv zeta.
  destruct (symptoms _ !! _); intros H; inversion H; by destruct g0.
Qed.

Lemma aftercare_frame (a : AfterCare) g0 g0' :
  load_aftercare a g0 = Ok g0' -> sample_dialogues g0' = sample_dialogues g0.
Proof.
  unfold load_aftercare. destruct (ac_condition a); [|done]. cbv zeta.
  destruct (conditions _ !! _); intros H; inversion H; by destruct g0.
Qed.

Lemma checkins_frame (file : option (list CheckInRow)) g :
  exists g', load_file load_checkin file g = (g', None) /\
             sample_dialogues g' = sample_dialogues g.
Proof.
  destruct file as [rows|]; simpl; [|by exists g].
  revert g. induction rows as [|r rows IH]; intros g; [by exists g |].
  cbn [load_rows load_checkin]. edestruct IH as (g' & Hg' & Hs).
  exists g'. split; [exact Hg' |]. rewrite Hs. by destruct g.
Qed.

Lemma link_symptom_frame (symptom : string) (words : list string) g :
  sample_dialogues (link_symptom symptom words g) = sample_dialogues g.
Proof. unfold link_symptom. destruct (symptoms g !! symptom); by destruct g. Qed.

Lemma create_relationships_frame g :
  sample_dialogues (create_relationships g) = sample_dialogues g.
Proof. unfold create_relationships. by rewrite !link_symptom_frame. Qed.

(** X22. Whatever the folder holds, when a run of the script went through, a
    second run on the store it left goes through as well and adds every
    line of the dialogue file once more: with a dialogue file that is not
    empty the store is not what the first run left. *)
Lemma load_dataset_again (ds : Dataset) (rows : list Dialogue) g g1 :
  dialogues ds = Some rows ->
  load_dataset ds g = (g1, None) ->
  exists g2, load_dataset ds g1 = (g2, None) /\
    length (sample_dialogues g2)
    = (length (sample_dialogues g1) + length rows)%nat /\
    (rows <> [] -> g2 <> g1).
Proof.
  intros Hd H. unfold load_dataset in *.
  apply and_then_ok in H as (ga & Ha & H).
  apply and_then_ok in H as (gb & Hb & H).
  apply and_then_ok in H as (gc & Hc & H).
  clear H.
  destruct (load_file_again load_medication_guide mg_drug _ _ _ g1
              ltac:(intros a g0 E; unfold load_medication_guide; by rewrite E)
              ltac:(intros a g0 [k E]; unfold load_medication_guide; rewrite E; by eexists)
              medication_guide_frame Ha) as (ga' & -> & Fa).
  destruct (load_file_again load_symptom_rule sr_symptom _ _ _ ga'
              ltac:(intros a g0 E; unfold load_symptom_rule; by rewrite E)
              ltac:(intros a g0 [k E]; unfold load_symptom_rule; rewrite E; cbv zeta;
                    destruct (symptoms _ !! k); by eexists)
              symptom_rule_frame Hb) as (gb' & Hb' & Fb).
  destruct (load_file_again load_aftercare ac_condition _ _ _ gb'
              ltac:(intros a g0 E; unfold load_aftercare; by rewrite E)
              ltac:(intros a g0 [k E]; unfold load_aftercare; rewrite E; cbv zeta;
                    destruct (conditions _ !! k); by eexists)
              aftercare_frame Hc) as (gc' & Hc' & Fc).
  destruct (dialogues_appended rows gc') as (gd' & Hd' & Fd).
  destruct (checkins_frame (synthetic_checkins ds) gd') as (ge' & He' & Fe).
  exists (create_relationships ge').
  assert (Hlen : length (sample_dialogues (create_relationships ge'))
                 = (length (sample_dialogues g1) + length rows)%nat).
  { rewrite create_relationships_frame, Fe, Fd. congruence. }
  split; [| split; [exact Hlen |]].
  - cbn [and_then]. rewrite Hb'. cbn [and_then]. rewrite Hc'. cbn [and_then].
    rewrite Hd. cbn [load_file]. rewrite Hd'. cbn [and_then]. by rewrite He'.
  - intros Hne Heq. rewrite Heq in Hlen. destruct rows; [done |]. simpl in Hlen. lia.
Qed.

End ScriptRerun.

(** * Further properties of the code *)

(** ** neo4j_client.py: symptoms and emergencies *)

Section Emergencies.

Implicit Types (g : Graph) (child_id : string) (now : Z).

Lemma is_emergency_filter g now child_id :
  is_Some (children g !! child_id) ->
  is_emergency (check_emergency_status g now child_id)
  = Nat.ltb 0 (length (filter (fun h => h_severity h >= 8)
                         (filter (in_window now child_id) (has_symptom g)))).
Proof.
  intros [c Hc]. unfold check_emergency_status, emergency_query. rewrite Hc.
  destruct (filter (in_window now child_id) (has_symptom g)) as [|h hs] eqn:E; [done |].
  cbn [single head is_emergency]. by rewrite critical_of_entries, length_fmap.
Qed.

Lemma log_symptom_state g now child_id (symptom_name : string) (sev : Z)
    (notes : string) (c : Child) :
  children g !! child_id = Some c ->
  children (fst (log_symptom g now child_id symptom_name sev notes)) = children g /\
  has_symptom (fst (log_symptom g now child_id symptom_name sev notes))
  = (has_symptom g ++ [mkHasSymptom child_id symptom_name now sev notes])%list.
Proof. intros Hc. unfold log_symptom. by rewrite Hc. Qed.

(** X1. A symptom is listed as critical exactly when it is listed as
    recent with severity 8 or more. *)
Theorem critical_are_the_severe g now child_id (sx : SymptomEntry) :
  sx ∈ critical_symptoms (check_emergency_status g now child_id) <->
  sx ∈ recent_symptoms (check_emergency_status g now child_id) /\ sx_severity sx >= 8.
Proof.
  unfold check_emergency_status, emergency_query.
  destruct (children g !! child_id) as [c|]; simpl.
  2: { split; [intros H | intros [H _]]; by apply elem_of_nil in H. }
  destruct (filter (in_window now child_id) (has_symptom g)) as [|h hs]; simpl.
  { split; [intros H | intros [H _]]; by apply elem_of_nil in H. }
  rewrite list_elem_of_filter. tauto.
Qed.

(** X2. When every report of the child is 24 hours old or older, the
    status is no emergency with two empty lists. *)
Theorem emergency_expires g now child_id :
  (forall h, h ∈ has_symptom g -> h_child h = child_id ->
     h_reported_date h + PT24H <= now) ->
  check_emergency_status g now child_id = mkEmergencyStatus false [] [].
Proof.
  intros Hold. unfold check_emergency_status, emergency_query.
  destruct (children g !! child_id) as [c|]; [|done].
  destruct (filter (in_window now child_id) (has_symptom g)) as [|h hs] eqn:E; [done |].
  assert (Hh : h ∈ filter (in_window now child_id) (has_symptom g))
    by (rewrite E; by left).
  apply list_elem_of_filter in Hh as [[Hc Ht] Hh].
  specialize (Hold h Hh Hc). lia.
Qed.

Lemma emergency_expires_witness :
  check_emergency_status breathing_graph two_days_later "emma"
  = mkEmergencyStatus false [] [].
Proof.
  apply emergency_expires. intros h Hh _. vm_compute in Hh.
  apply list_elem_of_singleton in Hh. subst h. vm_compute. discriminate.
Defined.

(** X3. After a symptom is logged for a child of the store, the child is
    in emergency exactly when she was before or the new report is in the
    window with severity 8 or more. *)
Theorem log_symptom_emergency g (t : Z) now child_id (symptom_name : string)
    (sev : Z) (notes : string) :
  is_Some (children g !! child_id) ->
  is_emergency
    (check_emergency_status (fst (log_symptom g t child_id symptom_name sev notes))
       now child_id)
  = is_emergency (check_emergency_status g now child_id)
    || bool_decide (t > now - PT24H /\ sev >= 8).
Proof.
  intros [c Hc]. destruct (log_symptom_state g t child_id symptom_name sev notes c Hc)
    as [Hch Hhs].
  rewrite !is_emergency_filter by (rewrite ?Hch, Hc; by eexists).
  rewrite Hhs, !filter_app, length_app.
  set (old := length _). rewrite !filter_cons, !filter_nil. unfold in_window. simpl.
  destruct (decide (child_id = child_id /\ t > now - PT24H)) as [[_ Ht]|Hn].
  - rewrite filter_cons, filter_nil. simpl.
    destruct (decide (sev >= 8)) as [Hs|Hs]; simpl.
    + rewrite bool_decide_eq_true_2 by done.
      rewrite orb_true_r. apply Nat.ltb_lt. lia.
    + rewrite bool_decide_eq_false_2 by tauto.
      rewrite orb_false_r. by rewrite Nat.add_0_r.
  - rewrite filter_nil. simpl. rewrite bool_decide_eq_false_2 by tauto.
    rewrite orb_false_r. by rewrite Nat.add_0_r.
Qed.

Lemma log_symptom_emergency_witness :
  is_emergency
    (check_emergency_status
       (fst (log_symptom emma_graph (noon - 1) "emma" "fever_c" 7 EmptyString))
       noon "emma")
  = is_emergency (check_emergency_status emma_graph noon "emma")
    || bool_decide (noon - 1 > noon - PT24H /\ 7 >= 8).
Proof.
  apply log_symptom_emergency. vm_compute. eexists. reflexivity.
Defined.

(** X4. A symptom logged for one child leaves the emergency status of
    every other child as it was. *)
Theorem log_symptom_other_child g (t : Z) now child_id (other symptom_name : string)
    (sev : Z) (notes : string) :
  child_id <> other ->
  check_emergency_status (fst (log_symptom g t other symptom_name sev notes))
    now child_id
  = check_emergency_status g now child_id.
Proof.
  intros Hne. unfold log_symptom.
  destruct (children g !! other) as [c|] eqn:Hc; [|done].
  unfold check_emergency_status, emergency_query. simpl.
  rewrite filter_app, filter_cons, filter_nil.
  destruct (decide (in_window now child_id _)) as [[Hch _]|_].
  - simpl in Hch. congruence.
  - by rewrite app_nil_r.
Qed.

Lemma log_symptom_other_child_witness :
  check_emergency_status
    (fst (log_symptom breathing_graph noon "noah" "cough" 9 EmptyString)) noon "emma"
  = check_emergency_status breathing_graph noon "emma".
Proof. apply log_symptom_other_child. discriminate. Defined.

(** For a child that is not in the store, [log_symptom],
    [add_medication] and [create_appointment] raise [TypeError] and write
    nothing. *)
Lemma unknown_child_write_raises g (now : Z) (now_iso : string) child_id
    (symptom_name notes medication_name dosage frequency : string)
    (start_date : option string) (sev : Z)
    (appointment_type date time doctor location : string) :
  children g !! child_id = None ->
  log_symptom g now child_id symptom_name sev notes = (g, Raise TypeError) /\
  add_medication g now_iso child_id medication_name dosage frequency start_date
  = (g, Raise TypeError) /\
  create_appointment g now child_id appointment_type date time doctor location notes
  = (g, Raise TypeError).
Proof.
  intros Hc. unfold log_symptom, add_medication, create_appointment. by rewrite Hc.
Qed.

Lemma unknown_child_write_raises_witness :
  log_symptom empty_graph noon "emma" "fever_c" 7 EmptyString
  = (empty_graph, Raise TypeError).
Proof.
  refine (proj1 (unknown_child_write_raises empty_graph noon EmptyString "emma"
                   "fever_c" EmptyString EmptyString EmptyString EmptyString None 7
                   EmptyString EmptyString EmptyString EmptyString EmptyString _)).
  reflexivity.
Defined.

End Emergencies.

(** ** neo4j_client.py: profiles and medications *)

Section Profiles.

Implicit Types (g : Graph) (child_id medication_name : string).

(** X5. A profile that was written is the profile that is read, and the
    write leaves the profiles of the other children as they were. *)
Theorem create_then_get_child g (now : Z) child_id (name : string) (age : Z)
    (weight_kg : string) (allergies : option (list string)) :
  let g' := fst (create_or_update_child g now child_id name age weight_kg allergies) in
  get_child_profile g' child_id
  = Some (mkChild name age weight_kg (default [] allergies) now) /\
  forall other, other <> child_id -> get_child_profile g' other = get_child_profile g other.
Proof.
  cbv zeta. unfold get_child_profile, create_or_update_child. simpl. split.
  - by rewrite lookup_insert_eq.
  - intros other Hne. by rewrite lookup_insert_ne.
Qed.

(** X6. Updating the profile of a child of the store keeps her symptom
    reports, her medications and the interactions found for her. *)
Theorem update_child_keeps_records g (t now : Z) child_id (name : string) (age : Z)
    (weight_kg : string) (allergies : option (list string)) medication_name :
  is_Some (children g !! child_id) ->
  let g' := fst (create_or_update_child g t child_id name age weight_kg allergies) in
  check_emergency_status g' now child_id = check_emergency_status g now child_id /\
  get_active_medications g' child_id = get_active_medications g child_id /\
  interactions (check_medication_safety g' child_id medication_name)
  = interactions (check_medication_safety g child_id medication_name).
Proof.
  intros [c Hc]. cbv zeta.
  unfold check_emergency_status, emergency_query, get_active_medications,
    check_medication_safety, interaction_query, create_or_update_child. simpl.
  by rewrite lookup_insert_eq, Hc.
Qed.

Lemma update_child_keeps_records_witness :
  check_emergency_status
    (fst (create_or_update_child breathing_graph noon "emma" "Emma" 6 "20.0" None))
    noon "emma"
  = check_emergency_status breathing_graph noon "emma".
Proof.
  refine (proj1 (update_child_keeps_records breathing_graph noon noon "emma" "Emma" 6
                   "20.0" None "Ibuprofen" _)).
  vm_compute. eexists. reflexivity.
Defined.

Lemma merge_rel_twice {A} `{EqDecision A} (r : A) (rs : list A) :
  merge_rel r (merge_rel r rs) = merge_rel r rs.
Proof.
  unfold merge_rel at 1. rewrite decide_True; [done |].
  apply elem_of_merge_rel. by left.
Qed.

Lemma add_medication_graph g (now_iso : string) child_id medication_name
    (dosage frequency : string) (start_date : option string) (c : Child) :
  children g !! child_id = Some c ->
  fst (add_medication g now_iso child_id medication_name dosage frequency start_date)
  = set_takes
      (merge_rel (mkTakes child_id medication_name (str_or start_date now_iso)
                    dosage true))
      (set_medications
         (upsert_node "name" medication_name
            [("dosage", PyStr dosage); ("frequency", PyStr frequency)]) g).
Proof. intros Hc. unfold add_medication. by rewrite Hc. Qed.

(** X7. Adding again the medication that was just added, with the same
    dosage, frequency and explicit start date, changes nothing, whatever
    the clock says. *)
Theorem add_medication_again g (now1 now2 : string) child_id medication_name
    (dosage frequency start : string) :
  start <> EmptyString ->
  let g1 := fst (add_medication g now1 child_id medication_name dosage frequency
                   (Some start)) in
  fst (add_medication g1 now2 child_id medication_name dosage frequency (Some start))
  = g1.
Proof.
  intros Hs. cbv zeta. destruct (children g !! child_id) as [c|] eqn:Hc.
  - rewrite (add_medication_graph g _ _ _ _ _ _ c Hc).
    rewrite (add_medication_graph _ _ _ _ _ _ _ c)
      by (by destruct g as [ch me sy ta hs iw ap sr hr co ag ha mc sd ci]).
    destruct start as [|x start]; [done |]. cbn [str_or].
    destruct g as [ch me sy ta hs iw ap sr hr co ag ha mc sd ci].
    cbv beta iota delta [set_takes set_medications children medications
      symptoms takes has_symptom interacts_with appointments symptom_rules has_rule
      conditions aftercare_guides has_aftercare may_cause sample_dialogues check_ins].
    f_equal.
    + by apply upsert_absorb.
    + apply merge_rel_twice.
  - unfold add_medication. rewrite Hc. simpl. by rewrite Hc.
Qed.

Lemma add_medication_again_witness :
  fst (add_medication
         (fst (add_medication emma_graph "2025-01-01T08:00:00" "emma" "Ibuprofen"
                 "100mg" "as needed" (Some "2025-01-01")))
         "2025-03-01T09:30:00" "emma" "Ibuprofen" "100mg" "as needed"
         (Some "2025-01-01"))
  = fst (add_medication emma_graph "2025-01-01T08:00:00" "emma" "Ibuprofen"
           "100mg" "as needed" (Some "2025-01-01")).
Proof. apply add_medication_again. discriminate. Defined.

Global Instance start_date_desc_total : Total start_date_desc.
Proof.
  intros a b. unfold start_date_desc.
  destruct (String.leb_total (t_start_date b) (t_start_date a)) as [H|H];
    [left | right]; by rewrite H.
Qed.

Lemma elem_of_active_medications g child_id (row : ActiveMedication) :
  is_Some (children g !! child_id) ->
  row ∈ get_active_medications g child_id <->
  exists t, t ∈ takes g /\ t_child t = child_id /\ t_active t = true /\
            row = active_row t.
Proof.
  intros [c Hc]. unfold get_active_medications. rewrite Hc.
  rewrite list_elem_of_fmap. split.
  - intros (t & -> & Ht). rewrite merge_sort_Permutation in Ht.
    apply list_elem_of_filter in Ht as [[? ?] ?]. by exists t.
  - intros (t & Ht & ? & ? & ->). exists t. split; [done |].
    rewrite merge_sort_Permutation. by apply list_elem_of_filter.
Qed.



(** X9. A medication added for a child of the store is among her active
    medications, with its dosage and start date. *)
Theorem added_medication_is_active g (now_iso : string) child_id medication_name
    (dosage frequency : string) (start_date : option string) :
  is_Some (children g !! child_id) ->
  mkActiveMedication medication_name dosage None (str_or start_date now_iso)
  ∈ get_active_medications
      (fst (add_medication g now_iso child_id medication_name dosage frequency
              start_date)) child_id.
Proof.
  intros [c Hc]. rewrite (add_medication_graph g _ _ _ _ _ _ c Hc).
  apply elem_of_active_medications;
    [destruct g as [ch me sy ta hs iw ap sr hr co ag ha mc sd ci]; simpl in *; by eexists |].
  exists (mkTakes child_id medication_name (str_or start_date now_iso) dosage true).
  repeat split. destruct g as [ch me sy ta hs iw ap sr hr co ag ha mc sd ci].
  simpl. apply elem_of_merge_rel. by left.
Qed.

Lemma added_medication_is_active_witness :
  mkActiveMedication "Ibuprofen" "100mg" None "2025-01-01T08:00:00"
  ∈ get_active_medications
      (fst (add_medication emma_graph "2025-01-01T08:00:00" "emma" "Ibuprofen"
              "100mg" "as needed" None)) "emma".
Proof.
  apply (added_medication_is_active emma_graph "2025-01-01T08:00:00" "emma"
           "Ibuprofen" "100mg" "as needed" None).
  vm_compute. eexists. reflexivity.
Defined.

End Profiles.

(** ** neo4j_client.py: the safety check *)

Section Safety.

Implicit Types (g : Graph) (child_id medication_name : string).

Lemma lower_ascii_twice (c : ascii) : lower_ascii (lower_ascii c) = lower_ascii c.
Proof. destruct c as [[] [] [] [] [] [] [] []]; reflexivity. Qed.

Lemma toLower_twice (s : string) : toLower (toLower s) = toLower s.
Proof.
  induction s as [|c s IH]; [done |]. cbn [toLower]. by rewrite lower_ascii_twice, IH.
Qed.

Lemma contains_empty (s : string) : contains s EmptyString = true.
Proof. by destruct s. Qed.

Lemma no_interaction_rows g child_id medication_name :
  (forall row, row ∉ interaction_query g child_id medication_name) ->
  interaction_query g child_id medication_name = [].
Proof. apply elem_of_nil_inv. Qed.

Lemma interaction_makes_unsafe g child_id medication_name (row : InteractionRow) :
  row ∈ interactions (check_medication_safety g child_id medication_name) ->
  safe (check_medication_safety g child_id medication_name) = false.
Proof.
  unfold check_medication_safety. simpl.
  destruct (interaction_query g child_id medication_name); simpl.
  - intros H. by apply elem_of_nil in H.
  - intros _. apply andb_false_r.
Qed.

(** X10. Records that are absent count as empty: for a child that is not
    in the store the verdict is safe, without allergy and without
    interaction; for a candidate that is no Medication node there is no
    interaction and the verdict is safe exactly when no allergy matches. *)
Theorem absent_records_are_empty g child_id medication_name :
  (children g !! child_id = None ->
   check_medication_safety g child_id medication_name
   = mkSafetyVerdict true false [] []) /\
  (medications g !! medication_name = None ->
   interactions (check_medication_safety g child_id medication_name) = [] /\
   safe (check_medication_safety g child_id medication_name)
   = negb (has_allergy (check_medication_safety g child_id medication_name))).
Proof.
  split.
  - intros Hc. unfold check_medication_safety, allergy_query, interaction_query.
    by rewrite Hc.
  - intros Hm.
    assert (Hq : interaction_query g child_id medication_name = []).
    { apply no_interaction_rows. intros row Hrow.
      apply elem_of_interaction_query in Hrow as (_ & [m Hm'] & _). congruence. }
    unfold check_medication_safety. simpl. rewrite Hq. simpl.
    split; [done | apply andb_true_r].
Qed.

Lemma absent_records_are_empty_witness :
  check_medication_safety empty_graph "emma" "Ibuprofen"
  = mkSafetyVerdict true false [] [].
Proof.
  refine (proj1 (absent_records_are_empty empty_graph "emma" "Ibuprofen") _).
  reflexivity.
Defined.

(** X11. An empty allergy string matches every candidate: a child with
    such an entry is flagged for every medication, and none is safe. *)
Theorem empty_allergy_flags_everything g child_id medication_name (c : Child) :
  children g !! child_id = Some c ->
  EmptyString ∈ child_allergies c ->
  has_allergy (check_medication_safety g child_id medication_name) = true /\
  safe (check_medication_safety g child_id medication_name) = false.
Proof.
  intros Hc He.
  assert (Hflag : has_allergy (check_medication_safety g child_id medication_name)
                  = true).
  { rewrite (has_allergy_existsb _ _ _ _ Hc). apply existsb_exists.
    exists EmptyString. split; [by apply list_elem_of_In | apply contains_empty]. }
  split; [done |]. unfold check_medication_safety in *. simpl in *. by rewrite Hflag.
Qed.

Lemma empty_allergy_flags_everything_witness :
  has_allergy
    (check_medication_safety
       (fst (create_or_update_child empty_graph 0 "noah" "Noah" 3 "14.0"
               (Some [EmptyString]))) "noah" "Paracetamol") = true /\
  safe
    (check_medication_safety
       (fst (create_or_update_child empty_graph 0 "noah" "Noah" 3 "14.0"
               (Some [EmptyString]))) "noah" "Paracetamol") = false.
Proof.
  apply (empty_allergy_flags_everything _ "noah" "Paracetamol"
           (mkChild "Noah" 3 "14.0" [EmptyString] 0)).
  - vm_compute. reflexivity.
  - by left.
Defined.

(** The allergy check does not look at the case of the candidate
    name: the lowercased name gets the same flag and the same list. *)
Lemma allergy_check_ignores_case g child_id medication_name :
  has_allergy (check_medication_safety g child_id (toLower medication_name))
  = has_allergy (check_medication_safety g child_id medication_name) /\
  allergies (check_medication_safety g child_id (toLower medication_name))
  = allergies (check_medication_safety g child_id medication_name).
Proof.
  unfold check_medication_safety, allergy_query. simpl.
  by rewrite toLower_twice.
Qed.

Lemma merge_node_present (key_prop k : string) (m : gmap string props) :
  is_Some (m !! k) -> merge_node key_prop k m = m.
Proof. intros [p Hp]. unfold merge_node. by rewrite Hp. Qed.

Lemma merge_rel_present {A} `{EqDecision A} (r : A) (rs : list A) :
  r ∈ rs -> merge_rel r rs = rs.
Proof. intros H. unfold merge_rel. by rewrite decide_True. Qed.

Lemma merge_interaction_present g x : present x g -> merge_interaction g x = g.
Proof.
  destruct x as [[[m1 m2] sev] desc]. unfold present. intros (H1 & H2 & Hr).
  destruct g as [ch me sy ta hs iw ap sr hr co ag ha mc sd ci]. simpl in *.
  unfold set_interacts_with, set_medications. simpl.
  by rewrite (merge_node_present _ m1), (merge_node_present _ m2), merge_rel_present.
Qed.

Lemma merge_interaction_makes_present g x : present x (merge_interaction g x).
Proof.
  destruct x as [[[m1 m2] sev] desc]. unfold present. simpl. repeat split.
  - apply merge_node_mono, merge_node_here.
  - apply merge_node_here.
  - apply elem_of_merge_rel. by left.
Qed.

Lemma merge_interaction_keeps_present g x y :
  present x g -> present x (merge_interaction g y).
Proof.
  destruct x as [[[m1 m2] sev] desc], y as [[[n1 n2] sev'] desc'].
  unfold present. intros (H1 & H2 & Hr). simpl. repeat split.
  - by do 2 apply merge_node_mono.
  - by do 2 apply merge_node_mono.
  - apply elem_of_merge_rel. by right.
Qed.

Lemma fold_merge_present (l : list (string * string * string * string)) g x :
  present x g \/ x ∈ l -> present x (fold_left merge_interaction l g).
Proof.
  revert g. induction l as [|y l IH]; intros g [H|H]; simpl.
  - done.
  - by apply elem_of_nil in H.
  - apply IH. left. by apply merge_interaction_keeps_present.
  - apply IH. apply elem_of_cons in H as [->|H]; [left | by right].
    apply merge_interaction_makes_present.
Qed.

Lemma fold_merge_id (l : list (string * string * string * string)) g :
  (forall x, x ∈ l -> present x g) -> fold_left merge_interaction l g = g.
Proof.
  revert g. induction l as [|y l IH]; intros g H; simpl; [done |].
  rewrite merge_interaction_present by (apply H; by left).
  apply IH. intros x Hx. apply H. by right.
Qed.

(** X12. Initialising the knowledge graph a second time changes
    nothing. *)
Theorem initialize_knowledge_graph_twice g :
  initialize_knowledge_graph (initialize_knowledge_graph g)
  = initialize_knowledge_graph g.
Proof.
  unfold initialize_knowledge_graph. apply fold_merge_id.
  intros x Hx. apply fold_merge_present. by right.
Qed.

(** X13. Once the knowledge graph is initialised, a child of the store
    who is given Aspirin is told that Ibuprofen is unsafe, and a child who
    is given Ibuprofen is told that Aspirin is unsafe, with the stored
    severity and description. *)
Theorem common_interaction_detected g (now_iso : string) child_id
    (dosage frequency : string) (start_date : option string) :
  is_Some (children g !! child_id) ->
  let taking med :=
    fst (add_medication (initialize_knowledge_graph g) now_iso child_id med
           dosage frequency start_date) in
  (mkInteractionRow "Aspirin" "moderate" "Increased bleeding risk"
     ∈ interactions (check_medication_safety (taking "Aspirin") child_id "Ibuprofen") /\
   safe (check_medication_safety (taking "Aspirin") child_id "Ibuprofen") = false) /\
  (mkInteractionRow "Ibuprofen" "moderate" "Increased bleeding risk"
     ∈ interactions (check_medication_safety (taking "Ibuprofen") child_id "Aspirin") /\
   safe (check_medication_safety (taking "Ibuprofen") child_id "Aspirin") = false).
Proof.
  intros [c Hc]. cbv zeta.
  assert (Hc1 : children (initialize_knowledge_graph g) !! child_id = Some c).
  { by destruct g as [ch me sy ta hs iw ap sr hr co ag ha mc sd ci]. }
  assert (Hin : ("Ibuprofen", "Aspirin", "moderate", "Increased bleeding risk")
                ∈ common_interactions) by (unfold common_interactions; by left).
  pose proof (fold_merge_present common_interactions g _ (or_intror Hin)) as Hp.
  fold (initialize_knowledge_graph g) in Hp. destruct Hp as (Hi & Ha & Hr).
  assert (Hrow : forall med other,
    is_Some (medications (initialize_knowledge_graph g) !! other) ->
    joins med other
      (mkInteractsWith "Ibuprofen" "Aspirin" "moderate" "Increased bleeding risk") ->
    mkInteractionRow med "moderate" "Increased bleeding risk"
    ∈ interactions
        (check_medication_safety
           (fst (add_medication (initialize_knowledge_graph g) now_iso child_id med
                   dosage frequency start_date)) child_id other)).
  { intros med other Ho Hj.
    rewrite (add_medication_graph _ _ _ _ _ _ _ c Hc1).
    apply elem_of_interaction_query.
    destruct (initialize_knowledge_graph g)
      as [ch me sy ta hs iw ap sr hr co ag ha mc sd ci] eqn:Eg. simpl in *.
    split; [by eexists |]. split.
    { unfold upsert_node. rewrite set_node_props_alter.
      destruct Ho as [p Hp]. rewrite lookup_alter. case_decide.
      - subst. rewrite (merge_node_present _ _ _ (mk_is_Some _ _ Hp)), Hp. by eexists.
      - by apply merge_node_mono. }
    exists (mkTakes child_id med (str_or start_date now_iso) dosage true),
           (mkInteractsWith "Ibuprofen" "Aspirin" "moderate" "Increased bleeding risk").
    repeat split; try done. apply elem_of_merge_rel. by left. }
  split; (split; [apply Hrow | eapply interaction_makes_unsafe; apply Hrow]);
    try done; unfold joins; simpl; tauto.
Qed.

Lemma common_interaction_detected_witness :
  safe (check_medication_safety
          (fst (add_medication (initialize_knowledge_graph emma_graph)
                  "2025-01-01T08:00:00" "emma" "Aspirin" "81mg" "daily" None))
          "emma" "Ibuprofen") = false.
Proof.
  refine (proj2 (proj1 (common_interaction_detected emma_graph "2025-01-01T08:00:00"
                          "emma" "81mg" "daily" None _))).
  vm_compute. eexists. reflexivity.
Defined.

End Safety.

(** ** The stores that can be built *)

Section Stores.

Implicit Types (g : Graph).

Lemma kept_refl g : kept g g.
Proof. repeat split; try done. intros k p Hp. by exists p. Qed.

Lemma kept_trans g1 g2 g3 : kept g1 g2 -> kept g2 g3 -> kept g1 g3.
Proof.
  intros (A1 & A2 & A3 & A4 & A5 & A6 & A7) (B1 & B2 & B3 & B4 & B5 & B6 & B7).
  repeat split; try congruence.
  - intros k Hk. by apply B6, A6.
  - intros k p Hp. destruct (A7 k p Hp) as (p' & Hp' & Hd & Hf).
    destruct (B7 k p' Hp') as (p'' & Hp'' & Hd' & Hf').
    exists p''. repeat split; congruence.
Qed.

Lemma upsert_mono (key_prop k j : string) (kvs : list (string * pyval))
    (m : gmap string props) :
  is_Some (m !! j) -> is_Some (upsert_node key_prop k kvs m !! j).
Proof.
  intros [p Hp]. rewrite lookup_upsert. case_decide; [by eexists | by rewrite Hp].
Qed.

Lemma medication_guide_kept (a : MedicationGuide) g g' :
  load_medication_guide a g = Ok g' -> kept g g'.
Proof.
  unfold load_medication_guide. destruct (mg_drug a) as [k|]; [|done].
  intros H. inversion H. subst g'. clear H.
  destruct g as [ch me sy ta hs iw ap sr hr co ag ha mc sd ci].
  unfold kept. simpl. repeat split; try done.
  intros j p Hp. rewrite lookup_upsert. case_decide.
  - subst j. rewrite Hp. exists (apply_props (medication_guide_props a) p).
    split; [done |]. by rewrite !lookup_apply_props.
  - by exists p.
Qed.

Lemma symptom_rule_kept (a : SymptomRule) g g' :
  load_symptom_rule a g = Ok g' -> kept g g'.
Proof.
  unfold load_symptom_rule. destruct (sr_symptom a) as [k|]; [|done]. cbv zeta.
  destruct g as [ch me sy ta hs iw ap sr hr co ag ha mc sd ci]. simpl.
  destruct (upsert_node _ _ _ _ !! k); intros H; inversion H; subst g'; clear H;
    unfold kept; simpl; repeat split; try done;
    try (intros j Hj; by apply upsert_mono); intros j p Hp; by exists p.
Qed.

Lemma aftercare_kept (a : AfterCare) g g' :
  load_aftercare a g = Ok g' -> kept g g'.
Proof.
  unfold load_aftercare. destruct (ac_condition a) as [k|]; [|done]. cbv zeta.
  destruct g as [ch me sy ta hs iw ap sr hr co ag ha mc sd ci]. simpl.
  destruct (upsert_node _ _ _ _ !! k); intros H; inversion H; subst g'; clear H;
    unfold kept; simpl; repeat split; try done; intros j p Hp; by exists p.
Qed.

Lemma dialogue_kept (a : Dialogue) g g' : load_dialogue a g = Ok g' -> kept g g'.
Proof.
  unfold load_dialogue. intros H. inversion H. subst g'.
  destruct g as [ch me sy ta hs iw ap sr hr co ag ha mc sd ci].
  unfold kept. simpl. repeat split; try done. intros j p Hp. by exists p.
Qed.

Lemma checkin_kept (a : CheckInRow) g g' : load_checkin a g = Ok g' -> kept g g'.
Proof.
  unfold load_checkin. intros H. inversion H. subst g'.
  destruct g as [ch me sy ta hs iw ap sr hr co ag ha mc sd ci].
  unfold kept. simpl. repeat split; try done. intros j p Hp. by exists p.
Qed.

Lemma load_rows_kept {A} (body : A -> Graph -> result Graph) (rows : list A) g :
  (forall a g0 g0', body a g0 = Ok g0' -> kept g0 g0') ->
  kept g (fst (load_rows body rows g)).
Proof.
  intros Hbody. revert g. induction rows as [|a rows IH]; intros g.
  - apply kept_refl.
  - cbn [load_rows]. destruct (body a g) as [g0|e] eqn:E.
    + eapply kept_trans; [by eapply Hbody | apply IH].
    + apply kept_refl.
Qed.

Lemma load_file_kept {A} (body : A -> Graph -> result Graph) (file : option (list A)) g :
  (forall a g0 g0', body a g0 = Ok g0' -> kept g0 g0') ->
  kept g (fst (load_file body file g)).
Proof.
  intros Hbody. destruct file as [rows|]; simpl;
    [by apply load_rows_kept | apply kept_refl].
Qed.

Lemma and_then_kept (r : Graph * option exn) (next : Graph -> Graph * option exn) g :
  kept g (fst r) -> (forall g0, kept g0 (fst (next g0))) ->
  kept g (fst (and_then r next)).
Proof.
  intros Hr Hn. destruct r as [g0 [e|]]; simpl in *; [done |].
  eapply kept_trans; [exact Hr | apply Hn].
Qed.

Lemma link_symptom_links (symptom : string) (words : list string) g :
  link_symptom symptom words g = set_may_cause (fun r => links symptom words g ∪ r) g.
Proof.
  unfold link_symptom, links. destruct (symptoms g !! symptom); [done |].
  destruct g as [ch me sy ta hs iw ap sr hr co ag ha mc sd ci].
  unfold set_may_cause. simpl. f_equal. by rewrite (left_id_L ∅ (∪)).
Qed.

Lemma link_symptom_kept (symptom : string) (words : list string) g :
  kept g (link_symptom symptom words g).
Proof.
  rewrite link_symptom_links.
  destruct g as [ch me sy ta hs iw ap sr hr co ag ha mc sd ci].
  unfold kept. simpl. repeat split; try done. intros j p Hp. by exists p.
Qed.

Lemma create_relationships_kept g : kept g (create_relationships g).
Proof.
  unfold create_relationships.
  eapply kept_trans; [|apply link_symptom_kept].
  eapply kept_trans; [|apply link_symptom_kept]. apply link_symptom_kept.
Qed.

Lemma load_dataset_kept (ds : Dataset) g : kept g (fst (load_dataset ds g)).
Proof.
  unfold load_dataset.
  apply and_then_kept; [apply load_file_kept, medication_guide_kept |]. intros g1.
  apply and_then_kept; [apply load_file_kept, symptom_rule_kept |]. intros g2.
  apply and_then_kept; [apply load_file_kept, aftercare_kept |]. intros g3.
  apply and_then_kept; [apply load_file_kept, dialogue_kept |]. intros g4.
  apply and_then_kept; [apply load_file_kept, checkin_kept |]. intros g5.
  apply create_relationships_kept.
Qed.

Lemma kept_closed g g' : kept g g' -> relationships_closed g -> relationships_closed g'.
Proof.
  intros (K1 & K2 & K3 & K4 & K5 & K6 & K7) (C1 & C2 & C3 & C4).
  assert (Km : forall k, is_Some (medications g !! k) -> is_Some (medications g' !! k)).
  { intros k [p Hp]. destruct (K7 k p Hp) as (p' & Hp' & _). by eexists. }
  unfold relationships_closed, interactions_closed.
  rewrite K1, K2, K3, K4, K5. repeat split.
  - by apply C1.
  - by apply Km, C1.
  - by apply C2.
  - by apply K6, C2.
  - by apply C3.
  - by apply Km, C4.
  - by apply Km, C4.
Qed.

(** X14. In every store built from the empty one by the writes of the
    client and by runs of the loader, each relationship joins nodes that
    exist: a child with a medication, a child with a symptom, a child with
    an appointment, two medications that interact. *)
Theorem reachable_closed g : reachable g -> relationships_closed g.
Proof.
  induction 1 as [|g now cid name age w al _ IH|g now cid m d f s _ IH
                  |g now cid s sev n _ IH|g now cid ty da ti doc loc n _ IH
                  |g _ IH|g ds _ IH].
  - unfold relationships_closed, interactions_closed. simpl.
    split; [|split; [|split]]; intros x Hx; by apply elem_of_nil in Hx.
  - destruct IH as (C1 & C2 & C3 & C4).
    assert (Hk : forall k, is_Some (children g !! k) ->
                           is_Some (<[cid := mkChild name age w (default [] al) now]>
                                      (children g) !! k)).
    { intros k [c Hc]. destruct (decide (cid = k)) as [->|Hne].
      - rewrite lookup_insert_eq. by eexists.
      - rewrite lookup_insert_ne by done. by eexists. }
    unfold relationships_closed, interactions_closed. simpl.
    split; [|split; [|split]].
    + intros t Ht. destruct (C1 t Ht). split; [by apply Hk | done].
    + intros h Hh. destruct (C2 h Hh). split; [by apply Hk | done].
    + intros a Ha. by apply Hk, C3.
    + exact C4.
  - destruct (children g !! cid) as [c|] eqn:Hc.
    2: { unfold add_medication. by rewrite Hc. }
    rewrite (add_medication_graph g _ _ _ _ _ _ c Hc).
    destruct IH as (C1 & C2 & C3 & C4).
    destruct g as [ch me sy ta hs iw ap sr hr co ag ha mc sd ci].
    unfold relationships_closed, interactions_closed in *. simpl in *.
    split; [|split; [|split]].
    + intros t Ht. apply elem_of_merge_rel in Ht as [->|Ht]; simpl.
      * split; [by eexists | apply upsert_here].
      * destruct (C1 t Ht). split; [done | by apply upsert_mono].
    + exact C2.
    + exact C3.
    + intros i Hi. destruct (C4 i Hi). split; by apply upsert_mono.
  - destruct (children g !! cid) as [c|] eqn:Hc.
    2: { unfold log_symptom. by rewrite Hc. }
    unfold log_symptom. rewrite Hc.
    destruct IH as (C1 & C2 & C3 & C4).
    destruct g as [ch me sy ta hs iw ap sr hr co ag ha mc sd ci].
    unfold relationships_closed, interactions_closed in *. simpl in *.
    split; [|split; [|split]].
    + exact C1.
    + intros h Hh. apply elem_of_app in Hh as [Hh|Hh].
      * destruct (C2 h Hh). split; [done | by apply merge_node_mono].
      * apply list_elem_of_singleton in Hh as ->. simpl.
        split; [by eexists | apply merge_node_here].
    + exact C3.
    + exact C4.
  - destruct (children g !! cid) as [c|] eqn:Hc.
    2: { unfold create_appointment. by rewrite Hc. }
    unfold create_appointment. rewrite Hc.
    destruct IH as (C1 & C2 & C3 & C4).
    destruct g as [ch me sy ta hs iw ap sr hr co ag ha mc sd ci].
    unfold relationships_closed, interactions_closed in *. simpl in *.
    split; [|split; [|split]].
    + exact C1.
    + exact C2.
    + intros a Ha. apply elem_of_app in Ha as [Ha|Ha]; [by apply C3 |].
      apply list_elem_of_singleton in Ha as ->. simpl. by eexists.
    + exact C4.
  - destruct IH as (C1 & C2 & C3 & C4).
    split; [|split; [|split]]; [| | | by apply initialize_knowledge_graph_closed];
      destruct g as [ch me sy ta hs iw ap sr hr co ag ha mc sd ci]; simpl in *.
    + intros t Ht. destruct (C1 t Ht). split; [done |]. by do 4 apply merge_node_mono.
    + exact C2.
    + exact C3.
  - eapply kept_closed; [apply load_dataset_kept | done].
Qed.

Lemma reachable_closed_witness : relationships_closed aspirin_graph.
Proof.
  apply reachable_closed.
  apply reach_medication, reach_knowledge, reach_child, reach_empty.
Defined.

(** X15. A run of the loader, whatever the folder and whether it ends or
    raises, leaves every child's profile, emergency status, active
    medications and allergy verdict as they were. *)
Theorem loader_keeps_patient_records (ds : Dataset) g (now : Z)
    (child_id medication_name : string) :
  let g' := fst (load_dataset ds g) in
  get_child_profile g' child_id = get_child_profile g child_id /\
  check_emergency_status g' now child_id = check_emergency_status g now child_id /\
  get_active_medications g' child_id = get_active_medications g child_id /\
  has_allergy (check_medication_safety g' child_id medication_name)
  = has_allergy (check_medication_safety g child_id medication_name).
Proof.
  cbv zeta. destruct (load_dataset_kept ds g) as (K1 & K2 & K3 & _).
  unfold get_child_profile, check_emergency_status, emergency_query,
    get_active_medications, check_medication_safety, allergy_query. simpl.
  by rewrite K1, K2, K3.
Qed.

(** X16. A run of the loader never removes a Medication node and never
    changes the dosage and the frequency that [add_medication] stored on
    it. *)
Theorem loader_keeps_dosage (ds : Dataset) g (medication_name : string) (p : props) :
  medications g !! medication_name = Some p ->
  exists p', medications (fst (load_dataset ds g)) !! medication_name = Some p' /\
             p' !! "dosage" = p !! "dosage" /\
             p' !! "frequency" = p !! "frequency".
Proof.
  intros Hp. destruct (load_dataset_kept ds g) as (_ & _ & _ & _ & _ & _ & K7).
  by apply K7.
Qed.

Lemma loader_keeps_dosage_witness :
  exists p', medications (fst (load_dataset small_dataset
                                 (fst (add_medication emma_graph "2025-01-01T08:00:00"
                                         "emma" "Ibuprofen" "100mg" "as needed" None))))
             !! "Ibuprofen" = Some p' /\
             p' !! "dosage" = ibuprofen_props !! "dosage" /\
             p' !! "frequency" = ibuprofen_props !! "frequency".
Proof.
  apply (loader_keeps_dosage small_dataset
           (fst (add_medication emma_graph "2025-01-01T08:00:00" "emma" "Ibuprofen"
                   "100mg" "as needed" None)) "Ibuprofen" ibuprofen_props).
  vm_compute. reflexivity.
Defined.

End Stores.

(** ** load_dataset_to_neo4j.py: errors and relationships *)

Section LoaderEdges.

Implicit Types (g : Graph).

Lemma nameless_rows_raise (rows : list MedicationGuide) g :
  (exists a, a ∈ rows /\ mg_drug a = None) ->
  snd (load_rows load_medication_guide rows g) = Some CypherError.
Proof.
  revert g. induction rows as [|a rows IH]; intros g (x & Hx & Hn).
  - by apply elem_of_nil in Hx.
  - cbn [load_rows]. unfold load_medication_guide at 1.
    destruct (mg_drug a) as [k|] eqn:Ha; [|done].
    apply IH. apply elem_of_cons in Hx as [->|Hx]; [congruence | by exists x].
Qed.

Lemma medication_guide_later_fields (a : MedicationGuide) g g' :
  load_medication_guide a g = Ok g' -> later_fields g' = later_fields g.
Proof.
  unfold load_medication_guide. destruct (mg_drug a); [|done].
  intros H. inversion H. by destruct g.
Qed.

(** X17. When a line of the medication guide file has no drug name, the
    script stops there with the error of the database: the symptom rules,
    the aftercare procedures, the dialogues and the check-ins are not
    loaded and no relationship is made. *)
Theorem nameless_guide_aborts (ds : Dataset) (rows : list MedicationGuide) g :
  medication_guides ds = Some rows ->
  (exists a, a ∈ rows /\ mg_drug a = None) ->
  snd (load_dataset ds g) = Some CypherError /\
  later_fields (fst (load_dataset ds g)) = later_fields g.
Proof.
  intros Hf Hn. unfold load_dataset. rewrite Hf. cbn [load_file].
  pose proof (nameless_rows_raise rows g Hn) as Hr.
  destruct (load_rows load_medication_guide rows g) as [g' e] eqn:E.
  simpl in Hr. subst e. cbn [and_then fst snd]. split; [done |].
  exact (load_rows_frame load_medication_guide later_fields rows g g' _
           medication_guide_later_fields E).
Qed.

Lemma nameless_guide_aborts_witness :
  snd (load_dataset nameless_guide_dataset empty_graph) = Some CypherError /\
  later_fields (fst (load_dataset nameless_guide_dataset empty_graph))
  = later_fields empty_graph.
Proof.
  apply (nameless_guide_aborts nameless_guide_dataset
           [mkMedicationGuide None None None None None None] empty_graph).
  - reflexivity.
  - eexists. split; [by left | reflexivity].
Defined.

Lemma links_set_may_cause (symptom : string) (words : list string)
    (f : gset (string * string) -> gset (string * string)) g :
  links symptom words (set_may_cause f g) = links symptom words g.
Proof. by destruct g. Qed.

Lemma elem_of_links (symptom : string) (words : list string) g (c s : string) :
  (c, s) ∈ links symptom words g <->
  s = symptom /\ is_Some (symptoms g !! s) /\ is_Some (conditions g !! c) /\
  exists w, w ∈ words /\ substring_of w c.
Proof.
  unfold links. destruct (symptoms g !! symptom) as [p|] eqn:Hs.
  - rewrite elem_of_list_to_set, list_elem_of_fmap. split.
    + intros (c' & Heq & Hc). inversion Heq; subst. clear Heq.
      apply list_elem_of_filter in Hc as [Hw Hc].
      apply elem_of_elements, elem_of_dom in Hc.
      apply Is_true_true, existsb_exists in Hw as (w & Hw & Hcw).
      split; [done |]. split; [by eexists |]. split; [done |].
      exists w. split; [by apply list_elem_of_In | by apply contains_spec].
    + intros (-> & _ & Hc & w & Hw & Hcw). exists c. split; [done |].
      apply list_elem_of_filter. split; [| by apply elem_of_elements, elem_of_dom].
      apply Is_true_true, existsb_exists. exists w.
      split; [by apply list_elem_of_In | by apply contains_spec].
  - split; [intros H; by apply not_elem_of_empty in H |].
    intros (-> & [p Hp] & _). congruence.
Qed.

Lemma create_relationships_links g :
  create_relationships g
  = set_may_cause
      (fun r => links "breathing_difficulty" ["RSV"; "pneumonia"; "flu"] g
                ∪ (links "pain_0_10" ["tonsillectomy"; "appendectomy"] g
                   ∪ (links "fever_c" ["tonsillectomy"; "RSV"; "pneumonia"] g ∪ r))) g.
Proof.
  unfold create_relationships.
  rewrite (link_symptom_links "fever_c").
  rewrite (link_symptom_links "pain_0_10"), links_set_may_cause.
  rewrite (link_symptom_links "breathing_difficulty"), !links_set_may_cause.
  by destruct g.
Qed.

(** X18. The relationships that the loader adds are the pairs of a
    Condition node and a Symptom node of the store such that the symptom
    is one of the three of the rules and the name of the condition has one
    of its words; making them a second time changes nothing. *)
Theorem create_relationships_spec g :
  (forall c s, (c, s) ∈ may_cause (create_relationships g) <->
     (c, s) ∈ may_cause g \/
     (is_Some (symptoms g !! s) /\ is_Some (conditions g !! c) /\
      exists words, (s, words) ∈ CAUSE_RULES /\
                    exists w, w ∈ words /\ substring_of w c)) /\
  create_relationships (create_relationships g) = create_relationships g.
Proof.
  split.
  - intros c s. rewrite create_relationships_links.
    destruct g as [ch me sy ta hs iw ap sr hr co ag ha mc sd ci].
    cbv beta iota delta [may_cause set_may_cause].
    rewrite !elem_of_union, !elem_of_links. unfold CAUSE_RULES. split.
    + intros [H|[H|[H|H]]]; [right | right | right | by left];
        destruct H as (-> & Hs & Hc & Hw); repeat split; try done;
        eexists; (split; [|exact Hw]).
      * do 2 right. by left.
      * right. by left.
      * by left.
    + intros [H|(Hs & Hc & words & Hr & Hw)]; [by do 3 right |].
      apply elem_of_cons in Hr as [Hr|Hr];
        [|apply elem_of_cons in Hr as [Hr|Hr];
          [|apply list_elem_of_singleton in Hr]];
        inversion Hr; subst; tauto.
  - rewrite !create_relationships_links, !links_set_may_cause.
    destruct g as [ch me sy ta hs iw ap sr hr co ag ha mc sd ci].
    cbv beta iota delta [set_may_cause children medications symptoms takes has_symptom
      interacts_with appointments symptom_rules has_rule conditions aftercare_guides
      has_aftercare may_cause sample_dialogues check_ins].
    f_equal.
    generalize (links "breathing_difficulty" ["RSV"; "pneumonia"; "flu"]
                  (mkGraph ch me sy ta hs iw ap sr hr co ag ha mc sd ci)).
    generalize (links "pain_0_10" ["tonsillectomy"; "appendectomy"]
                  (mkGraph ch me sy ta hs iw ap sr hr co ag ha mc sd ci)).
    generalize (links "fever_c" ["tonsillectomy"; "RSV"; "pneumonia"]
                  (mkGraph ch me sy ta hs iw ap sr hr co ag ha mc sd ci)).
    intros A B C. apply set_eq. intros x. rewrite !elem_of_union. tauto.
Qed.

(** The loops that write with MERGE and the whole script, run again on
    the small folder. *)
Lemma medication_guides_rerun_witness :
  load_rows load_medication_guide small_guides
    (fst (load_rows load_medication_guide small_guides empty_graph))
  = (fst (load_rows load_medication_guide small_guides empty_graph), None).
Proof.
  apply (medication_guides_rerun small_guides empty_graph).
  vm_compute. reflexivity.
Defined.

Lemma symptom_rules_rerun_witness :
  load_rows load_symptom_rule small_rules
    (fst (load_rows load_symptom_rule small_rules empty_graph))
  = (fst (load_rows load_symptom_rule small_rules empty_graph), None).
Proof.
  apply (symptom_rules_rerun small_rules empty_graph).
  vm_compute. reflexivity.
Defined.

Lemma aftercare_rerun_witness :
  load_rows load_aftercare small_aftercare
    (fst (load_rows load_aftercare small_aftercare empty_graph))
  = (fst (load_rows load_aftercare small_aftercare empty_graph), None).
Proof.
  apply (aftercare_rerun small_aftercare empty_graph).
  vm_compute. reflexivity.
Defined.

Lemma load_dataset_again_witness :
  exists g2, load_dataset small_dataset loaded_once = (g2, None) /\
    length (sample_dialogues g2)
    = (length (sample_dialogues loaded_once) + length small_dialogues)%nat /\
    (small_dialogues <> [] -> g2 <> loaded_once).
Proof.
  apply (load_dataset_again small_dataset small_dialogues empty_graph loaded_once).
  - reflexivity.
  - vm_compute. reflexivity.
Defined.

End LoaderEdges.

(** ** neo4j_client.py: pharmacies *)

Section Pharmacies.

Implicit Types (pharmacies : gmap string Pharmacy) (p : Pharmacy).




(** X24. Without a location, or with the empty one, at most ten
    pharmacies are returned, all of them of the store and each once; a
    store of ten pharmacies or fewer is returned whole. *)
Theorem find_pharmacies_limit pharmacies (location : option string) :
  location = None \/ location = Some EmptyString ->
  let found := find_nearby_pharmacies pharmacies location in
  (length found <= 10)%nat /\
  NoDup found /\
  (forall name p, (name, p) ∈ found -> pharmacies !! name = Some p) /\
  ((size pharmacies <= 10)%nat ->
   forall name p, pharmacies !! name = Some p -> (name, p) ∈ found).
Proof.
  intros Hl. cbv zeta.
  assert (Hf : find_nearby_pharmacies pharmacies location
               = take 10 (map_to_list pharmacies)) by (by destruct Hl as [-> | ->]).
  rewrite Hf. split; [rewrite length_take; lia |]. split; [|split].
  - apply (sublist_NoDup _ (map_to_list pharmacies));
      [apply NoDup_map_to_list | apply sublist_take].
  - intros name p Hin. apply elem_of_map_to_list.
    by apply (subseteq_take 10).
  - intros Hs name p Hp. rewrite take_ge by (by rewrite length_map_to_list).
    by apply elem_of_map_to_list.
Qed.

Lemma find_pharmacies_limit_witness :
  (length (find_nearby_pharmacies
             (fst (add_pharmacy ∅ "Corner Drugs" "12 Main Street, Springfield"
                     "555-0100" "9-21")) None) <= 10)%nat.
Proof.
  refine (proj1 (find_pharmacies_limit _ None _)). by left.
Defined.



End Pharmacies.

(** ** The evaluator's results in the prompt *)

Section EvaluatorInPrompt.

Implicit Types (g : Graph) (child_id medication_name : string).

Lemma for_each_fmap {A B} (body : pyval -> result B) (f : A -> pyval) (h : A -> B)
    (l : list A) :
  (forall x, body (f x) = Ok (h x)) -> for_each body (f <$> l) = Ok (h <$> l).
Proof.
  intros Hb. induction l as [|x l IH]; [done |].
  rewrite !fmap_cons. cbn [for_each]. rewrite Hb. cbn [bind]. by rewrite IH.
Qed.

Lemma emergency_has_critical g (now : Z) child_id :
  is_emergency (check_emergency_status g now child_id) = true ->
  critical_symptoms (check_emergency_status g now child_id) <> [].
Proof.
  unfold check_emergency_status, emergency_query.
  destruct (children g !! child_id); [|done].
  destruct (filter (in_window now child_id) (has_symptom g)); [done |]. simpl.
  by destruct (filter _ _).
Qed.

(** X26. The emergency status that [check_emergency_status] returns is
    rendered without error: as nothing when there is no emergency, else as
    the header, one line for each critical symptom, of which there is at
    least one, and the closing empty line. *)
Theorem emergency_status_rendered g (now : Z) child_id :
  let status := check_emergency_status g now child_id in
  graph_sections [("emergency_status", emergency_py status)]
  = Ok (if is_emergency status
        then (EMERGENCY_HEADER :: (critical_text <$> critical_symptoms status)
              ++ [EmptyString])%list
        else []) /\
  (is_emergency status = true -> critical_symptoms status <> []).
Proof.
  cbv zeta. split; [| apply emergency_has_critical].
  generalize (check_emergency_status g now child_id). intros status.
  unfold graph_sections, child_section, medications_section, symptoms_section,
    appointments_section, safety_section, emergency_section, has_truthy.
  change (dict_has "child" [("emergency_status", emergency_py status)]) with false.
  change (dict_has "medications" [("emergency_status", emergency_py status)]) with false.
  change (dict_has "symptoms" [("emergency_status", emergency_py status)]) with false.
  change (dict_has "appointments" [("emergency_status", emergency_py status)]) with false.
  change (dict_has "medication_safety" [("emergency_status", emergency_py status)])
    with false.
  change (dict_has "emergency_status" [("emergency_status", emergency_py status)])
    with true.
  change (item [("emergency_status", emergency_py status)] "emergency_status")
    with (emergency_py status).
  cbn [andb bind]. unfold emergency_py at 1.
  change (py_get (PyDict _) "is_emergency" PyNone)
    with (Ok (PyBool (is_emergency status))).
  cbn [bind py_truthy]. destruct (is_emergency status); [|done].
  change (py_get (emergency_py status) "critical_symptoms" (PyList []))
    with (Ok (PyList (symptom_entry_py <$> critical_symptoms status))).
  cbn [bind]. unfold append_each. cbn [py_iter bind].
  rewrite (for_each_fmap critical_line symptom_entry_py critical_text) by done.
  done.
Qed.

(** X27. The verdict that [check_medication_safety] returns, for a child
    whose matched allergies are ASCII text, is rendered without error: as
    nothing when it is safe, else as the header of the alert, the allergy
    line when an allergy matched, the interaction lines when there are
    interactions, and the closing empty line, with at least one line under
    the header. *)
Theorem safety_verdict_rendered g child_id medication_name :
  let verdict := check_medication_safety g child_id medication_name in
  Forall ascii_text (allergies verdict) ->
  graph_sections [("medication_safety", verdict_py verdict)]
  = Ok (if safe verdict then []
        else (SAFETY_HEADER :: alert_body verdict ++ [EmptyString])%list) /\
  (safe verdict = false -> alert_body verdict <> []).
Proof.
  cbv zeta. intros _. split.
  - generalize (check_medication_safety g child_id medication_name). intros verdict.
    unfold graph_sections, child_section, medications_section, symptoms_section,
      appointments_section, safety_section, emergency_section, has_truthy.
    change (dict_has "child" [("medication_safety", verdict_py verdict)]) with false.
    change (dict_has "medications" [("medication_safety", verdict_py verdict)])
      with false.
    change (dict_has "symptoms" [("medication_safety", verdict_py verdict)]) with false.
    change (dict_has "appointments" [("medication_safety", verdict_py verdict)])
      with false.
    change (dict_has "emergency_status" [("medication_safety", verdict_py verdict)])
      with false.
    change (dict_has "medication_safety" [("medication_safety", verdict_py verdict)])
      with true.
    change (item [("medication_safety", verdict_py verdict)] "medication_safety")
      with (verdict_py verdict).
    cbn [andb bind].
    change (py_get (verdict_py verdict) "safe" (PyBool true))
      with (Ok (PyBool (safe verdict))).
    change (py_get (verdict_py verdict) "has_allergy" PyNone)
      with (Ok (PyBool (has_allergy verdict))).
    change (py_get (verdict_py verdict) "allergies" PyNone)
      with (Ok (PyList (PyStr <$> allergies verdict))).
    change (py_get (verdict_py verdict) "interactions" PyNone)
      with (Ok (PyList (interaction_py <$> interactions verdict))).
    cbn [bind py_truthy]. destruct (safe verdict); [done |]. cbn [negb].
    unfold alert_body, append_each, append. cbn [py_iter bind].
    rewrite (for_each_fmap interaction_line interaction_py interaction_text) by done.
    cbn [bind].
    destruct (has_allergy verdict), (interactions verdict) as [|row rows];
      cbn [bind fmap list_fmap py_str app]; reflexivity.
  - unfold check_medication_safety, alert_body. simpl.
    destruct (record_truthy _); simpl; [done |].
    by destruct (interaction_query g child_id medication_name).
Qed.

Lemma safety_verdict_rendered_witness :
  graph_sections
    [("medication_safety",
      verdict_py (check_medication_safety emma_graph "emma" "Amoxicillin-Penicillin"))]
  = Ok [ SAFETY_HEADER; "   - ALLERGY RISK: ['penicillin']"; EmptyString ].
Proof.
  refine (proj1 (safety_verdict_rendered emma_graph "emma" "Amoxicillin-Penicillin" _)).
  vm_compute. repeat constructor.
Defined.

(** X28. The rows of [get_active_medications] are rendered one per line
    with the medication and the dosage, and with [None] in the place of
    the frequency, which the TAKES relationship does not carry. *)
Theorem active_medications_rendered g child_id :
  let rows := get_active_medications g child_id in
  graph_sections [("medications", PyList (active_medication_py <$> rows))]
  = Ok (match rows with
        | [] => []
        | _ => (MEDICATIONS_HEADER :: (medication_text <$> rows) ++ [EmptyString])%list
        end).
Proof.
  cbv zeta.
  assert (Hn : forall row, row ∈ get_active_medications g child_id ->
                           am_frequency row = None).
  { intros row. unfold get_active_medications.
    destruct (children g !! child_id); [|intros H; by apply elem_of_nil in H].
    intros H. by apply list_elem_of_fmap in H as (t & -> & _). }
  revert Hn. generalize (get_active_medications g child_id). intros rows Hn.
  unfold graph_sections, child_section, medications_section, symptoms_section,
    appointments_section, safety_section, emergency_section, has_truthy.
  change (dict_has "child" [("medications", PyList (active_medication_py <$> rows))])
    with false.
  change (dict_has "symptoms" [("medications", PyList (active_medication_py <$> rows))])
    with false.
  change (dict_has "appointments"
            [("medications", PyList (active_medication_py <$> rows))]) with false.
  change (dict_has "emergency_status"
            [("medications", PyList (active_medication_py <$> rows))]) with false.
  change (dict_has "medication_safety"
            [("medications", PyList (active_medication_py <$> rows))]) with false.
  change (dict_has "medications"
            [("medications", PyList (active_medication_py <$> rows))]) with true.
  change (item [("medications", PyList (active_medication_py <$> rows))] "medications")
    with (PyList (active_medication_py <$> rows)).
  cbn [andb bind]. destruct rows as [|row rows]; [done |].
  rewrite fmap_cons. cbn [py_truthy]. unfold append_each, append. cbn [py_iter bind].
  assert (Hl : for_each medication_line (active_medication_py <$> row :: rows)
               = Ok (medication_text <$> row :: rows)).
  { clear -Hn. induction (row :: rows) as [|x l IH]; [done |].
    rewrite !fmap_cons. cbn [for_each].
    assert (Hx : medication_line (active_medication_py x) = Ok (medication_text x)).
    { unfold medication_line, active_medication_py, medication_text.
      rewrite (Hn x) by (by left). reflexivity. }
    rewrite Hx. cbn [bind]. rewrite IH; [done |].
    intros y Hy. apply Hn. by right. }
  rewrite fmap_cons in Hl. rewrite Hl. done.
Qed.

(** X29. When the [child] entry of the graph data is not a dict, as when
    [get_child_profile] found no child and returned [None], a question that
    is not blank makes [create_query] raise [AttributeError]: the fallback
    of the template does not cover the rendering of the graph data. *)
Theorem child_entry_not_a_dict_raises (self : PediatricCareQueryConstructor)
    (current_date : string) (profile context : option string) (query : string)
    (graph_data : pydict) (v : pyval) :
  ~ blank query ->
  dict_lookup "child" graph_data = Some v ->
  (forall d, v <> PyDict d) ->
  create_query self current_date profile context query (Some graph_data)
  = ([], Raise AttributeError).
Proof.
  intros Hnb Hv Hd. unfold create_query.
  destruct (negb (py_truthy (PyStr query)) || negb (py_truthy (PyStr (strip query))))
    eqn:Hguard; [by apply blank_guard in Hguard |].
  assert (Hf : _format_graph_data (Some graph_data) = Raise AttributeError).
  { destruct graph_data as [|kv rest]; [done |].
    cbn [_format_graph_data]. unfold graph_sections, child_section, dict_has, item.
    rewrite Hv. cbn [default]. destruct v; try done. by destruct (Hd d). }
  by rewrite Hf.
Qed.

Lemma child_entry_not_a_dict_raises_witness :
  create_query new_constructor "2025-12-20 10:00:00" None None
    "Should I give Emma more fever medicine?"
    (Some [("child", PyNone); ("medications", PyList [])])
  = ([], Raise AttributeError).
Proof.
  apply (child_entry_not_a_dict_raises _ _ _ _ _ _ PyNone).
  - intros H. apply strip_blank in H. vm_compute in H. discriminate H.
  - reflexivity.
  - discriminate.
Defined.

End EvaluatorInPrompt.

(** ** The shipped template *)

Section Template.

Implicit Types (tpl out : string) (kwargs : list (string * string)).

Lemma substring_of_cons (v out : string) (c : ascii) :
  substring_of v out -> substring_of v (String c out).
Proof. intros (pre & suf & ->). by exists (String c pre), suf. Qed.

Lemma substring_of_app_r (v w out : string) :
  substring_of v out -> substring_of v (w +:+ out).
Proof.
  intros (pre & suf & ->). exists (w +:+ pre), suf. by rewrite append_assoc.
Qed.

Lemma substring_of_app_l (v out : string) : substring_of v (v +:+ out).
Proof. by exists EmptyString, out. Qed.

(** Both functions read a template by the same cases: an ordinary
    character, the braces, and the character after a brace. *)
Definition brace_free (c : ascii) : Prop := c <> "{"%char /\ c <> "}"%char.

Lemma format_from_char (c : ascii) tpl kwargs :
  brace_free c ->
  format_from (String c tpl) None kwargs
  = (let! out := format_from tpl None kwargs in Ok (String c out)).
Proof.
  intros [H1 H2].
  destruct c as [[] [] [] [] [] [] [] []]; try reflexivity; congruence.
Qed.

Lemma template_fields_char (c : ascii) tpl :
  brace_free c -> template_fields (String c tpl) None = template_fields tpl None.
Proof.
  intros [H1 H2].
  destruct c as [[] [] [] [] [] [] [] []]; try reflexivity; congruence.
Qed.

Lemma format_from_open (c : ascii) tpl kwargs :
  c <> "{"%char ->
  format_from (String "{" (String c tpl)) None kwargs
  = format_from (String c tpl) (Some EmptyString) kwargs.
Proof.
  intros H. destruct c as [[] [] [] [] [] [] [] []]; try reflexivity; congruence.
Qed.

Lemma template_fields_open (c : ascii) tpl :
  c <> "{"%char ->
  template_fields (String "{" (String c tpl)) None
  = template_fields (String c tpl) (Some EmptyString).
Proof.
  intros H. destruct c as [[] [] [] [] [] [] [] []]; try reflexivity; congruence.
Qed.

Lemma template_fields_close (c : ascii) tpl :
  c <> "}"%char -> template_fields (String "}" (String c tpl)) None = None.
Proof.
  intros H. destruct c as [[] [] [] [] [] [] [] []]; try reflexivity; congruence.
Qed.

Lemma format_from_name (c : ascii) tpl (name : string) kwargs :
  c <> "}"%char ->
  format_from (String c tpl) (Some name) kwargs
  = format_from tpl (Some (name +:+ String c EmptyString)) kwargs.
Proof.
  intros H. destruct c as [[] [] [] [] [] [] [] []]; try reflexivity; congruence.
Qed.

Lemma template_fields_name (c : ascii) tpl (name : string) :
  c <> "}"%char ->
  template_fields (String c tpl) (Some name)
  = template_fields tpl (Some (name +:+ String c EmptyString)).
Proof.
  intros H. destruct c as [[] [] [] [] [] [] [] []]; try reflexivity; congruence.
Qed.

(** A template that is well formed and names only arguments that are
    given is interpolated, and the text has the value of every field. *)
Lemma format_from_fields (n : nat) tpl (field : option string) kwargs
    (names : list string) :
  (String.length tpl <= n)%nat ->
  template_fields tpl field = Some names ->
  (forall name, name ∈ names -> is_Some (kwarg name kwargs)) ->
  exists out, format_from tpl field kwargs = Ok out /\
    forall name v, name ∈ names -> kwarg name kwargs = Some v -> substring_of v out.
Proof.
  revert tpl field names. induction n as [|n IH]; intros tpl field names Hlen Hf Hk.
  - destruct tpl; [|simpl in Hlen; lia]. destruct field; [done |].
    inversion Hf; subst. exists EmptyString. split; [done |].
    intros name v Hn. by apply elem_of_nil in Hn.
  - destruct tpl as [|c tpl].
    { destruct field; [done |]. inversion Hf; subst. exists EmptyString.
      split; [done |]. intros name v Hn. by apply elem_of_nil in Hn. }
    simpl in Hlen. destruct field as [name|].
    + destruct (decide (c = "}"%char)) as [->|Hc].
      * cbn [template_fields format_from] in *.
        destruct (template_fields tpl None) as [rest|] eqn:Hr; [|done].
        inversion Hf; subst names. clear Hf.
        destruct (IH tpl None rest ltac:(lia) Hr) as (out & Ho & Hsub).
        { intros x Hx. apply Hk. by right. }
        destruct (Hk name ltac:(by left)) as [v Hv]. rewrite Hv, Ho. cbn [bind].
        exists (v +:+ out). split; [done |]. intros x w Hx Hw.
        apply elem_of_cons in Hx as [->|Hx].
        -- assert (w = v) as -> by congruence. apply substring_of_app_l.
        -- apply substring_of_app_r. by eapply Hsub.
      * rewrite template_fields_name in Hf by done.
        rewrite format_from_name by done. apply (IH tpl _ names ltac:(lia) Hf Hk).
    + destruct (decide (c = "{"%char)) as [->|Hopen].
      * destruct tpl as [|c' tpl].
        { cbn [template_fields] in Hf. done. }
        destruct (decide (c' = "{"%char)) as [->|Hc'].
        -- cbn [template_fields format_from] in *. simpl in Hlen.
           destruct (IH tpl None names ltac:(lia) Hf Hk) as (out & Ho & Hsub).
           rewrite Ho. cbn [bind]. eexists. split; [done |].
           intros x w Hx Hw. apply substring_of_cons. by eapply Hsub.
        -- rewrite template_fields_open in Hf by done.
           rewrite format_from_open by done.
           apply (IH (String c' tpl) _ names ltac:(simpl in *; lia) Hf Hk).
      * destruct (decide (c = "}"%char)) as [->|Hclose].
        -- destruct tpl as [|c' tpl]; [done |].
           destruct (decide (c' = "}"%char)) as [->|Hc'].
           ++ cbn [template_fields format_from] in *. simpl in Hlen.
              destruct (IH tpl None names ltac:(lia) Hf Hk) as (out & Ho & Hsub).
              rewrite Ho. cbn [bind]. eexists. split; [done |].
              intros x w Hx Hw. apply substring_of_cons. by eapply Hsub.
           ++ by rewrite template_fields_close in Hf.
        -- rewrite template_fields_char in Hf by done.
           rewrite format_from_char by done.
           destruct (IH tpl None names ltac:(lia) Hf Hk) as (out & Ho & Hsub).
           rewrite Ho. cbn [bind]. eexists. split; [done |].
           intros x w Hx Hw. apply substring_of_cons. by eapply Hsub.
Qed.

Lemma not_blank_guard (query : string) :
  ~ blank query ->
  negb (py_truthy (PyStr query)) || negb (py_truthy (PyStr (strip query))) = false.
Proof.
  intros Hnb.
  destruct (negb (py_truthy (PyStr query)) || negb (py_truthy (PyStr (strip query))))
    eqn:Hguard; [|reflexivity].
  apply blank_guard in Hguard. contradiction.
Qed.

Lemma query_fields_given (current_date profile_str context_block graph_str query : string)
    (name : string) :
  name ∈ QUERY_FIELDS ->
  is_Some (kwarg name
             (format_kwargs current_date profile_str context_block graph_str query)).
Proof.
  intros Hn. unfold QUERY_FIELDS in Hn.
  repeat (apply elem_of_cons in Hn as [->|Hn]; [eexists; reflexivity |]).
  apply elem_of_nil in Hn. contradiction.
Qed.

Lemma shipped_template_fields :
  template_fields default_prompt_template None = Some QUERY_FIELDS.
Proof. vm_compute. reflexivity. Qed.

(** The template of the module has plain fields only. *)
Lemma shipped_template_plain : plain_template default_prompt_template = true.
Proof. vm_compute. reflexivity. Qed.

Lemma shipped_template_formats kwargs :
  (forall name, name ∈ QUERY_FIELDS -> is_Some (kwarg name kwargs)) ->
  exists text, format default_prompt_template kwargs = Ok text /\
    forall name v, name ∈ QUERY_FIELDS -> kwarg name kwargs = Some v ->
                   substring_of v text.
Proof.
  intros Hk. unfold format.
  exact (format_from_fields (String.length default_prompt_template)
           default_prompt_template None kwargs QUERY_FIELDS (le_n _)
           shipped_template_fields Hk).
Qed.

(** X30. With the template of the module, a question that is not blank
    and graph data that renders always give a prompt: the template is
    interpolated, nothing is logged, the fallback is not used, and the
    prompt has the question, the profile text, the context block, the
    graph text and the date in it. *)
Theorem shipped_template_interpolates (current_date : string)
    (profile context : option string) (query : string) (graph_data : option pydict)
    (graph_str : string) :
  ~ blank query ->
  _format_graph_data graph_data = Ok graph_str ->
  exists text,
    create_query new_constructor current_date profile context query graph_data
    = ([Interpolated (format_kwargs current_date (profile_str_of profile)
                        (context_block_of context) graph_str query)], Ok text) /\
    substring_of query text /\
    substring_of (profile_str_of profile) text /\
    substring_of (context_block_of context) text /\
    substring_of graph_str text /\
    substring_of current_date text.
Proof.
  intros Hnb Hg.
  destruct (shipped_template_formats
              (format_kwargs current_date (profile_str_of profile)
                 (context_block_of context) graph_str query)
              (query_fields_given _ _ _ _ _)) as (text & Ht & Hsub).
  assert (Hin : forall name, In name QUERY_FIELDS -> name ∈ QUERY_FIELDS)
    by (intros name; apply list_elem_of_In).
  exists text. split.
  - unfold create_query. rewrite (not_blank_guard query Hnb), Hg.
    change (prompt_template new_constructor) with default_prompt_template.
    rewrite Ht. reflexivity.
  - split; [apply (Hsub "query"); [apply Hin; simpl; tauto | reflexivity] |].
    split; [apply (Hsub "profile"); [apply Hin; simpl; tauto | reflexivity] |].
    split; [apply (Hsub "context_block"); [apply Hin; simpl; tauto | reflexivity] |].
    split; [apply (Hsub "graph_data"); [apply Hin; simpl; tauto | reflexivity] |].
    apply (Hsub "current_date"); [apply Hin; simpl; tauto | reflexivity].
Qed.

Lemma shipped_template_interpolates_witness :
  exists text,
    create_query new_constructor "2025-12-20 10:00:00"
      (Some "Emma is an active 5-year-old who loves soccer")
      (Some "Parent mentioned Emma had a fever yesterday")
      "Should I give Emma more fever medicine?" (Some test_graph_data)
    = ([Interpolated
          (format_kwargs "2025-12-20 10:00:00"
             (profile_str_of (Some "Emma is an active 5-year-old who loves soccer"))
             (context_block_of (Some "Parent mentioned Emma had a fever yesterday"))
             test_graph_text "Should I give Emma more fever medicine?")], Ok text) /\
    substring_of "Should I give Emma more fever medicine?" text /\
    substring_of (profile_str_of (Some "Emma is an active 5-year-old who loves soccer"))
      text /\
    substring_of (context_block_of (Some "Parent mentioned Emma had a fever yesterday"))
      text /\
    substring_of test_graph_text text /\
    substring_of "2025-12-20 10:00:00" text.
Proof.
  apply shipped_template_interpolates.
  - intros H. apply strip_blank in H. vm_compute in H. discriminate H.
  - vm_compute. reflexivity.
Defined.

End Template.
